(** * Land-surface phenology statistics: a shallow embedding

    This development embeds [crop_mask/deafrica_temporal_statistics.py]
    (the functions [allNaN_arg], [_vpos], [_pos], [_trough], [_aos],
    [_vsos], [_sos], [_veos], [_eos], [_los], [_rog], [_ros],
    [xr_phenology] and [temporal_statistics]) and
    [crop_mask/feature_layer_extractions.py] ([xr_terrain] and
    [crop_features]) and proves properties of them.

    The Python code is written against xarray/numpy.  Each array primitive
    it calls is given here as an executable function on lists, following
    the documented semantics of the primitive:

    - a float is a member of an abstract type with the IEEE operations the
      code uses ([FloatOps]); missing values are NaNs.  Two instances are
      given: exact extended rationals, and IEEE 754 binary64 with the
      rounding of every operation and of the cast to binary32;
    - an exception is a value of [exn] carried by the error monad [Exc];
    - a 3-D [xarray.DataArray] with dimensions (y, x, time) is a grid
      (list of rows) of per-pixel series.  xarray addresses dimensions by
      name, so the storage order is immaterial and the canonical order
      (y, x, time) is used throughout. *)

From Stdlib Require Import ZArith QArith Qabs Bool Lia.
From Stdlib Require SpecFloat.
From stdpp Require Import base list strings.

Close Scope Q_scope.
Open Scope Z_scope.
Open Scope nat_scope.
Open Scope string_scope.
Open Scope list_scope.

(** ** Exceptions *)

(** The Python exceptions the module can raise. *)
Inductive exn : Type :=
  | TypeError
  | ValueError
  | KeyError
  | IndexError
  | AttributeError
  | UnboundLocalError.

Inductive Exc (A : Type) : Type :=
  | Ok (a : A)
  | Raise (e : exn).
Arguments Ok {A} a.
Arguments Raise {A} e.

Definition exc_bind {A B : Type} (m : Exc A) (k : A -> Exc B) : Exc B :=
  match m with
  | Ok a => k a
  | Raise e => Raise e
  end.

Notation "x <- m ;; k" := (exc_bind m (fun x => k))
  (at level 100, m at next level, right associativity).

(** Apply a fallible function to every element, left to right; the first
    failure is the failure of the whole. *)
Fixpoint exc_map {A B : Type} (f : A -> Exc B) (l : list A) : Exc (list B) :=
  match l with
  | [] => Ok []
  | a :: l' =>
      b <- f a ;;
      bs <- exc_map f l' ;;
      Ok (b :: bs)
  end.

(** ** Grids: the two spatial dimensions *)

Abbreviation grid A := (list (list A)) (only parsing).

Definition grid_map {A B : Type} (f : A -> B) (g : grid A) : grid B :=
  map (map f) g.

Definition grid_zip {A B C : Type} (f : A -> B -> C)
    (g : grid A) (h : grid B) : grid C :=
  zip_with (zip_with f) g h.

Definition grid_exc_map {A B : Type} (f : A -> Exc B) (g : grid A)
    : Exc (grid B) :=
  exc_map (exc_map f) g.

(** The cell at row [i] (y) and column [j] (x). *)
Definition pixel {A : Type} (g : grid A) (i j : nat) : option A :=
  match g !! i with
  | Some row => row !! j
  | None => None
  end.

(** ** Floating-point values *)

(** The float operations the module relies on.  [to_f32] is the cast
    [astype(np.float32)]; [of_Z] the conversion of an integer. *)
Class FloatOps (F : Type) : Type := {
  nan : F;
  is_nan : F -> bool;
  of_Z : Z -> F;
  fadd : F -> F -> F;
  fsub : F -> F -> F;
  fmul : F -> F -> F;
  fdiv : F -> F -> F;
  fabs : F -> F;
  flt : F -> F -> bool;
  feq : F -> F -> bool;
  to_f32 : F -> F;
}.

Section Reductions.
Context {F : Type} `{FloatOps F}.

Definition fle (a b : F) : bool := flt a b || feq a b.

(** Truth value of a float used as a condition ([np.where] casts its
    condition to bool): everything but zero is true, NaN included. *)
Definition truthy (c : F) : bool := negb (feq c (of_Z 0)).

(** [a > b]. *)
Definition fgt (a b : F) : bool := flt b a.

(** One step of a NaN-skipping running extremum: the other operand wins
    over a NaN, and [b] replaces [a] when [better a b]. *)
Definition pick (better : F -> F -> bool) (a b : F) : F :=
  if is_nan b then a else if is_nan a then b
  else if better a b then b else a.

(** [np.fmax] and [np.fmin]. *)
Definition fmax : F -> F -> F := pick flt.
Definition fmin : F -> F -> F := pick fgt.

(** [x.max(dim)] on floats skips NaNs ([np.nanmax]); a zero-length axis
    has no maximum. *)
Definition nanmax (l : list F) : Exc F :=
  match l with
  | [] => Raise ValueError
  | a :: l' => Ok (fold_left fmax l' a)
  end.

Definition nanmin (l : list F) : Exc F :=
  match l with
  | [] => Raise ValueError
  | a :: l' => Ok (fold_left fmin l' a)
  end.

(** Scan for the first position of the extreme non-NaN value: [best] is
    the extremum so far with its position, [i] the position of the head
    of [l]. *)
Fixpoint nanarg_loop (better : F -> F -> bool) (best : option (F * nat))
    (i : nat) (l : list F) : option (F * nat) :=
  match l with
  | [] => best
  | a :: l' =>
      let best' :=
        if is_nan a then best
        else match best with
             | None => Some (a, i)
             | Some (m, _) => if better m a then Some (a, i) else best
             end in
      nanarg_loop better best' (S i) l'
  end.

Definition nanarg (better : F -> F -> bool) (l : list F) : Exc nat :=
  match nanarg_loop better None 0 l with
  | Some (_, k) => Ok k
  | None => Raise ValueError
  end.

(** [x.argmax(dim, skipna=True)] ([np.nanargmax]): index of the first
    maximum ignoring NaNs; [ValueError] ("All-NaN slice encountered") when
    there is nothing but NaNs, or nothing at all. *)
Definition nanargmax : list F -> Exc nat := nanarg flt.

(** [x.argmin(dim, skipna=True)] ([np.nanargmin]). *)
Definition nanargmin : list F -> Exc nat := nanarg fgt.

(** The ordinary [np.argmax] on floats: the loop keeps the first maximum,
    and a NaN, once met, is the maximum. *)
Fixpoint argmax_loop (mp : F) (mi : nat) (i : nat) (l : list F) : nat :=
  match l with
  | [] => mi
  | a :: l' =>
      if is_nan mp then mi
      else if negb (fle a mp) then argmax_loop a i (S i) l'
      else argmax_loop mp mi (S i) l'
  end.

Definition argmax (l : list F) : Exc nat :=
  match l with
  | [] => Raise ValueError
  | a :: l' => Ok (argmax_loop a 0 1 l')
  end.

Fixpoint argmin_loop (mp : F) (mi : nat) (i : nat) (l : list F) : nat :=
  match l with
  | [] => mi
  | a :: l' =>
      if is_nan mp then mi
      else if negb (fle mp a) then argmin_loop a i (S i) l'
      else argmin_loop mp mi (S i) l'
  end.

Definition argmin (l : list F) : Exc nat :=
  match l with
  | [] => Raise ValueError
  | a :: l' => Ok (argmin_loop a 0 1 l')
  end.

(** Sorting for the median. *)
Fixpoint insert_sorted (a : F) (l : list F) : list F :=
  match l with
  | [] => [a]
  | b :: l' => if flt b a then b :: insert_sorted a l' else a :: l
  end.

Definition sort_floats (l : list F) : list F :=
  fold_right insert_sorted [] l.

(** [x.median(dim)] on floats skips NaNs ([np.nanmedian]); the median of
    nothing is NaN. *)
Definition nanmedian (l : list F) : F :=
  let s := sort_floats (List.filter (fun a => negb (is_nan a)) l) in
  let n := length s in
  if Nat.eqb n 0 then nan
  else if Nat.odd n then nth (n / 2) s nan
  else fdiv (fadd (nth (n / 2 - 1) s nan) (nth (n / 2) s nan)) (of_Z 2).

(** [np.diff]. *)
Fixpoint diff (l : list F) : list F :=
  match l with
  | a :: (b :: _) as l' => fsub b a :: diff l'
  | _ => []
  end.

(** [np.gradient(f, x, edge_order=1)] along one axis, which is what
    [DataArray.differentiate] calls: one-sided differences at both ends,
    second-order central differences inside; evenly spaced coordinates
    take the uniform formula.  numpy first compares the spacings
    [np.diff(x)] with the first of them: with fewer than two points there
    is no first spacing, and that test raises [IndexError]. *)
Definition gradient (f x : list F) : Exc (list F) :=
  let n := length f in
  if Nat.ltb n 2 then Raise IndexError
  else
    let dx := diff x in
    let dx0 := nth 0 dx nan in
    let uniform := forallb (fun d => feq d dx0) dx in
    let at_ (k : nat) := nth k f nan in
    let h (k : nat) := nth k dx nan in
    Ok (map (fun i =>
               if Nat.eqb i 0 then fdiv (fsub (at_ 1) (at_ 0)) dx0
               else if Nat.eqb i (n - 1)
               then fdiv (fsub (at_ (n - 1)) (at_ (n - 2))) (h (n - 2))
               else if uniform
               then fdiv (fsub (at_ (i + 1)) (at_ (i - 1)))
                         (fmul (of_Z 2) dx0)
               else
                 let dx1 := h (i - 1) in
                 let dx2 := h i in
                 let a := fdiv (fsub (of_Z 0) dx2)
                               (fmul dx1 (fadd dx1 dx2)) in
                 let b := fdiv (fsub dx2 dx1) (fmul dx1 dx2) in
                 let c := fdiv dx1 (fmul dx2 (fadd dx1 dx2)) in
                 fadd (fadd (fmul a (at_ (i - 1))) (fmul b (at_ i)))
                      (fmul c (at_ (i + 1))))
            (seq 0 n)).

End Reductions.

(** ** Calendar *)

(** Timestamps are [datetime64[ns]] values: nanoseconds since 1970-01-01. *)
Definition ns_per_day : Z := 86400000000000.

Definition is_leap (y : Z) : bool :=
  ((y mod 4 =? 0) && negb (y mod 100 =? 0) || (y mod 400 =? 0))%Z.

(** [.dt.dayofyear] in the proleptic Gregorian calendar: 1 for the first of
    January.  Years are counted from the first of March in 400-year eras. *)
Definition dayofyear (ns : Z) : Z :=
  (let z := ns / ns_per_day + 719468 in
   let era := z / 146097 in
   let doe := z - era * 146097 in
   let yoe := (doe - doe / 1460 + doe / 36524 - doe / 146096) / 365 in
   let doy := doe - (365 * yoe + yoe / 4 - yoe / 100) in
   if doy <? 306
   then doy + 60 + (if is_leap (yoe + era * 400) then 1 else 0)
   else doy - 305)%Z.

(** ** Integer casts and indexing *)

(** [astype(np.int16)] of an integer: two's complement wrap-around. *)
Definition wrap16 (z : Z) : Z := ((z + 32768) mod 65536 - 32768)%Z.

(** Indexing a sequence with a Python integer: negative indices count from
    the end, and an index out of range raises [IndexError]. *)
Definition py_index {A : Type} (l : list A) (k : Z) : Exc A :=
  let n := Z.of_nat (length l) in
  let k' := (if k <? 0 then k + n else k)%Z in
  if ((0 <=? k') && (k' <? n))%Z
  then match l !! Z.to_nat k' with
       | Some a => Ok a
       | None => Raise IndexError
       end
  else Raise IndexError.

(** [values[-1]]. *)
Definition py_last {A : Type} (l : list A) : Exc A := py_index l (-1)%Z.

(** ** Labelled arrays *)

(** The attribute bag [da.attrs]. *)
Definition attrs : Type := list (string * string).

(** A 3-D [DataArray] with dimensions (y, x, time): the spatial index
    coordinates, the time index coordinate, the attributes, the per-pixel
    series, and whether the data is a dask collection. *)
Record Volume (F : Type) : Type := mkVolume {
  v_x : list F;
  v_y : list F;
  v_time : list Z;
  v_attrs : attrs;
  v_values : grid (list F);
  v_dask : bool;
}.
Arguments mkVolume {F}.
Arguments v_x {F}.
Arguments v_y {F}.
Arguments v_time {F}.
Arguments v_attrs {F}.
Arguments v_values {F}.
Arguments v_dask {F}.

(** A 2-D [DataArray] with dimensions (y, x).  [l_time] is the auxiliary
    [time] coordinate that pointwise selection along time leaves behind
    (one timestamp per pixel); reductions over time have none. *)
Record Layer (F A : Type) : Type := mkLayer {
  l_x : list F;
  l_y : list F;
  l_time : option (grid Z);
  l_attrs : attrs;
  l_values : grid A;
}.
Arguments mkLayer {F A}.
Arguments l_x {F A}.
Arguments l_y {F A}.
Arguments l_time {F A}.
Arguments l_attrs {F A}.
Arguments l_values {F A}.

(** The data of a variable of the output dataset: [int16] for the
    day-of-year statistics, [float32] for the others. *)
Inductive layer_values (F : Type) : Type :=
  | Int16Grid (g : grid Z)
  | Float32Grid (g : grid F).
Arguments Int16Grid {F} g.
Arguments Float32Grid {F} g.

Record DataVar (F : Type) : Type := mkDataVar {
  var_attrs : attrs;
  var_values : layer_values F;
}.
Arguments mkDataVar {F}.
Arguments var_attrs {F}.
Arguments var_values {F}.

(** An [xarray.Dataset] over the spatial grid: the index coordinates and
    the data variables in insertion order. *)
Record Dataset (F : Type) : Type := mkDataset {
  ds_x : list F;
  ds_y : list F;
  ds_vars : list (string * DataVar F);
}.
Arguments mkDataset {F}.
Arguments ds_x {F}.
Arguments ds_y {F}.
Arguments ds_vars {F}.

(** Association lists keyed by strings, in the manner of a Python [dict]:
    lookup finds the entry, assignment replaces it in place or appends. *)
Fixpoint dict_get {V : Type} (k : string) (d : list (string * V)) : option V :=
  match d with
  | [] => None
  | (k', v) :: d' => if String.eqb k k' then Some v else dict_get k d'
  end.

Fixpoint dict_set {V : Type} (k : string) (v : V) (d : list (string * V))
    : list (string * V) :=
  match d with
  | [] => [(k, v)]
  | (k', v') :: d' =>
      if String.eqb k k' then (k, v) :: d' else (k', v') :: dict_set k v d'
  end.

(** [d[k]]: a missing key raises [KeyError]. *)
Definition dict_item {V : Type} (k : string) (d : list (string * V)) : Exc V :=
  match dict_get k d with
  | Some v => Ok v
  | None => Raise KeyError
  end.

Definition ds_keys {F : Type} (ds : Dataset F) : list string :=
  map fst (ds_vars ds).

Definition ds_get {F : Type} (k : string) (ds : Dataset F) : option (DataVar F) :=
  dict_get k (ds_vars ds).

(** The [stats] argument: a list of names, or any other single value. *)
Inductive stats_arg : Type :=
  | StatsList (l : list string)
  | StatsBare (s : string).

(** [stats if isinstance(stats, list) else [stats]]. *)
Definition stats_as_list (a : stats_arg) : list string :=
  match a with
  | StatsList l => l
  | StatsBare s => [s]
  end.

(** Transposition of a rectangular list of rows. *)
Fixpoint transpose {A : Type} (l : list (list A)) : list (list A) :=
  match l with
  | [] => []
  | r :: rs =>
      match rs with
      | [] => map (fun a => [a]) r
      | _ => zip_with cons r (transpose rs)
      end
  end.

(** ** The module *)

Section Phenology.
Context {F : Type} `{FloatOps F}.

(** What [astype('int16')] makes of a NaN.  numpy leaves the result of
    this cast undefined (x86-64 builds give 0); it is a parameter here. *)
Variable nan_int16 : Z.

(** Whether [DataArray.astype] carries the attributes over (xarray
    from 0.16.1 on) or drops them (before). *)
Variable astype_keeps_attrs : bool.

(** The [hdstats] library (not part of this repository).  Every function
    takes the (y, x, time) array of values. *)
Variable fast_completion : grid (list F) -> grid (list F).
Variable smooth : grid (list F) -> grid (list F).
Variable discordance : grid (list F) -> Z -> grid F.
Variable fourier_std : grid (list F) -> Z -> Z -> grid (list F).
Variable fourier_mean : grid (list F) -> Z -> Z -> grid (list F).
Variable fourier_median : grid (list F) -> Z -> Z -> grid (list F).
Variable mean_change : grid (list F) -> grid F.
Variable median_change : grid (list F) -> grid F.
Variable mean_abs_change : grid (list F) -> grid F.
Variable complexity : grid (list F) -> grid F.
Variable mean_central_diff : grid (list F) -> grid F.
Variable number_peaks : grid (list F) -> Z -> grid F.

(** *** allNaN_arg *)

(** The slices of a (y, x, time) array along the dimension [dim], laid
    out over the two remaining dimensions; a name that is not a dimension
    of the array is a [ValueError]. *)
Definition slices_along (dim : string) (a : grid (list F))
    : Exc (grid (list F)) :=
  if String.eqb dim "time" then Ok a
  else if String.eqb dim "x" then Ok (map transpose a)
  else if String.eqb dim "y" then Ok (map transpose (transpose a))
  else Raise ValueError.

(** [da.fillna(v)] on one element. *)
Definition fillna (v a : F) : F := if is_nan a then v else a.

(** [idx.where(~mask)] on one element: the index, or NaN where masked. *)
Definition where_not (k : nat) (m : bool) : option nat :=
  if m then None else Some k.

(** [allNaN_arg(da, dim, stat)].  The result is an array of floats that
    hold an index or NaN ([None]).  Falling off the end of the function
    returns Python's [None], the outer [None] here. *)
Definition allNaN_arg (da : grid (list F)) (dim stat : string)
    : Exc (option (grid (option nat))) :=
  (* mask = da.isnull().all(dim) *)
  sl <- slices_along dim da ;;
  let mask := grid_map (forallb is_nan) sl in
  if String.eqb stat "max" then
    (* y = da.fillna(float(da.min() - 1)) *)
    m <- nanmin (concat (concat da)) ;;
    let y := grid_map (map (fillna (fsub m (of_Z 1)))) sl in
    (* y = y.argmax(dim=dim, skipna=True).where(~mask) *)
    idx <- grid_exc_map nanargmax y ;;
    Ok (Some (grid_zip where_not idx mask))
  else if String.eqb stat "min" then
    (* y = da.fillna(float(da.max() + 1)) *)
    m <- nanmax (concat (concat da)) ;;
    let y := grid_map (map (fillna (fadd m (of_Z 1)))) sl in
    (* y = y.argmin(dim=dim, skipna=True).where(~mask) *)
    idx <- grid_exc_map nanargmin y ;;
    Ok (Some (grid_zip where_not idx mask))
  else Ok None.

(** [.astype('int16')] applied to the result of [allNaN_arg]. *)
Definition astype_int16_index (o : option nat) : Z :=
  match o with
  | Some k => wrap16 (Z.of_nat k)
  | None => nan_int16
  end.

(** *** Peak, trough, amplitude *)

(** A reduction over time: the index coordinates stay, the time
    coordinate goes, and so do the attributes (xarray's default for
    reductions is [keep_attrs=False]). *)
Definition reduce_time {A : Type} (f : list F -> Exc A) (da : Volume F)
    : Exc (Layer F A) :=
  g <- grid_exc_map f (v_values da) ;;
  Ok (mkLayer (v_x da) (v_y da) None [] g).

(** [_vpos(da) = da.max('time')]. *)
Definition _vpos (da : Volume F) : Exc (Layer F F) := reduce_time nanmax da.

(** [_trough(da) = da.min('time')]. *)
Definition _trough (da : Volume F) : Exc (Layer F F) := reduce_time nanmin da.

(** [x.isel(time=idx)] with an array of indices: pointwise selection.
    Each pixel keeps the value and the timestamp at its own index; the
    attributes are kept. *)
Definition isel_time (da : Volume F) (idx : grid Z) : Exc (Layer F F) :=
  vals <- grid_exc_map (fun '(s, k) => py_index s k)
                       (grid_zip pair (v_values da) idx) ;;
  ts <- grid_exc_map (py_index (v_time da)) idx ;;
  Ok (mkLayer (v_x da) (v_y da) (Some ts) (v_attrs da) vals).

(** [x.time.dt.dayofyear] of a pointwise selection: a fresh array (no
    attributes) over the same coordinates.  An array without a [time]
    coordinate has no such attribute. *)
Definition time_dayofyear {A : Type} (l : Layer F A) : Exc (Layer F Z) :=
  match l_time l with
  | Some ts => Ok (mkLayer (l_x l) (l_y l) (Some ts) [] (grid_map dayofyear ts))
  | None => Raise AttributeError
  end.

(** [_pos(da) = da.isel(time=da.argmax('time')).time.dt.dayofyear]; on
    floats [argmax] skips NaNs unless told otherwise. *)
Definition _pos (da : Volume F) : Exc (Layer F Z) :=
  idx <- grid_exc_map nanargmax (v_values da) ;;
  sel <- isel_time da (grid_map Z.of_nat idx) ;;
  time_dayofyear sel.

(** [_aos(vpos, trough) = vpos - trough]; arithmetic drops attributes. *)
Definition _aos (vpos trough : Layer F F) : Layer F F :=
  mkLayer (l_x vpos) (l_y vpos) None []
          (grid_zip fsub (l_values vpos) (l_values trough)).

(** *** Start and end of season *)

(** [pos.time]: the auxiliary time coordinate of a selection. *)
Definition layer_time {A : Type} (l : Layer F A) : Exc (grid Z) :=
  match l_time l with
  | Some ts => Ok ts
  | None => Raise AttributeError
  end.

(** [da.where(da.time < pos.time)] (with [cmp] the comparison): the
    condition broadcasts the time axis against the per-pixel timestamp;
    [where] keeps coordinates and attributes. *)
Definition where_time (cmp : Z -> Z -> bool) (da : Volume F)
    (ptime : grid Z) : Volume F :=
  mkVolume (v_x da) (v_y da) (v_time da) (v_attrs da)
    (grid_zip (fun s tp =>
                 zip_with (fun t v => if cmp t tp then v else nan)
                          (v_time da) s)
              (v_values da) ptime)
    (v_dask da).

(** The time coordinate as numbers, the way [differentiate] sees it:
    nanoseconds from the earliest timestamp. *)
Definition time_numeric (ts : list Z) : list F :=
  match ts with
  | [] => []
  | t :: ts' =>
      let t0 := fold_left Z.min ts' t in
      map (fun u => of_Z (u - t0)%Z) ts
  end.

(** [x.differentiate('time')]. *)
Definition differentiate_time (da : Volume F) : Exc (grid (list F)) :=
  grid_exc_map (fun s => gradient s (time_numeric (v_time da)))
               (v_values da).

(** [x.where(cond)] where [cond] is an array of floats. *)
Definition where_float (da : Volume F) (cond : grid (list F)) : Volume F :=
  mkVolume (v_x da) (v_y da) (v_time da) (v_attrs da)
    (grid_zip (zip_with (fun v c => if truthy c then v else nan))
              (v_values da) cond)
    (v_dask da).

(** [x - median] with the median broadcast along time. *)
Definition distance_from (vals : grid (list F)) (median : grid F)
    : grid (list F) :=
  grid_zip (fun s m => map (fun v => fsub v m) s) vals median.

(** [allNaN_arg(d, 'time', 'min').astype('int16')]; Python's [None] has
    no [astype]. *)
Definition argmin_index (d : grid (list F)) : Exc (grid Z) :=
  r <- allNaN_arg d "time" "min" ;;
  match r with
  | Some g => Ok (grid_map astype_int16_index g)
  | None => Raise AttributeError
  end.

(** The two [if method == ...] statements that bind [idx], and the use of
    [idx] that follows: unbound if neither fired. *)
Definition select_index (method first_name : string) (distance : grid (list F))
    : Exc (grid Z) :=
  idx1 <- (if String.eqb method first_name
           then (i <- argmin_index distance ;; Ok (Some i))
           else Ok None) ;;
  idx2 <- (if String.eqb method "median"
           then (i <- argmin_index (grid_map (map fabs) distance) ;;
                 Ok (Some i))
           else Ok idx1) ;;
  match idx2 with
  | Some i => Ok i
  | None => Raise UnboundLocalError
  end.

(** [_vsos(da, pos, method_sos)]. *)
Definition _vsos (da : Volume F) (pos : Layer F Z) (method_sos : string)
    : Exc (Layer F F) :=
  ptime <- layer_time pos ;;
  (* select timesteps before peak of season *)
  let greenup := where_time Z.ltb da ptime in
  (* find the first order slopes *)
  green_deriv <- differentiate_time greenup ;;
  (* find where the first order slope is positive *)
  let pos_green_deriv :=
    grid_map (map (fun d => if flt (of_Z 0) d then d else nan)) green_deriv in
  (* positive slopes on greening side *)
  let pos_greenup := where_float greenup pos_green_deriv in
  let median := grid_map nanmedian (v_values pos_greenup) in
  let distance := distance_from (v_values pos_greenup) median in
  idx <- select_index method_sos "first" distance ;;
  isel_time pos_greenup idx.

(** [_sos(vsos) = vsos.time.dt.dayofyear]. *)
Definition _sos (vsos : Layer F F) : Exc (Layer F Z) := time_dayofyear vsos.

(** [_veos(da, pos, method_eos)]. *)
Definition _veos (da : Volume F) (pos : Layer F Z) (method_eos : string)
    : Exc (Layer F F) :=
  ptime <- layer_time pos ;;
  let senesce := where_time Z.gtb da ptime in
  senesce_deriv <- differentiate_time senesce ;;
  let neg_senesce_deriv :=
    grid_map (map (fun d => if flt d (of_Z 0) then d else nan))
             senesce_deriv in
  let neg_senesce := where_float senesce neg_senesce_deriv in
  let median := grid_map nanmedian (v_values neg_senesce) in
  let distance := distance_from (v_values neg_senesce) median in
  idx <- select_index method_eos "last" distance ;;
  isel_time neg_senesce idx.

(** [_eos(veos) = veos.time.dt.dayofyear]. *)
Definition _eos (veos : Layer F F) : Exc (Layer F Z) := time_dayofyear veos.

(** *** Length of season and rates *)

(** [x.where(c)] on an integer: the result is a float, NaN ([None])
    where [c] is false.  Days of the year are held exactly. *)
Definition where_int (c : bool) (z : Z) : option Z :=
  if c then Some z else None.

Definition nan_lift2 (f : Z -> Z -> Z) (a b : option Z) : option Z :=
  match a, b with
  | Some u, Some v => Some (f u v)
  | _, _ => None
  end.

(** One cell of [_los]:
    [xr.where(los >= 0, los, last + (eos.where(los < 0) - sos.where(los < 0)))]
    with [los = eos - sos]. *)
Definition los_cell (last e s : Z) : option Z :=
  let los := (e - s)%Z in
  let wrapped :=
    nan_lift2 Z.add (Some last)
      (nan_lift2 Z.sub (where_int (los <? 0)%Z e) (where_int (los <? 0)%Z s)) in
  if (0 <=? los)%Z then Some los else wrapped.

(** [_los(da, eos, sos)]; [last] is
    [da.time.dt.dayofyear.values[-1]]. *)
Definition _los (da : Volume F) (eos sos : Layer F Z)
    : Exc (Layer F (option Z)) :=
  last <- py_last (map dayofyear (v_time da)) ;;
  Ok (mkLayer (l_x eos) (l_y eos) None []
              (grid_zip (los_cell last) (l_values eos) (l_values sos))).

(** [(a - b) / (p - q)] with float values and integer days. *)
Definition rate (a b : Layer F F) (p q : Layer F Z) : Layer F F :=
  mkLayer (l_x a) (l_y a) None []
    (grid_zip fdiv
       (grid_zip fsub (l_values a) (l_values b))
       (grid_map of_Z (grid_zip Z.sub (l_values p) (l_values q)))).

(** [_rog(vpos, vsos, pos, sos) = (vpos - vsos) / (pos - sos)]. *)
Definition _rog (vpos vsos : Layer F F) (pos sos : Layer F Z) : Layer F F :=
  rate vpos vsos pos sos.

(** [_ros(veos, vpos, eos, pos) = (veos - vpos) / (eos - pos)]. *)
Definition _ros (veos vpos : Layer F F) (eos pos : Layer F Z) : Layer F F :=
  rate veos vpos eos pos.

(** *** xr_phenology *)

(** A named statistic before it enters the dataset: a 2-D [DataArray]
    with its coordinates, attributes and typed values. *)
Record StatArray : Type := mkStatArray {
  sa_x : list F;
  sa_y : list F;
  sa_var : DataVar F;
}.

(** [x.to_dataset(name=k)]. *)
Definition to_dataset (k : string) (a : StatArray) : Dataset F :=
  mkDataset (sa_x a) (sa_y a) [(k, sa_var a)].

(** [ds[k] = a] for an array on the coordinates of [ds]. *)
Definition ds_setitem (ds : Dataset F) (k : string) (a : StatArray)
    : Dataset F :=
  mkDataset (ds_x ds) (ds_y ds) (dict_set k (sa_var a) (ds_vars ds)).

Definition astype_attrs (a : attrs) : attrs :=
  if astype_keeps_attrs then a else [].

(** [x.astype(np.int16)] for an integer array. *)
Definition astype_int16 (l : Layer F Z) : StatArray :=
  mkStatArray (l_x l) (l_y l)
    (mkDataVar (astype_attrs (l_attrs l))
               (Int16Grid (grid_map wrap16 (l_values l)))).

(** [x.astype(np.int16)] for a float array holding integers or NaN. *)
Definition astype_int16_float (l : Layer F (option Z)) : StatArray :=
  mkStatArray (l_x l) (l_y l)
    (mkDataVar (astype_attrs (l_attrs l))
               (Int16Grid (grid_map (fun o => match o with
                                              | Some z => wrap16 z
                                              | None => nan_int16
                                              end) (l_values l)))).

(** [x.astype(np.float32)]. *)
Definition astype_float32 (l : Layer F F) : StatArray :=
  mkStatArray (l_x l) (l_y l)
    (mkDataVar (astype_attrs (l_attrs l))
               (Float32Grid (grid_map to_f32 (l_values l)))).

(** [xr.DataArray(values, attrs=attrs, coords={'x': x, 'y': y, 'time':
    time}, dims=['y', 'x', 'time'])]: the shape has to agree with the
    coordinates. *)
Definition shape_ok3 (x y : list F) (t : list Z) (vals : grid (list F))
    : bool :=
  Nat.eqb (length vals) (length y)
  && forallb (fun row =>
                Nat.eqb (length row) (length x)
                && forallb (fun s => Nat.eqb (length s) (length t)) row)
             vals.

Definition shape_ok2 {A : Type} (x y : list F) (vals : grid A) : bool :=
  Nat.eqb (length vals) (length y)
  && forallb (fun row => Nat.eqb (length row) (length x)) vals.

(** The [if complete_smooth:] block: what it prints and the array it
    rebuilds. *)
Definition complete_and_smooth (da : Volume F)
    : list string * Exc (Volume F) :=
  let vals := smooth (fast_completion (v_values da)) in
  (["Completing..."; "   Smoothing..."],
   if shape_ok3 (v_x da) (v_y da) (v_time da) vals
   then Ok (mkVolume (v_x da) (v_y da) (v_time da) (v_attrs da) vals false)
   else Raise ValueError).

(** [mask = da.isnull().all('time'); da = da.where(~mask, other=0)]. *)
Definition fill_all_nan (da : Volume F) : Volume F :=
  mkVolume (v_x da) (v_y da) (v_time da) (v_attrs da)
    (grid_map (fun s => if forallb is_nan s
                        then map (fun _ => of_Z 0) s else s)
              (v_values da))
    (v_dask da).

(** The statistics and [stats_dict], in the order of the source. *)
Definition phenology_stats (da : Volume F) (method_sos method_eos : string)
    : Exc (list (string * StatArray)) :=
  vpos <- _vpos da ;;
  pos <- _pos da ;;
  trough <- _trough da ;;
  let aos := _aos vpos trough in
  vsos <- _vsos da pos method_sos ;;
  sos <- _sos vsos ;;
  veos <- _veos da pos method_eos ;;
  eos <- _eos veos ;;
  los <- _los da eos sos ;;
  let rog := _rog vpos vsos pos sos in
  let ros := _ros veos vpos eos pos in
  Ok [ ("SOS", astype_int16 sos);
       ("EOS", astype_int16 eos);
       ("vSOS", astype_float32 vsos);
       ("vPOS", astype_float32 vpos);
       ("Trough", astype_float32 trough);
       ("POS", astype_int16 pos);
       ("vEOS", astype_float32 veos);
       ("LOS", astype_int16_float los);
       ("AOS", astype_float32 aos);
       ("ROG", astype_float32 rog);
       ("ROS", astype_float32 ros) ].

(** [for stat in stats[1:]: ds[stat] = stats_dict[stat]]. *)
Fixpoint add_stats (stats_dict : list (string * StatArray))
    (rest : list string) (ds : Dataset F) : Exc (Dataset F) :=
  match rest with
  | [] => Ok ds
  | stat :: rest' =>
      a <- dict_item stat stats_dict ;;
      add_stats stats_dict rest' (ds_setitem ds stat a)
  end.

(** The assembly of the dataset from [stats_dict]; [stats[0]] of an empty
    list is an [IndexError]. *)
Definition build_dataset (stats_dict : list (string * StatArray))
    (stats : list string) : Exc (Dataset F) :=
  match stats with
  | [] => Raise IndexError
  | s0 :: rest =>
      a0 <- dict_item s0 stats_dict ;;
      add_stats stats_dict rest (to_dataset s0 a0)
  end.

(** The default of the [stats] parameter. *)
Definition default_stats : list string :=
  ["SOS"; "POS"; "EOS"; "Trough"; "vSOS"; "vPOS"; "vEOS"; "LOS"; "AOS";
   "ROG"; "ROS"].

(** [xr_phenology(da, stats, method_sos, method_eos, complete_smooth)]:
    the lines printed and the outcome. *)
Definition xr_phenology (da : Volume F) (stats : stats_arg)
    (method_sos method_eos : string) (complete_smooth : bool)
    : list string * Exc (Dataset F) :=
  (* Check inputs before running calculations *)
  if v_dask da then ([], Raise TypeError)
  else if negb (existsb (String.eqb method_sos) ["median"; "first"])
  then ([], Raise ValueError)
  else if negb (existsb (String.eqb method_eos) ["median"; "last"])
  then ([], Raise ValueError)
  else
    let stats := stats_as_list stats in
    let '(out, r) := if complete_smooth then complete_and_smooth da
                     else ([], Ok da) in
    match r with
    | Raise e => (out, Raise e)
    | Ok da1 =>
        let da2 := fill_all_nan da1 in
        (out ++ ["      Phenology..."],
         d <- phenology_stats da2 method_sos method_eos ;;
         build_dataset d stats)
    end.

(** *** temporal_statistics *)

(** [a[:, :, k]]. *)
Definition column (k : Z) (a : grid (list F)) : Exc (grid F) :=
  grid_exc_map (fun s => py_index s k) a.

(** The dictionary of closures over [hdstats]. *)
Definition temporal_stats_dict
    : list (string * (grid (list F) -> Exc (grid F))) :=
  [ ("discordance", fun da => Ok (discordance da 10));
    ("f_std_n1", fun da => column 0 (fourier_std da 3 5));
    ("f_std_n2", fun da => column 1 (fourier_std da 3 5));
    ("f_std_n3", fun da => column 2 (fourier_std da 3 5));
    ("f_mean_n1", fun da => column 0 (fourier_mean da 3 5));
    ("f_mean_n2", fun da => column 1 (fourier_mean da 3 5));
    ("f_mean_n3", fun da => column 2 (fourier_mean da 3 5));
    ("f_median_n1", fun da => column 0 (fourier_median da 3 5));
    ("f_median_n2", fun da => column 1 (fourier_median da 3 5));
    ("f_median_n3", fun da => column 2 (fourier_median da 3 5));
    ("mean_change", fun da => Ok (mean_change da));
    ("median_change", fun da => Ok (median_change da));
    ("abs_change", fun da => Ok (mean_abs_change da));
    ("complexity", fun da => Ok (complexity da));
    ("central_diff", fun da => Ok (mean_central_diff da));
    ("num_peaks", fun da => Ok (number_peaks da 10)) ].

(** [xr.DataArray(values, attrs=attrs, coords={'x': x, 'y': y},
    dims=['y', 'x'])]. *)
Definition stat_array (x y : list F) (a : attrs) (vals : grid F)
    : Exc StatArray :=
  if shape_ok2 x y vals
  then Ok (mkStatArray x y (mkDataVar a (Float32Grid vals)))
  else Raise ValueError.

(** Calling what [stats_dict.get(name)] returned: [None] is not
    callable. *)
Definition call_stat (name : string) (vals : grid (list F))
    : Exc (grid F) :=
  match dict_get name temporal_stats_dict with
  | Some f => f vals
  | None => Raise TypeError
  end.

(** [for stat in stats[1:]: ...] of [temporal_statistics]. *)
Fixpoint temporal_loop (da : Volume F) (vals : grid (list F))
    (rest : list string) (out : list string) (ds : Dataset F)
    : list string * Exc (Dataset F) :=
  match rest with
  | [] => (out, Ok ds)
  | stat :: rest' =>
      let out' := out ++ [String.append "      " stat] in
      match (v <- call_stat stat vals ;;
             stat_array (v_x da) (v_y da) (v_attrs da) v) with
      | Ok a => temporal_loop da vals rest' out' (ds_setitem ds stat a)
      | Raise e => (out', Raise e)
      end
  end.

(** [temporal_statistics(da, stats)]. *)
Definition temporal_statistics (da : Volume F) (stats : stats_arg)
    : list string * Exc (Dataset F) :=
  let vals := fast_completion (v_values da) in
  let stats := stats_as_list stats in
  let out := ["Completing..."; "   Statistics:"] in
  match stats with
  | [] => (out, Raise IndexError)
  | s0 :: rest =>
      let out' := out ++ [String.append "      " s0] in
      match (v <- call_stat s0 vals ;;
             stat_array (v_x da) (v_y da) (v_attrs da) v) with
      | Ok a => temporal_loop da vals rest out' (to_dataset s0 a)
      | Raise e => (out', Raise e)
      end
  end.

End Phenology.

Arguments StatArray : clear implicits.

(** ** The module of the feature layers

    The two functions of [feature_layer_extractions.py].  What they call
    outside this repository (datacube, odc.algo, richdem, pyproj, rasterio,
    the band indices script, and xarray's operations on whole datasets) is
    a parameter that returns a value or raises. *)

(** The values passed by keyword in a call of [xr_phenology]. *)
Inductive pyarg : Type :=
  | ArgList (l : list string)
  | ArgStr (s : string).

(** The parameters of [xr_phenology], in the order of its signature. *)
Definition xr_phenology_params : list string :=
  ["da"; "stats"; "method_sos"; "method_eos"; "complete_smooth"].

(** The binding of a call with one positional argument and keywords:
    Python binds the arguments before the body runs, and raises
    [TypeError] for a keyword that names no parameter or names the
    parameter the positional argument went to. *)
Definition bind_keywords (params keywords : list string) : Exc unit :=
  match params with
  | [] => Raise TypeError
  | _ :: named =>
      if forallb (fun k => existsb (String.eqb k) named) keywords
      then Ok tt else Raise TypeError
  end.

(** Truth value of an argument: an empty list or string is false. *)
Definition arg_truth (a : pyarg) : bool :=
  match a with
  | ArgList l => negb (Nat.eqb (length l) 0)
  | ArgStr s => negb (String.eqb s "")
  end.

Section FeatureLayers.
Context {F : Type} `{FloatOps F}.
Variable nan_int16 : Z.
Variable astype_keeps_attrs : bool.
Variable fast_completion smooth : grid (list F) -> grid (list F).

(** [xr_phenology(da, k1=v1, ...)]: the binding, the defaults of the
    signature, and the body.  A method that is not a string is in neither
    tuple of the validation. *)
Definition xr_phenology_kw (da : Volume F) (kwargs : list (string * pyarg))
    : Exc (Dataset F) :=
  _ <- bind_keywords xr_phenology_params (map fst kwargs) ;;
  let stats := match dict_get "stats" kwargs with
               | Some (ArgList l) => StatsList l
               | Some (ArgStr s) => StatsBare s
               | None => StatsList default_stats
               end in
  let method (name : string) : option string :=
    match dict_get name kwargs with
    | Some (ArgStr s) => Some s
    | Some (ArgList _) => None
    | None => Some "median"
    end in
  let complete_smooth := match dict_get "complete_smooth" kwargs with
                         | Some a => arg_truth a
                         | None => true
                         end in
  match method "method_sos", method "method_eos" with
  | Some method_sos, Some method_eos =>
      snd (xr_phenology nan_int16 astype_keeps_attrs fast_completion smooth
             da stats method_sos method_eos complete_smooth)
  | _, _ => if v_dask da then Raise TypeError else Raise ValueError
  end.

(** *** xr_terrain *)

(** The elevation array as it is passed in, and richdem's array. *)
Variable DEM : Type.
Variable RDA : Type.

(** [da.squeeze()]: the array over (y, x) that is left once the
    dimensions of length one are dropped; coordinates and attributes are
    kept. *)
Variable squeeze : DEM -> Layer F F.

(** [rd.rdarray(data, no_data=...)]. *)
Variable rdarray : grid F -> string -> Exc RDA.

(** [pyproj.crs.CRS(crs).to_wkt()]. *)
Variable crs_to_wkt : string -> Exc string.

(** [da.geobox.affine.to_gdal()]. *)
Variable geotransform : Layer F F -> Exc (list F).

(** [rd.TerrainAttribute(rda, attrib=attribute)] for an array with its
    projection and geotransform set. *)
Variable TerrainAttribute :
  RDA -> string -> list F -> option string -> Exc (grid F).

(** [xr_terrain(da, attribute=None)]. *)
Definition xr_terrain (da : DEM) (attribute : option string)
    : Exc (Layer F F) :=
  (* remove time if its there *)
  let da := squeeze da in
  (* convert to richdem array *)
  nodata <- dict_item "nodata" (l_attrs da) ;;
  rda <- rdarray (l_values da) nodata ;;
  (* add projection and geotransform *)
  crs <- dict_item "crs" (l_attrs da) ;;
  projection <- crs_to_wkt crs ;;
  gt <- geotransform da ;;
  (* calulate attribute *)
  attrs <- TerrainAttribute rda projection gt attribute ;;
  (* return as xarray DataArray *)
  if shape_ok2 (l_x da) (l_y da) attrs
  then Ok (mkLayer (l_x da) (l_y da) None (l_attrs da) attrs)
  else Raise ValueError.

(** *** crop_features *)

(** The dataset of bands passed in, the datacube handle and the dataset
    with the index. *)
Variable BANDS : Type.
Variable CUBE : Type.
Variable INDICES : Type.

(** [datacube.Datacube(app=...)]. *)
Variable Datacube : string -> Exc CUBE.

(** [calculate_indices(ds, index=..., drop=..., collection=...)]. *)
Variable calculate_indices :
  BANDS -> list string -> bool -> string -> Exc INDICES.

(** [data.NDVI]. *)
Variable get_NDVI : INDICES -> Exc (Volume F).

(** The three statements of the rainfall climatology: the file opened
    with rasterio, reprojected to the geobox of [ds], as a dataset named
    'chirps'. *)
Variable rainfall_climatology : BANDS -> Exc (Dataset F).

(** [dc.load(product='srtm', like=ds.geobox).squeeze().elevation]. *)
Variable load_elevation : CUBE -> BANDS -> Exc DEM.

(** [slope.to_dataset(name='slope')]. *)
Variable slope_to_dataset : Layer F F -> Dataset F.

(** [ds.median('time')]. *)
Variable median_time : BANDS -> Exc (Dataset F).

(** [xr.merge([...], compat='override')]. *)
Variable merge_override : list (Dataset F) -> Exc (Dataset F).

(** [assign_crs(result, crs=ds.geobox.crs).squeeze()]. *)
Variable assign_crs_squeeze : BANDS -> Dataset F -> Exc (Dataset F).

(** [crop_features(ds)]. *)
Definition crop_features (ds : BANDS) : Exc (Dataset F) :=
  dc <- Datacube "training" ;;
  data <- calculate_indices ds ["NDVI"] true "s2" ;;
  (* temporal stats *)
  ndvi <- get_NDVI data ;;
  ts <- xr_phenology_kw ndvi
          [("stats", ArgList ["Trough"; "vSOS"; "vPOS"; "AOS"; "ROG"; "ROS"]);
           ("complete", ArgStr "fast_completion")] ;;
  (* rainfall climatology *)
  chirps <- rainfall_climatology ds ;;
  (* slope *)
  slope <- load_elevation dc ds ;;
  slope <- xr_terrain slope (Some "slope_riserun") ;;
  let slope := slope_to_dataset slope in
  (* Surface reflectance results *)
  sr <- median_time ds ;;
  result <- merge_override [ts; sr; chirps; slope] ;;
  assign_crs_squeeze ds result.

End FeatureLayers.

(** ** An exact model of the floats

    Extended rationals: every finite value is held exactly (rounding is not
    modelled), with the two infinities and NaN of IEEE 754 arithmetic. *)

Inductive xfloat : Type :=
  | XNaN
  | XNegInf
  | XFin (q : Q)
  | XPosInf.

Definition q_ltb (a b : Q) : bool := negb (Qle_bool b a).

Definition xf_is_nan (a : xfloat) : bool :=
  match a with
  | XNaN => true
  | _ => false
  end.

Definition xf_neg (a : xfloat) : xfloat :=
  match a with
  | XNaN => XNaN
  | XNegInf => XPosInf
  | XFin q => XFin (Qred (Qopp q))
  | XPosInf => XNegInf
  end.

Definition xf_add (a b : xfloat) : xfloat :=
  match a, b with
  | XNaN, _ | _, XNaN => XNaN
  | XPosInf, XNegInf | XNegInf, XPosInf => XNaN
  | XPosInf, _ | _, XPosInf => XPosInf
  | XNegInf, _ | _, XNegInf => XNegInf
  | XFin p, XFin q => XFin (Qred (Qplus p q))
  end.

Definition xf_sub (a b : xfloat) : xfloat := xf_add a (xf_neg b).

(** The sign of a value: -1, 0 or 1 (NaN has none). *)
Definition xf_sign (a : xfloat) : Z :=
  match a with
  | XNaN => 0
  | XNegInf => -1
  | XFin q => Z.sgn (Qnum q)
  | XPosInf => 1
  end%Z.

Definition xf_inf_of_sign (s : Z) : xfloat :=
  if (s <? 0)%Z then XNegInf else XPosInf.

Definition xf_mul (a b : xfloat) : xfloat :=
  match a, b with
  | XNaN, _ | _, XNaN => XNaN
  | XFin p, XFin q => XFin (Qred (Qmult p q))
  | _, _ =>
      if (xf_sign a * xf_sign b =? 0)%Z then XNaN
      else xf_inf_of_sign (xf_sign a * xf_sign b)
  end.

Definition xf_div (a b : xfloat) : xfloat :=
  match a, b with
  | XNaN, _ | _, XNaN => XNaN
  | XFin p, XFin q =>
      if (Qnum q =? 0)%Z
      then (if (Qnum p =? 0)%Z then XNaN else xf_inf_of_sign (Z.sgn (Qnum p)))
      else XFin (Qred (Qdiv p q))
  | XFin _, _ => XFin 0
  | _, XFin q => xf_inf_of_sign (if (Qnum q <? 0)%Z then - xf_sign a
                                 else xf_sign a)%Z
  | _, _ => XNaN
  end.

Definition xf_abs (a : xfloat) : xfloat :=
  match a with
  | XNaN => XNaN
  | XFin q => XFin (Qred (Qabs q))
  | _ => XPosInf
  end.

Definition xf_lt (a b : xfloat) : bool :=
  match a, b with
  | XNaN, _ | _, XNaN => false
  | XNegInf, XNegInf => false
  | XNegInf, _ => true
  | _, XNegInf => false
  | XPosInf, _ => false
  | _, XPosInf => true
  | XFin p, XFin q => q_ltb p q
  end.

Definition xf_eq (a b : xfloat) : bool :=
  match a, b with
  | XNegInf, XNegInf | XPosInf, XPosInf => true
  | XFin p, XFin q => Qeq_bool p q
  | _, _ => false
  end.

#[export] Instance xfloat_ops : FloatOps xfloat := {|
  nan := XNaN;
  is_nan := xf_is_nan;
  of_Z := fun z => XFin (inject_Z z);
  fadd := xf_add;
  fsub := xf_sub;
  fmul := xf_mul;
  fdiv := xf_div;
  fabs := xf_abs;
  flt := xf_lt;
  feq := xf_eq;
  to_f32 := fun a => a;
|}.

(** The timestamp (at midnight) of a day of a year. *)
Definition days_before_year (y : Z) : Z :=
  (let p := y - 1 in 365 * p + p / 4 - p / 100 + p / 400 - 719162)%Z.

Definition timestamp (year doy : Z) : Z :=
  ((days_before_year year + doy - 1) * ns_per_day)%Z.

(** Literals. *)
Definition xq (n : Z) (d : positive) : xfloat := XFin (Qred (Qmake n d)).

(** ** A model of the floats with rounding

    IEEE 754 binary64 as the Standard Library specifies it ([SpecFloat],
    round to nearest, ties to even), with the cast to binary32 that
    [astype(np.float32)] performs: the value is rounded to 24 bits of
    precision and, being a binary64 value again, brought back to its
    binary64 form. *)

Definition b64_of_Z (z : Z) : SpecFloat.spec_float :=
  SpecFloat.binary_normalize 53 1024 z 0 false.

Definition b64_is_nan (a : SpecFloat.spec_float) : bool :=
  match a with
  | SpecFloat.S754_nan => true
  | _ => false
  end.

Definition b64_to_f32 (a : SpecFloat.spec_float) : SpecFloat.spec_float :=
  match a with
  | SpecFloat.S754_finite s m e =>
      match SpecFloat.binary_round 24 128 s m e with
      | SpecFloat.S754_finite s' m' e' => SpecFloat.binary_round 53 1024 s' m' e'
      | r => r
      end
  | _ => a
  end.

#[export] Instance b64_ops : FloatOps SpecFloat.spec_float := {|
  nan := SpecFloat.S754_nan;
  is_nan := b64_is_nan;
  of_Z := b64_of_Z;
  fadd := SpecFloat.SFadd 53 1024;
  fsub := SpecFloat.SFsub 53 1024;
  fmul := SpecFloat.SFmul 53 1024;
  fdiv := SpecFloat.SFdiv 53 1024;
  fabs := SpecFloat.SFabs;
  flt := SpecFloat.SFltb;
  feq := SpecFloat.SFeqb;
  to_f32 := b64_to_f32;
|}.

(** The binary64 value of a decimal literal [n / d]. *)
Definition b64_dec (n d : Z) : SpecFloat.spec_float :=
  SpecFloat.SFdiv 53 1024 (b64_of_Z n) (b64_of_Z d).

(** ** Concrete inputs *)

(** Stand-ins for the [hdstats] functions: the completion and the filter
    leave the series alone, the scalar statistics count the observations. *)
Definition keep_series (a : grid (list xfloat)) : grid (list xfloat) := a.

Definition count_stat (a : grid (list xfloat)) : grid xfloat :=
  grid_map (fun s => of_Z (Z.of_nat (length s))) a.

Definition count_stat_n (a : grid (list xfloat)) (n : Z) : grid xfloat :=
  count_stat a.

Definition three_columns (a : grid (list xfloat)) (n step : Z)
    : grid (list xfloat) :=
  grid_map (fun s => firstn 3 s) a.

(** [xr_phenology] and [temporal_statistics] on the exact floats with these
    stand-ins; what a NaN is cast to and whether [astype] keeps attributes
    stay parameters. *)
Definition xr_phenology_x (nan_int16 : Z) (astype_keeps_attrs : bool)
    : Volume xfloat -> stats_arg -> string -> string -> bool ->
      list string * Exc (Dataset xfloat) :=
  xr_phenology nan_int16 astype_keeps_attrs keep_series keep_series.

Definition temporal_statistics_x
    : Volume xfloat -> stats_arg -> list string * Exc (Dataset xfloat) :=
  temporal_statistics keep_series count_stat_n three_columns three_columns
    three_columns count_stat count_stat count_stat count_stat count_stat
    count_stat_n.

(** One pixel, eight observations through 2020: a season that rises to a
    peak on day 120 and falls again. *)
Definition season_series : list xfloat :=
  [xq 10 100; xq 20 100; xq 50 100; xq 90 100; xq 95 100; xq 60 100;
   xq 30 100; xq 10 100].

Definition season_volume : Volume xfloat :=
  mkVolume [xq 0 1] [xq 0 1]
    (map (timestamp 2020) [1; 30; 60; 90; 120; 150; 180; 210]%Z)
    [("crs", "EPSG:6933")]
    [[season_series]] false.

(** The same array as a dask collection. *)
Definition lazy_volume : Volume xfloat :=
  mkVolume (v_x season_volume) (v_y season_volume) (v_time season_volume)
    (v_attrs season_volume) (v_values season_volume) true.

(** One pixel whose series only rises: the peak is the last observation
    and nothing comes after it. *)
Definition rising_series : list xfloat := [xq 1 1; xq 2 1; xq 3 1; xq 4 1].

Definition rising_volume : Volume xfloat :=
  mkVolume [xq 0 1] [xq 0 1]
    (map (timestamp 2020) [10; 20; 30; 40]%Z) []
    [[rising_series]] false.

(** The rising pixel beside a pixel with a complete season. *)
Definition rising_beside_season : Volume xfloat :=
  mkVolume [xq 0 1; xq 1 1] [xq 0 1]
    (map (timestamp 2020) [10; 20; 30; 40]%Z) []
    [[rising_series; [xq 1 1; xq 3 1; xq 2 1; xq 1 1]]] false.

(** One pixel observed from late 2019 into early 2020 (days 330, 350, 10
    and 40 of their years), with the peak in December. *)
Definition new_year_volume : Volume xfloat :=
  mkVolume [xq 0 1] [xq 0 1]
    [timestamp 2019 330; timestamp 2019 350; timestamp 2020 10;
     timestamp 2020 40] []
    [[[xq 1 1; xq 5 1; xq 2 1; xq 0 1]]] false.

(** One pixel observed once: too short a series for a slope. *)
Definition single_step_volume : Volume xfloat :=
  mkVolume [xq 0 1] [xq 0 1] [timestamp 2020 10] [] [[[xq 1 1]]] false.

(** A pixel that falls before it jumps to its peak (no rising step on the
    greening side), beside a pixel with a complete season. *)
Definition dip_before_peak : Volume xfloat :=
  mkVolume [xq 0 1; xq 1 1] [xq 0 1]
    (map (timestamp 2020) [10; 20; 30; 40]%Z) []
    [[[xq 3 1; xq 1 1; xq 1 1; xq 9 1]; [xq 1 1; xq 3 1; xq 2 1; xq 1 1]]]
    false.

(** What [_vpos], [_pos] and [_trough] return on [season_volume]. *)
Definition season_vpos : Layer xfloat xfloat :=
  mkLayer [xq 0 1] [xq 0 1] None [] [[xq 95 100]].

Definition season_pos : Layer xfloat Z :=
  mkLayer [xq 0 1] [xq 0 1] (Some [[timestamp 2020 120]]) [] [[120%Z]].

Definition season_trough : Layer xfloat xfloat :=
  mkLayer [xq 0 1] [xq 0 1] None [] [[xq 10 100]].

(** A slice with missing values beside a complete one. *)
Definition gappy_slice : list xfloat :=
  [XNaN; xq 3 1; XNaN; xq 5 1; xq 5 1].

Definition gappy_array : grid (list xfloat) :=
  [[gappy_slice; [xq 2 1; xq 1 1; xq 1 1; xq 4 1; xq 0 1]]].

(** What [_vsos] and [_veos] return on [season_volume] with the method
    'median'. *)
Definition season_vsos : Layer xfloat xfloat :=
  mkLayer [xq 0 1] [xq 0 1] (Some [[timestamp 2020 30]])
    [("crs", "EPSG:6933")] [[xq 20 100]].

Definition season_veos : Layer xfloat xfloat :=
  mkLayer [xq 0 1] [xq 0 1] (Some [[timestamp 2020 180]])
    [("crs", "EPSG:6933")] [[xq 30 100]].

(** The greening side of [dip_before_peak] (the time-steps before each
    pixel's peak) and its slopes per nanosecond. *)
Definition dip_greenup : Volume xfloat :=
  where_time Z.ltb dip_before_peak [[timestamp 2020 40; timestamp 2020 20]].

Definition dip_greenup_slope : grid (list xfloat) :=
  [[[xq (-1) 432000000000000; xq (-1) 864000000000000; XNaN; XNaN];
    [XNaN; XNaN; XNaN; XNaN]]].

(** A pixel that was never observed beside a pixel with a season. *)
Definition blank_beside_season : Volume xfloat :=
  mkVolume [xq 0 1; xq 1 1] [xq 0 1]
    (map (timestamp 2020) [10; 20; 30; 40]%Z) []
    [[[XNaN; XNaN; XNaN; XNaN]; [xq 1 1; xq 3 1; xq 2 1; xq 1 1]]] false.

(** The gappy array over five time-steps of 2020. *)
Definition gappy_volume : Volume xfloat :=
  mkVolume [xq 0 1; xq 1 1] [xq 0 1]
    (map (timestamp 2020) [10; 20; 30; 40; 50]%Z) [] gappy_array false.

(** A layer whose only value is missing. *)
Definition missing_layer : Layer xfloat xfloat :=
  mkLayer [xq 0 1] [xq 0 1] None [] [[XNaN]].

(** Stand-ins for what the feature layers call outside the repository:
    every service returns, richdem's array is the grid itself and the
    terrain attribute is the elevation. *)
Definition dem_layer : Layer xfloat xfloat :=
  mkLayer [xq 0 1; xq 1 1] [xq 0 1; xq 1 1] None
    [("nodata", "-9999"); ("crs", "EPSG:6933")]
    [[xq 1 1; xq 2 1]; [xq 3 1; xq 4 1]].

(** The same elevation without the 'crs' attribute. *)
Definition dem_without_crs : Layer xfloat xfloat :=
  mkLayer [xq 0 1; xq 1 1] [xq 0 1; xq 1 1] None
    [("nodata", "-9999")]
    [[xq 1 1; xq 2 1]; [xq 3 1; xq 4 1]].

Definition squeeze_x (da : Layer xfloat xfloat) : Layer xfloat xfloat := da.

Definition rdarray_x (data : grid xfloat) (no_data : string)
    : Exc (grid xfloat) := Ok data.

Definition crs_to_wkt_x (crs : string) : Exc string := Ok crs.

Definition geotransform_x (da : Layer xfloat xfloat) : Exc (list xfloat) :=
  Ok [].

Definition TerrainAttribute_x (rda : grid xfloat) (projection : string)
    (gt : list xfloat) (attrib : option string) : Exc (grid xfloat) := Ok rda.

Definition xr_terrain_x
    : Layer xfloat xfloat -> option string -> Exc (Layer xfloat xfloat) :=
  xr_terrain (Layer xfloat xfloat) (grid xfloat)
    squeeze_x rdarray_x crs_to_wkt_x geotransform_x TerrainAttribute_x.

Definition Datacube_x (app : string) : Exc unit := Ok tt.

Definition calculate_indices_x (ds : Volume xfloat) (index : list string)
    (drop : bool) (collection : string) : Exc (Volume xfloat) := Ok ds.

Definition get_NDVI_x (data : Volume xfloat) : Exc (Volume xfloat) := Ok data.

Definition empty_dataset_x (ds : Volume xfloat) : Exc (Dataset xfloat) :=
  Ok (mkDataset [] [] []).

Definition load_elevation_x (dc : unit) (ds : Volume xfloat)
    : Exc (Layer xfloat xfloat) := Ok dem_layer.

Definition slope_to_dataset_x (l : Layer xfloat xfloat) : Dataset xfloat :=
  mkDataset (l_x l) (l_y l)
    [("slope", mkDataVar (l_attrs l) (Float32Grid (l_values l)))].

Definition merge_override_x (l : list (Dataset xfloat))
    : Exc (Dataset xfloat) :=
  Ok (mkDataset [] [] (concat (map ds_vars l))).

Definition assign_crs_squeeze_x (ds : Volume xfloat) (r : Dataset xfloat)
    : Exc (Dataset xfloat) := Ok r.

Definition crop_features_x : Volume xfloat -> Exc (Dataset xfloat) :=
  crop_features 0 false keep_series keep_series
    (Layer xfloat xfloat) (grid xfloat)
    squeeze_x rdarray_x crs_to_wkt_x geotransform_x TerrainAttribute_x
    (Volume xfloat) unit (Volume xfloat)
    Datacube_x calculate_indices_x get_NDVI_x empty_dataset_x
    load_elevation_x slope_to_dataset_x empty_dataset_x merge_override_x
    assign_crs_squeeze_x.

(** A pixel that only falls (its peak is the first observation) beside a
    pixel with a complete season, with what [_pos] and [_vsos] return on
    it when a NaN is cast to the index 0. *)
Definition falling_beside_season : Volume xfloat :=
  mkVolume [xq 0 1; xq 1 1] [xq 0 1]
    (map (timestamp 2020) [10; 20; 30; 40]%Z) []
    [[[xq 4 1; xq 3 1; xq 2 1; xq 1 1]; [xq 1 1; xq 3 1; xq 2 1; xq 1 1]]]
    false.

Definition falling_pos : Layer xfloat Z :=
  mkLayer [xq 0 1; xq 1 1] [xq 0 1]
    (Some [[timestamp 2020 10; timestamp 2020 20]]) [] [[10; 20]]%Z.

Definition falling_vsos : Layer xfloat xfloat :=
  mkLayer [xq 0 1; xq 1 1] [xq 0 1]
    (Some [[timestamp 2020 10; timestamp 2020 10]]) [] [[XNaN; xq 1 1]].

(** What [_pos] and [_veos] return on [rising_beside_season]. *)
Definition rising_pos : Layer xfloat Z :=
  mkLayer [xq 0 1; xq 1 1] [xq 0 1]
    (Some [[timestamp 2020 40; timestamp 2020 20]]) [] [[40; 20]]%Z.

Definition rising_veos : Layer xfloat xfloat :=
  mkLayer [xq 0 1; xq 1 1] [xq 0 1]
    (Some [[timestamp 2020 10; timestamp 2020 40]]) [] [[XNaN; xq 1 1]].

(** The season of 2020 in binary64, and [xr_phenology] on binary64 with
    the completion and the filter leaving the series alone. *)
Definition season_series_b64 : list SpecFloat.spec_float :=
  [b64_dec 10 100; b64_dec 20 100; b64_dec 50 100; b64_dec 90 100;
   b64_dec 95 100; b64_dec 60 100; b64_dec 30 100; b64_dec 10 100].

Definition season_volume_b64 : Volume SpecFloat.spec_float :=
  mkVolume [b64_of_Z 0] [b64_of_Z 0]
    (map (timestamp 2020) [1; 30; 60; 90; 120; 150; 180; 210]%Z)
    [("crs", "EPSG:6933")]
    [[season_series_b64]] false.

Definition xr_phenology_b64 (nan_int16 : Z) (astype_keeps_attrs : bool)
    : Volume SpecFloat.spec_float -> stats_arg -> string -> string -> bool ->
      list string * Exc (Dataset SpecFloat.spec_float) :=
  xr_phenology nan_int16 astype_keeps_attrs (fun a => a) (fun a => a).

(** The binary32 values 0.949999988079071044921875 (of 0.95),
    0.100000001490116119384765625 (of 0.1) and 0.85000002384185791015625
    (of 0.85), and the binary32 value below the last one,
    0.849999964237213134765625. *)
Definition f32_0_95 : SpecFloat.spec_float :=
  SpecFloat.S754_finite false 8556839184629760 (-53).
Definition f32_0_1 : SpecFloat.spec_float :=
  SpecFloat.S754_finite false 7205759511166976 (-56).
Definition f32_0_85 : SpecFloat.spec_float :=
  SpecFloat.S754_finite false 7656119581278208 (-53).
Definition f32_below_0_85 : SpecFloat.spec_float :=
  SpecFloat.S754_finite false 7656119044407296 (-53).

(** What [xr_phenology] returns for vPOS, Trough and AOS on the season of
    2020 in binary64. *)
Definition season_amplitude_output_b64 : Dataset SpecFloat.spec_float :=
  mkDataset [b64_of_Z 0] [b64_of_Z 0]
    [("vPOS", mkDataVar [] (Float32Grid [[f32_0_95]]));
     ("Trough", mkDataVar [] (Float32Grid [[f32_0_1]]));
     ("AOS", mkDataVar [] (Float32Grid [[f32_0_85]]))].

(** ** Laws of the float operations

    What the proofs below use of IEEE 754 arithmetic: a NaN compares false
    with everything, the comparison of the other values is a strict weak
    order with [feq] as its equivalence, and NaNs propagate through the
    arithmetic. *)
Class FloatLaws (F : Type) `{FloatOps F} : Prop := {
  is_nan_nan : is_nan nan = true;
  is_nan_of_Z : forall z, is_nan (of_Z z) = false;
  flt_not_nan : forall a b, flt a b = true -> is_nan a = false /\ is_nan b = false;
  feq_not_nan : forall a b, feq a b = true -> is_nan a = false /\ is_nan b = false;
  flt_irrefl : forall a, flt a a = false;
  flt_trans : forall a b c, flt a b = true -> flt b c = true -> flt a c = true;
  flt_cotrans : forall a b c,
    flt a c = true -> is_nan b = false -> flt a b = true \/ flt b c = true;
  feq_spec : forall a b,
    is_nan a = false -> is_nan b = false ->
    feq a b = negb (flt a b) && negb (flt b a);
  fsub_nan_l : forall a b, is_nan a = true -> is_nan (fsub a b) = true;
  fsub_nan_r : forall a b, is_nan b = true -> is_nan (fsub a b) = true;
  fdiv_nan_l : forall a b, is_nan a = true -> is_nan (fdiv a b) = true;
  to_f32_nan : forall a, is_nan (to_f32 a) = is_nan a;
  fsub_one_nan : forall a, is_nan (fsub a (of_Z 1)) = is_nan a;
  fadd_one_nan : forall a, is_nan (fadd a (of_Z 1)) = is_nan a;
}.

(** ** Vocabulary of the properties *)

(** [v] is the extremum of the values of [l] that are not NaN. *)
Definition extremum_of {F : Type} `{FloatOps F} (better : F -> F -> bool)
    (l : list F) (v : F) : Prop :=
  v ∈ l /\ is_nan v = false /\
  forall w, w ∈ l -> is_nan w = false -> better v w = false.

(** The running extremum of [pick] follows the scan. *)
Definition follows {F : Type} `{FloatOps F} (acc : F)
    (best : option (F * nat)) : Prop :=
  match best with
  | None => is_nan acc = true
  | Some (m, _) => acc = m /\ is_nan m = false
  end.

(** [v] is the largest (smallest) of the values of [s] that are not NaN. *)
Definition is_max_of {F : Type} `{FloatOps F} (s : list F) (v : F) : Prop :=
  extremum_of flt s v.
Definition is_min_of {F : Type} `{FloatOps F} (s : list F) (v : F) : Prop :=
  extremum_of fgt s v.

(** The value of a reduction over time: the extremum of the observed
    values, NaN when nothing was observed. *)
Definition reduces_to {F : Type} `{FloatOps F} (better : F -> F -> bool)
    (s : list F) (v : F) : Prop :=
  if forallb is_nan s then is_nan v = true else extremum_of better s v.

(** A slice without missing values. *)
Definition no_nan {F : Type} `{FloatOps F} (s : list F) : bool :=
  forallb (fun a => negb (is_nan a)) s.

(** The keys of a dictionary after an assignment to [k]: an old key keeps
    its place, a new one goes to the end. *)
Definition add_key (ks : list string) (k : string) : list string :=
  if existsb (String.eqb k) ks then ks else ks ++ [k].

(** Whether [k] is a key of [d]. *)
Definition has_key {V : Type} (d : list (string * V)) (k : string) : bool :=
  match dict_get k d with
  | Some _ => true
  | None => false
  end.

(** The keys of [stats_dict], in the order of the source. *)
Definition stats_dict_keys : list string :=
  ["SOS"; "EOS"; "vSOS"; "vPOS"; "Trough"; "POS"; "vEOS"; "LOS"; "AOS";
   "ROG"; "ROS"].

(** The attributes of the entry [k] of [stats_dict]: the two selections
    along time keep those of the input as far as [astype] does, every other
    statistic went through a reduction or arithmetic and has none. *)
Definition stat_attrs (astype_keeps_attrs : bool) (k : string) (a : attrs)
    : attrs :=
  if String.eqb k "vSOS" || String.eqb k "vEOS"
  then (if astype_keeps_attrs then a else [])
  else [].

(** Membership in the vocabulary of [xr_phenology]. *)
Definition in_vocabulary (s : string) : bool :=
  existsb (String.eqb s) default_stats.

(** What the two functions return for the season of 2020. *)
Definition season_phenology_output : Dataset xfloat :=
  mkDataset [xq 0 1] [xq 0 1]
    [("vPOS", mkDataVar [] (Float32Grid [[xq 95 100]]));
     ("vSOS", mkDataVar [("crs", "EPSG:6933")] (Float32Grid [[xq 20 100]]))].

Definition season_temporal_output : Dataset xfloat :=
  mkDataset [xq 0 1] [xq 0 1]
    [("f_std_n2", mkDataVar [("crs", "EPSG:6933")] (Float32Grid [[xq 20 100]]));
     ("num_peaks", mkDataVar [("crs", "EPSG:6933")] (Float32Grid [[xq 8 1]]))].

(** The scan of a filled slice against the scan of the slice itself:
    as long as the slice showed nothing but NaNs the filled scan holds
    nothing or the fill value, afterwards both hold the same value. *)
Definition fill_follows {F : Type} (better : F -> F -> bool) (fill : F)
    (bf bu : option (F * nat)) : Prop :=
  (bu = None /\ (bf = None \/ exists k, bf = Some (fill, k)))
  \/ (exists v k, bu = Some (v, k) /\ bf = Some (v, k)
                  /\ better fill v = true).

(** The array the statistics of [xr_phenology] are computed on: the
    input, completed and smoothed if asked for, with its all-NaN pixels
    filled with zeros. *)
Definition working_array {F : Type} `{FloatOps F}
    (fast_completion smooth : grid (list F) -> grid (list F))
    (da : Volume F) (complete_smooth : bool) : Volume F :=
  fill_all_nan
    (if complete_smooth
     then mkVolume (v_x da) (v_y da) (v_time da) (v_attrs da)
            (smooth (fast_completion (v_values da))) false
     else da).

(** The value of the [float32] variable [k] of a dataset at a pixel. *)
Definition float32_pixel {F : Type} (ds : Dataset F) (k : string) (i j : nat)
    : option F :=
  match ds_get k ds with
  | Some (mkDataVar _ (Float32Grid g)) => pixel g i j
  | _ => None
  end.

(** * Properties *)

(** ** The error monad and grids *)

Lemma exc_bind_ok {A B : Type} (m : Exc A) (k : A -> Exc B) (b : B) :
  exc_bind m k = Ok b -> exists a, m = Ok a /\ k a = Ok b.
Proof. destruct m as [a|e]; simpl; [eauto | discriminate]. Qed.

(** Invert a hypothesis [x <- m ;; k = Ok r]. *)
Ltac exc_inv H :=
  match type of H with
  | exc_bind ?m ?k = Ok ?b =>
      let a := fresh "a" in
      let Ha := fresh "Ha" in
      apply exc_bind_ok in H; destruct H as (a & Ha & H)
  | Ok _ = Ok _ => injection H as H
  | Raise _ = Ok _ => discriminate H
  end.

Lemma exc_map_lookup {A B : Type} (f : A -> Exc B) (l : list A) (l' : list B)
    (i : nat) (a : A) :
  exc_map f l = Ok l' -> l !! i = Some a ->
  exists b, f a = Ok b /\ l' !! i = Some b.
Proof.
  revert l' i. induction l as [|x l IH]; intros l' i Hm Hl; [done|].
  simpl in Hm. exc_inv Hm. exc_inv Hm. exc_inv Hm. subst l'.
  destruct i as [|i]; simpl in *.
  - injection Hl as ->. eauto.
  - eauto.
Qed.

Lemma exc_map_length {A B : Type} (f : A -> Exc B) (l : list A) (l' : list B) :
  exc_map f l = Ok l' -> length l' = length l.
Proof.
  revert l'. induction l as [|x l IH]; intros l' Hm; simpl in Hm.
  - exc_inv Hm. by subst.
  - exc_inv Hm. exc_inv Hm. exc_inv Hm. subst l'. simpl. f_equal. eauto.
Qed.

Lemma exc_map_total {A B : Type} (f : A -> Exc B) (l : list A) :
  (forall a, a ∈ l -> exists b, f a = Ok b) -> exists l', exc_map f l = Ok l'.
Proof.
  induction l as [|x l IH]; intros Hf; simpl; [eauto|].
  destruct (Hf x) as [b Hb]; [constructor|]. rewrite Hb. simpl.
  destruct IH as [l' Hl'].
  - intros a Ha. apply Hf. by constructor.
  - rewrite Hl'. simpl. eauto.
Qed.

Lemma exc_map_raise {A B : Type} (f : A -> Exc B) (l : list A) (a : A) (e : exn) :
  a ∈ l -> f a = Raise e -> exists e', exc_map f l = Raise e'.
Proof.
  induction l as [|x l IH]; intros Hin Hf; [by apply elem_of_nil in Hin|].
  apply elem_of_cons in Hin. simpl. destruct Hin as [->|Hin].
  - rewrite Hf. simpl. eauto.
  - destruct (f x); simpl; [|eauto].
    destruct (IH Hin Hf) as [e' ->]. simpl. eauto.
Qed.

Lemma lookup_map {A B : Type} (f : A -> B) (l : list A) (i : nat) :
  map f l !! i = f <$> l !! i.
Proof. revert i. induction l as [|x l IH]; intros [|i]; simpl; auto. Qed.

Lemma pixel_elem {A : Type} (g : grid A) (i j : nat) (a : A) :
  pixel g i j = Some a -> exists row, row ∈ g /\ a ∈ row.
Proof.
  unfold pixel. destruct (g !! i) as [row|] eqn:Hr; [|done].
  intros Ha. exists row. split; eapply list_elem_of_lookup_2; eauto.
Qed.

Lemma pixel_grid_map {A B : Type} (f : A -> B) (g : grid A) (i j : nat) :
  pixel (grid_map f g) i j = f <$> pixel g i j.
Proof.
  unfold pixel, grid_map. rewrite lookup_map.
  destruct (g !! i) as [row|]; simpl; [|done].
  by rewrite lookup_map.
Qed.

Lemma pixel_grid_zip {A B C : Type} (f : A -> B -> C) (g : grid A) (h : grid B)
    (i j : nat) (a : A) (b : B) :
  pixel g i j = Some a -> pixel h i j = Some b ->
  pixel (grid_zip f g h) i j = Some (f a b).
Proof.
  unfold pixel, grid_zip. rewrite lookup_zip_with.
  destruct (g !! i) as [r1|]; [|done]. destruct (h !! i) as [r2|]; [|done].
  simpl. intros H1 H2. rewrite lookup_zip_with, H1. simpl. by rewrite H2.
Qed.

Lemma pixel_grid_zip_inv {A B C : Type} (f : A -> B -> C) (g : grid A)
    (h : grid B) (i j : nat) (c : C) :
  pixel (grid_zip f g h) i j = Some c ->
  exists a b, pixel g i j = Some a /\ pixel h i j = Some b /\ c = f a b.
Proof.
  unfold pixel, grid_zip. rewrite lookup_zip_with.
  destruct (g !! i) as [r1|]; [|done]. destruct (h !! i) as [r2|]; [|done].
  simpl. rewrite lookup_zip_with.
  destruct (r1 !! j) as [a|]; [|done]. destruct (r2 !! j) as [b|]; [|done].
  simpl. intros [= <-]. eauto.
Qed.

Lemma grid_exc_map_pixel {A B : Type} (f : A -> Exc B) (g : grid A)
    (g' : grid B) (i j : nat) (a : A) :
  grid_exc_map f g = Ok g' -> pixel g i j = Some a ->
  exists b, f a = Ok b /\ pixel g' i j = Some b.
Proof.
  unfold grid_exc_map, pixel. intros Hm Hp.
  destruct (g !! i) as [row|] eqn:Hr; [|done].
  destruct (exc_map_lookup _ _ _ _ _ Hm Hr) as (row' & Hrow & ->).
  eapply exc_map_lookup; eauto.
Qed.

Lemma grid_exc_map_total {A B : Type} (f : A -> Exc B) (g : grid A) :
  (forall i j a, pixel g i j = Some a -> exists b, f a = Ok b) ->
  exists g', grid_exc_map f g = Ok g'.
Proof.
  intros Hf. apply exc_map_total. intros row Hrow.
  apply list_elem_of_lookup in Hrow as [i Hi].
  apply exc_map_total. intros a Ha.
  apply list_elem_of_lookup in Ha as [j Hj].
  apply (Hf i j). unfold pixel. by rewrite Hi.
Qed.

(** ** Running extrema *)

Section Extrema.
Context {F : Type} `{FloatLaws F}.

(** The comparison that decides a running extremum: [flt] for maxima,
    [fgt] for minima.  Both are strict weak orders away from NaN. *)
Variable better : F -> F -> bool.
Hypothesis better_irrefl : forall a, better a a = false.
Hypothesis better_trans :
  forall a b c, better a b = true -> better b c = true -> better a c = true.
Hypothesis better_cotrans :
  forall a b c, better a c = true -> is_nan b = false ->
                better a b = true \/ better b c = true.

Lemma better_asym (a b : F) : better a b = true -> better b a = false.
Proof.
  intros Hab. destruct (better b a) eqn:Hba; [|done].
  pose proof (better_trans _ _ _ Hab Hba). by rewrite better_irrefl in *.
Qed.

Lemma better_beaten (m a v : F) :
  is_nan a = false -> better m a = false -> better m v = true ->
  better a v = true.
Proof.
  intros Ha Hma Hmv.
  destruct (better_cotrans m a v Hmv Ha) as [Hc|Hc]; congruence.
Qed.

(** The scan returns either the running extremum it was given, unbeaten,
    or the first later value that beats it and is beaten by none. *)
Lemma nanarg_loop_spec (l : list F) :
  forall (best : option (F * nat)) (i : nat) (v : F) (k : nat),
  nanarg_loop better best i l = Some (v, k) ->
  (best = Some (v, k) /\
   forall w, w ∈ l -> is_nan w = false -> better v w = false)
  \/ (i <= k /\ l !! (k - i) = Some v /\ is_nan v = false
      /\ (forall w, w ∈ l -> is_nan w = false -> better v w = false)
      /\ (forall m bi, best = Some (m, bi) -> better m v = true)
      /\ (forall k' w, k' < k - i -> l !! k' = Some w ->
                       is_nan w = true \/ better w v = true)).
Proof.
  induction l as [|a l IH]; intros best i v k Hloop; simpl in Hloop.
  { left. split; [done|]. intros w Hw. by apply elem_of_nil in Hw. }
  destruct (is_nan a) eqn:Ha.
  - (* a NaN is skipped *)
    destruct (IH _ _ _ _ Hloop) as [[Hb Hl]|(Hik & Hv & Hnv & Hl & Hb & Hfirst)].
    + left. split; [done|]. intros w Hw Hnw.
      apply elem_of_cons in Hw as [->|Hw]; [congruence|auto].
    + right. replace (k - i) with (S (k - S i)) by lia.
      split_and!; [lia|done|done| | done |].
      * intros w Hw Hnw. apply elem_of_cons in Hw as [->|Hw]; [congruence|auto].
      * intros [|k'] w Hk' Hw; simpl in Hw; [left; congruence|].
        apply (Hfirst k'); [lia|done].
  - destruct best as [[m bi]|].
    + destruct (better m a) eqn:Hma.
      * (* the head beats the running extremum *)
        destruct (IH _ _ _ _ Hloop) as [[Hb Hl]|(Hik & Hv & Hnv & Hl & Hb & Hfirst)].
        -- injection Hb as <- <-. right. rewrite Nat.sub_diag.
           split_and!; [lia|done|done| | |].
           ++ intros w Hw Hnw. apply elem_of_cons in Hw as [->|Hw]; auto.
           ++ by intros ? ? [= <- <-].
           ++ intros k' w Hk'. lia.
        -- pose proof (Hb _ _ eq_refl) as Hav.
           right. replace (k - i) with (S (k - S i)) by lia.
           split_and!; [lia|done|done| | |].
           ++ intros w Hw Hnw. apply elem_of_cons in Hw as [->|Hw]; auto.
              by apply better_asym.
           ++ intros ? ? [= <- <-]. eauto.
           ++ intros [|k'] w Hk' Hw; simpl in Hw.
              ** injection Hw as <-. by right.
              ** apply (Hfirst k'); [lia|done].
      * (* the running extremum stays *)
        destruct (IH _ _ _ _ Hloop) as [[Hb Hl]|(Hik & Hv & Hnv & Hl & Hb & Hfirst)].
        -- injection Hb as <- <-. left. split; [done|].
           intros w Hw Hnw. apply elem_of_cons in Hw as [->|Hw]; auto.
        -- pose proof (Hb _ _ eq_refl) as Hmv.
           right. replace (k - i) with (S (k - S i)) by lia.
           split_and!; [lia|done|done| |done|].
           ++ intros w Hw Hnw. apply elem_of_cons in Hw as [->|Hw]; auto.
              destruct (better v a) eqn:Hvw; [|done].
              pose proof (better_trans _ _ _ Hmv Hvw). congruence.
           ++ intros [|k'] w Hk' Hw; simpl in Hw.
              ** injection Hw as <-. right. eapply better_beaten; eauto.
              ** apply (Hfirst k'); [lia|done].
    + (* the first value that is not a NaN *)
      destruct (IH _ _ _ _ Hloop) as [[Hb Hl]|(Hik & Hv & Hnv & Hl & Hb & Hfirst)].
      * injection Hb as <- <-. right. rewrite Nat.sub_diag.
        split_and!; [lia|done|done| |done|].
        -- intros w Hw Hnw. apply elem_of_cons in Hw as [->|Hw]; auto.
        -- intros k' w Hk'. lia.
      * pose proof (Hb _ _ eq_refl) as Hav.
        right. replace (k - i) with (S (k - S i)) by lia.
        split_and!; [lia|done|done| |done|].
        -- intros w Hw Hnw. apply elem_of_cons in Hw as [->|Hw]; auto.
           by apply better_asym.
        -- intros [|k'] w Hk' Hw; simpl in Hw.
           ++ injection Hw as <-. by right.
           ++ apply (Hfirst k'); [lia|done].
Qed.

(** The scan finds nothing exactly when there is nothing but NaNs. *)
Lemma nanarg_loop_none (l : list F) (i : nat) :
  nanarg_loop better None i l = None <-> forallb is_nan l = true.
Proof.
  assert (Hsome : forall l b i, nanarg_loop better (Some b) i l <> None).
  { clear. induction l as [|a l IH]; intros b i; simpl; [done|].
    destruct (is_nan a); [apply IH|].
    destruct b as [m bi]. destruct (better m a); apply IH. }
  revert i. induction l as [|a l IH]; intros i; simpl; [done|].
  destruct (is_nan a); simpl; [apply IH|].
  split; [|done]. intros Hn. by apply Hsome in Hn.
Qed.

(** [nanarg] returns the first position of the extremum. *)
Lemma nanarg_first (l : list F) (k : nat) :
  nanarg better l = Ok k ->
  exists v, l !! k = Some v /\ extremum_of better l v /\
            forall k' w, k' < k -> l !! k' = Some w ->
                         is_nan w = true \/ better w v = true.
Proof.
  unfold nanarg. destruct (nanarg_loop better None 0 l) as [[v k0]|] eqn:Hl; [|done].
  intros [= ->].
  destruct (nanarg_loop_spec _ _ _ _ _ Hl) as [[Hb _]|(_ & Hv & Hnv & Hmax & _ & Hfirst)];
    [done|].
  rewrite Nat.sub_0_r in *. exists v. repeat split; auto.
  eapply list_elem_of_lookup_2; eauto.
Qed.

Lemma nanarg_ok_iff (l : list F) :
  (exists k, nanarg better l = Ok k) <-> forallb is_nan l = false.
Proof.
  unfold nanarg. pose proof (nanarg_loop_none l 0) as Hn.
  destruct (nanarg_loop better None 0 l) as [[v k]|].
  - split; [|eauto]. intros _. destruct (forallb is_nan l); [|done].
    by destruct Hn as [_ Hn]; specialize (Hn eq_refl).
  - destruct Hn as [Hn _]. rewrite (Hn eq_refl). split; [|done].
    by intros [k Hk].
Qed.

Lemma fold_pick_follows (l : list F) :
  forall acc best i, follows acc best ->
    follows (fold_left (pick better) l acc) (nanarg_loop better best i l).
Proof.
  induction l as [|a l IH]; intros acc best i Hf; simpl; [done|].
  apply IH. unfold pick. destruct (is_nan a) eqn:Ha; [done|].
  destruct best as [[m bi]|]; simpl in *.
  - destruct Hf as [-> Hm]. rewrite Hm.
    destruct (better m a); simpl; auto.
  - rewrite Hf. simpl. auto.
Qed.

End Extrema.

Section ExtremaOfFloats.
Context {F : Type} `{FloatLaws F}.

Lemma fgt_irrefl (a : F) : fgt a a = false.
Proof. apply flt_irrefl. Qed.

Lemma fgt_trans (a b c : F) :
  fgt a b = true -> fgt b c = true -> fgt a c = true.
Proof. unfold fgt. intros Hab Hbc. eapply flt_trans; eauto. Qed.

Lemma fgt_cotrans (a b c : F) :
  fgt a c = true -> is_nan b = false -> fgt a b = true \/ fgt b c = true.
Proof.
  unfold fgt. intros Hac Hb.
  destruct (flt_cotrans _ b _ Hac Hb); auto.
Qed.

Lemma fold_pick_spec (better : F -> F -> bool) (a : F) (l : list F) :
  (forall a, better a a = false) ->
  (forall a b c, better a b = true -> better b c = true -> better a c = true) ->
  (forall a b c, better a c = true -> is_nan b = false ->
                 better a b = true \/ better b c = true) ->
  reduces_to better (a :: l) (fold_left (pick better) l a).
Proof.
  intros Hirr Htr Hco. unfold reduces_to.
  pose proof (fold_pick_follows better l a
                (if is_nan a then None else Some (a, 0)) 1) as Hf.
  assert (Hinit : follows a (if is_nan a then None else Some (a, 0))).
  { destruct (is_nan a) eqn:Ha; simpl; auto. }
  specialize (Hf Hinit).
  change (nanarg_loop better (if is_nan a then None else Some (a, 0)) 1 l)
    with (nanarg_loop better None 0 (a :: l)) in Hf.
  destruct (nanarg_loop better None 0 (a :: l)) as [[v k]|] eqn:Hl.
  - destruct Hf as [-> _].
    assert (Hk : nanarg better (a :: l) = Ok k) by (unfold nanarg; by rewrite Hl).
    assert (Hsome : forallb is_nan (a :: l) = false).
    { apply (nanarg_ok_iff better). eauto. }
    rewrite Hsome.
    destruct (nanarg_first better Hirr Htr Hco _ _ Hk) as (v' & Hv' & Hext & _).
    destruct (nanarg_loop_spec better Hirr Htr Hco _ _ _ _ _ Hl)
      as [[? _]|(_ & Hv & _)]; [done|].
    rewrite Nat.sub_0_r in Hv. congruence.
  - apply nanarg_loop_none in Hl. by rewrite Hl.
Qed.

(** The reduction is the value at the index of the reduction. *)
Lemma fold_pick_at_nanarg (better : F -> F -> bool) (a : F) (l : list F)
    (k : nat) :
  (forall a, better a a = false) ->
  (forall a b c, better a b = true -> better b c = true -> better a c = true) ->
  (forall a b c, better a c = true -> is_nan b = false ->
                 better a b = true \/ better b c = true) ->
  nanarg better (a :: l) = Ok k ->
  (a :: l) !! k = Some (fold_left (pick better) l a).
Proof.
  intros Hirr Htr Hco Hk. unfold nanarg in Hk.
  destruct (nanarg_loop better None 0 (a :: l)) as [[v k0]|] eqn:Hl; [|done].
  injection Hk as ->.
  pose proof (fold_pick_follows better l a
                (if is_nan a then None else Some (a, 0)) 1) as Hf.
  assert (Hinit : follows a (if is_nan a then None else Some (a, 0))).
  { destruct (is_nan a) eqn:Ha; simpl; auto. }
  specialize (Hf Hinit).
  change (nanarg_loop better (if is_nan a then None else Some (a, 0)) 1 l)
    with (nanarg_loop better None 0 (a :: l)) in Hf.
  rewrite Hl in Hf. destruct Hf as [-> _].
  destruct (nanarg_loop_spec better Hirr Htr Hco _ _ _ _ _ Hl)
    as [[? _]|(_ & Hv & _)]; [done|].
  by rewrite Nat.sub_0_r in Hv.
Qed.

Lemma nanmax_spec (s : list F) (v : F) :
  nanmax s = Ok v -> reduces_to flt s v.
Proof.
  destruct s as [|a l]; [done|]. intros [= <-].
  apply fold_pick_spec; [apply flt_irrefl|apply flt_trans|apply flt_cotrans].
Qed.

Lemma nanmin_spec (s : list F) (v : F) :
  nanmin s = Ok v -> reduces_to fgt s v.
Proof.
  destruct s as [|a l]; [done|]. intros [= <-].
  apply fold_pick_spec; [apply fgt_irrefl|apply fgt_trans|apply fgt_cotrans].
Qed.

Lemma nanargmax_nanmax (s : list F) (k : nat) (v : F) :
  nanargmax s = Ok k -> nanmax s = Ok v -> s !! k = Some v.
Proof.
  destruct s as [|a l]; [done|]. intros Hk [= <-].
  apply fold_pick_at_nanarg;
    [apply flt_irrefl|apply flt_trans|apply flt_cotrans|done].
Qed.

Lemma nanargmax_first (s : list F) (k : nat) :
  nanargmax s = Ok k ->
  exists v, s !! k = Some v /\ is_max_of s v /\
            forall k' w, k' < k -> s !! k' = Some w -> feq w v = false.
Proof.
  intros Hk.
  destruct (nanarg_first flt flt_irrefl flt_trans flt_cotrans _ _ Hk)
    as (v & Hv & Hext & Hfirst).
  exists v. split_and!; [done|done|].
  intros k' w Hk' Hw. destruct (feq w v) eqn:Heq; [|done].
  apply feq_not_nan in Heq as Hn. destruct Hn as [Hnw Hnv].
  rewrite feq_spec in Heq by done.
  destruct (Hfirst k' w Hk' Hw) as [Hc|Hc]; [congruence|].
  by rewrite Hc in Heq.
Qed.

Lemma py_index_nat {A : Type} (l : list A) (k : nat) (a : A) :
  py_index l (Z.of_nat k) = Ok a -> l !! k = Some a.
Proof.
  unfold py_index.
  assert (Hneg : (Z.of_nat k <? 0)%Z = false) by (apply Z.ltb_ge; lia).
  rewrite Hneg. destruct (_ && _); [|done]. rewrite Nat2Z.id.
  by destruct (l !! k); intros [= ->].
Qed.

End ExtremaOfFloats.

(** ** Peak, trough and amplitude *)

Section PeakAndAmplitude.
Context {F : Type} `{FloatLaws F}.

Lemma vpos_pixel (da : Volume F) (vpos : Layer F F) (i j : nat) (s : list F) :
  _vpos da = Ok vpos -> pixel (v_values da) i j = Some s ->
  exists v, nanmax s = Ok v /\ pixel (l_values vpos) i j = Some v.
Proof.
  unfold _vpos, reduce_time. intros Hv Hs. exc_inv Hv. exc_inv Hv. subst vpos.
  simpl. eapply grid_exc_map_pixel; eauto.
Qed.

Lemma trough_pixel (da : Volume F) (trough : Layer F F) (i j : nat)
    (s : list F) :
  _trough da = Ok trough -> pixel (v_values da) i j = Some s ->
  exists v, nanmin s = Ok v /\ pixel (l_values trough) i j = Some v.
Proof.
  unfold _trough, reduce_time. intros Hv Hs. exc_inv Hv. exc_inv Hv.
  subst trough. simpl. eapply grid_exc_map_pixel; eauto.
Qed.

Lemma pos_pixel (da : Volume F) (pos : Layer F Z) (i j : nat) (s : list F) :
  _pos da = Ok pos -> pixel (v_values da) i j = Some s ->
  exists k t, nanargmax s = Ok k /\ v_time da !! k = Some t /\
              pixel (l_values pos) i j = Some (dayofyear t).
Proof.
  unfold _pos. intros Hp Hs. exc_inv Hp. rename a into idx.
  exc_inv Hp. rename a into sel.
  destruct (grid_exc_map_pixel _ _ _ _ _ _ Ha Hs) as (k & Hk & Hidx).
  unfold isel_time in Ha0. exc_inv Ha0. exc_inv Ha0. rename a0 into ts.
  exc_inv Ha0. subst sel. simpl in Hp. injection Hp as <-. simpl.
  assert (Hz : pixel (grid_map Z.of_nat idx) i j = Some (Z.of_nat k)).
  { by rewrite pixel_grid_map, Hidx. }
  destruct (grid_exc_map_pixel _ _ _ _ _ _ Ha2 Hz) as (t & Ht & Hts).
  exists k, t. split_and!; [done|by apply py_index_nat|].
  by rewrite pixel_grid_map, Hts.
Qed.

End PeakAndAmplitude.

(** C7.  For every pixel series, the value at peak of season (vPOS) is the
    maximum over the time axis, and the peak day (POS) is the day of the
    year of the first time-step at which that maximum is attained: no
    earlier time-step holds a value equal to it. *)
Theorem peak_is_first_maximum {F : Type} `{FloatLaws F}
    (da : Volume F) (vpos : Layer F F) (pos : Layer F Z)
    (i j : nat) (s : list F) :
  _vpos da = Ok vpos -> _pos da = Ok pos ->
  pixel (v_values da) i j = Some s ->
  exists (k : nat) (v : F) (t : Z),
    s !! k = Some v /\ v_time da !! k = Some t
    /\ is_max_of s v
    /\ (forall k' w, k' < k -> s !! k' = Some w -> feq w v = false)
    /\ pixel (l_values vpos) i j = Some v
    /\ pixel (l_values pos) i j = Some (dayofyear t).
Proof.
  intros Hvpos Hpos Hs.
  destruct (vpos_pixel _ _ _ _ _ Hvpos Hs) as (v & Hmax & Hv).
  destruct (pos_pixel _ _ _ _ _ Hpos Hs) as (k & t & Hk & Ht & Hp).
  destruct (nanargmax_first _ _ Hk) as (v' & Hv' & Hext & Hfirst).
  pose proof (nanargmax_nanmax _ _ _ Hk Hmax) as Hkv.
  assert (v' = v) as -> by congruence.
  exists k, v, t. by split_and!.
Qed.

(** ** The exact model satisfies the laws *)

Lemma q_ltb_lt (a b : Q) : q_ltb a b = true <-> (a < b)%Q.
Proof.
  unfold q_ltb. rewrite negb_true_iff. split.
  - intros Hle. apply Qnot_le_lt. intros Hba.
    apply Qle_bool_iff in Hba. congruence.
  - intros Hlt. destruct (Qle_bool b a) eqn:Hle; [|done].
    apply Qle_bool_iff in Hle. by apply Qlt_not_le in Hlt.
Qed.

Lemma q_ltb_irrefl (a : Q) : q_ltb a a = false.
Proof.
  destruct (q_ltb a a) eqn:Hlt; [|done].
  apply q_ltb_lt in Hlt. by apply Qlt_irrefl in Hlt.
Qed.

Lemma q_ltb_trans (a b c : Q) :
  q_ltb a b = true -> q_ltb b c = true -> q_ltb a c = true.
Proof. rewrite !q_ltb_lt. apply Qlt_trans. Qed.

Lemma q_ltb_cotrans (a b c : Q) :
  q_ltb a c = true -> q_ltb a b = true \/ q_ltb b c = true.
Proof.
  rewrite !q_ltb_lt. intros Hac.
  destruct (Qlt_le_dec a b) as [Hab|Hba]; [by left|right].
  eapply Qle_lt_trans; eauto.
Qed.

Lemma q_eq_spec (a b : Q) :
  Qeq_bool a b = negb (q_ltb a b) && negb (q_ltb b a).
Proof.
  unfold q_ltb. rewrite !negb_involutive.
  destruct (Qeq_bool a b) eqn:Heq.
  - apply Qeq_bool_iff in Heq. symmetry. apply andb_true_iff.
    split; apply Qle_bool_iff; rewrite Heq; apply Qle_refl.
  - symmetry. apply andb_false_iff.
    destruct (Qle_bool b a) eqn:Hba; [|by left]. right.
    destruct (Qle_bool a b) eqn:Hab; [|done].
    apply Qle_bool_iff in Hba, Hab.
    assert (Hq : (a == b)%Q) by (by apply Qle_antisym).
    apply Qeq_bool_iff in Hq. congruence.
Qed.

#[export] Instance xfloat_laws : FloatLaws xfloat.
Proof.
  split.
  - done.
  - done.
  - intros [| |p|] [| |q|]; simpl; done.
  - intros [| |p|] [| |q|]; simpl; done.
  - intros [| |p|]; simpl; try done. apply q_ltb_irrefl.
  - intros [| |p|] [| |q|] [| |r|]; simpl; try done. apply q_ltb_trans.
  - intros [| |p|] [| |q|] [| |r|]; simpl; try done; auto.
    intros Hac _. by apply q_ltb_cotrans.
  - intros [| |p|] [| |q|]; simpl; try done. intros _ _. apply q_eq_spec.
  - intros [| |p|] [| |q|]; simpl; done.
  - intros [| |p|] [| |q|]; simpl; done.
  - intros [| |p|] [| |q|]; simpl; done.
  - done.
  - intros [| |p|]; simpl; done.
  - intros [| |p|]; simpl; done.
Qed.

(** ** The model with rounding satisfies the laws *)

(** Rounding a mantissa that is not negative never gives a NaN. *)
Lemma shr_1_nonneg (mrs : SpecFloat.shr_record) :
  (0 <= SpecFloat.shr_m mrs)%Z -> (0 <= SpecFloat.shr_m (SpecFloat.shr_1 mrs))%Z.
Proof. destruct mrs as [[|[p|p|]|[p|p|]] r s]; simpl; lia. Qed.

Lemma iter_shr_1_nonneg (p : positive) :
  forall mrs, (0 <= SpecFloat.shr_m mrs)%Z ->
              (0 <= SpecFloat.shr_m (SpecFloat.iter_pos SpecFloat.shr_1 p mrs))%Z.
Proof.
  induction p as [p IH|p IH|]; intros mrs Hm; simpl.
  - apply IH, IH. by apply shr_1_nonneg.
  - by apply IH, IH.
  - by apply shr_1_nonneg.
Qed.

Lemma shr_fexp_nonneg (prec emax m e : Z) (l : SpecFloat.location) :
  (0 <= m)%Z -> (0 <= SpecFloat.shr_m (fst (SpecFloat.shr_fexp prec emax m e l)))%Z.
Proof.
  intros Hm. unfold SpecFloat.shr_fexp, SpecFloat.shr.
  assert (Hrec : (0 <= SpecFloat.shr_m (SpecFloat.shr_record_of_loc m l))%Z).
  { by destruct l as [|[]]. }
  destruct (_ - e)%Z; simpl; [done| |done].
  by apply iter_shr_1_nonneg.
Qed.

Lemma binary_round_aux_not_nan (prec emax : Z) (sx : bool) (mx ex : Z)
    (lx : SpecFloat.location) :
  (0 <= mx)%Z ->
  b64_is_nan (SpecFloat.binary_round_aux prec emax sx mx ex lx) = false.
Proof.
  intros Hm. unfold SpecFloat.binary_round_aux.
  pose proof (shr_fexp_nonneg prec emax mx ex lx Hm) as H1.
  destruct (SpecFloat.shr_fexp prec emax mx ex lx) as [mrs' e']. simpl in H1.
  assert (H2 : (0 <= SpecFloat.round_nearest_even (SpecFloat.shr_m mrs')
                       (SpecFloat.loc_of_shr_record mrs'))%Z).
  { unfold SpecFloat.round_nearest_even.
    destruct (SpecFloat.loc_of_shr_record mrs') as [|[]]; try done; [|lia].
    destruct (Z.even _); lia. }
  pose proof (shr_fexp_nonneg prec emax _ e' SpecFloat.loc_Exact H2) as H3.
  destruct (SpecFloat.shr_fexp prec emax _ e' SpecFloat.loc_Exact) as [mrs'' e''].
  simpl in H3. destruct (SpecFloat.shr_m mrs'') as [|m|m]; [done| |lia].
  by destruct (_ <=? _)%Z.
Qed.

Lemma binary_round_not_nan (prec emax : Z) (s : bool) (m : positive) (e : Z) :
  b64_is_nan (SpecFloat.binary_round prec emax s m e) = false.
Proof.
  unfold SpecFloat.binary_round.
  destruct (SpecFloat.shl_align _ _ _) as [mz ez].
  by apply binary_round_aux_not_nan.
Qed.

Lemma binary_normalize_not_nan (prec emax m e : Z) (szero : bool) :
  b64_is_nan (SpecFloat.binary_normalize prec emax m e szero) = false.
Proof. destruct m; simpl; [done|apply binary_round_not_nan..]. Qed.

Lemma SFcompare_lt_irrefl a : SpecFloat.SFltb a a = false.
Proof.
  unfold SpecFloat.SFltb.
  destruct a as [[]|[]| |[] m e]; simpl; try done;
    rewrite Z.compare_refl;
    change (Pos.compare_cont Eq m m) with (Pos.compare m m);
    by rewrite Pos.compare_refl.
Qed.

Ltac order_cases :=
  repeat match goal with
  | |- context [Z.compare ?a ?b] =>
      destruct (Z.compare_spec a b); try subst
  | H : context [Z.compare ?a ?b] |- _ =>
      destruct (Z.compare_spec a b); try subst
  | |- context [Pos.compare ?a ?b] =>
      destruct (Pos.compare_spec a b); try subst
  | H : context [Pos.compare ?a ?b] |- _ =>
      destruct (Pos.compare_spec a b); try subst
  end; simpl in *; try done; try lia.

Lemma SFltb_trans a b c :
  SpecFloat.SFltb a b = true -> SpecFloat.SFltb b c = true ->
  SpecFloat.SFltb a c = true.
Proof.
  unfold SpecFloat.SFltb.
  destruct a as [[]|[]| |[] m1 e1], b as [[]|[]| |[] m2 e2],
           c as [[]|[]| |[] m3 e3]; simpl; try done;
    change (Pos.compare_cont Eq) with Pos.compare; order_cases.
Qed.

Lemma SFltb_cotrans a b c :
  SpecFloat.SFltb a c = true -> b64_is_nan b = false ->
  SpecFloat.SFltb a b = true \/ SpecFloat.SFltb b c = true.
Proof.
  unfold SpecFloat.SFltb.
  destruct a as [[]|[]| |[] m1 e1], b as [[]|[]| |[] m2 e2],
           c as [[]|[]| |[] m3 e3]; simpl; try done; auto;
    change (Pos.compare_cont Eq) with Pos.compare; intros Hac _;
    order_cases; auto.
Qed.

Lemma SFeqb_spec a b :
  b64_is_nan a = false -> b64_is_nan b = false ->
  SpecFloat.SFeqb a b
  = negb (SpecFloat.SFltb a b) && negb (SpecFloat.SFltb b a).
Proof.
  unfold SpecFloat.SFltb, SpecFloat.SFeqb.
  destruct a as [[]|[]| |[] m1 e1], b as [[]|[]| |[] m2 e2];
    simpl; try done;
    change (Pos.compare_cont Eq) with Pos.compare; intros _ _; order_cases.
Qed.

#[export] Instance b64_laws : FloatLaws SpecFloat.spec_float.
Proof.
  split.
  - done.
  - intros z. apply binary_normalize_not_nan.
  - intros a b. unfold flt. simpl. unfold SpecFloat.SFltb.
    by destruct a as [[]|[]| |[] m1 e1], b as [[]|[]| |[] m2 e2].
  - intros a b. simpl. unfold SpecFloat.SFeqb.
    by destruct a as [[]|[]| |[] m1 e1], b as [[]|[]| |[] m2 e2].
  - apply SFcompare_lt_irrefl.
  - apply SFltb_trans.
  - apply SFltb_cotrans.
  - apply SFeqb_spec.
  - intros a b. simpl. by destruct a, b.
  - intros a b. simpl. by destruct a as [[]|[]| |[] m1 e1], b.
  - intros a b. simpl. by destruct a, b.
  - intros a. simpl. unfold b64_to_f32.
    destruct a as [s|s| |s m e]; try done. simpl.
    pose proof (binary_round_not_nan 24 128 s m e) as Hr.
    destruct (SpecFloat.binary_round 24 128 s m e) as [| | |s' m' e']; try done.
    apply binary_round_not_nan.
  - intros a.
    change (b64_is_nan (SpecFloat.SFsub 53 1024 a (b64_of_Z 1))
            = b64_is_nan a).
    assert (H1 : b64_of_Z 1 = SpecFloat.S754_finite false 4503599627370496 (-52))
      by (vm_compute; reflexivity).
    rewrite H1.
    destruct a as [s|s| |s m e]; try done. unfold SpecFloat.SFsub.
    apply binary_normalize_not_nan.
  - intros a.
    change (b64_is_nan (SpecFloat.SFadd 53 1024 a (b64_of_Z 1))
            = b64_is_nan a).
    assert (H1 : b64_of_Z 1 = SpecFloat.S754_finite false 4503599627370496 (-52))
      by (vm_compute; reflexivity).
    rewrite H1.
    destruct a as [s|s| |s m e]; try done. unfold SpecFloat.SFadd.
    apply binary_normalize_not_nan.
Qed.

Lemma peak_is_first_maximum_witness :
  (_vpos season_volume = Ok season_vpos
   /\ _pos season_volume = Ok season_pos
   /\ pixel (v_values season_volume) 0 0 = Some season_series)
  /\ exists (k : nat) (v : xfloat) (t : Z),
       season_series !! k = Some v /\ v_time season_volume !! k = Some t
       /\ is_max_of season_series v
       /\ (forall k' w, k' < k -> season_series !! k' = Some w ->
                        feq w v = false)
       /\ pixel (l_values season_vpos) 0 0 = Some v
       /\ pixel (l_values season_pos) 0 0 = Some (dayofyear t).
Proof.
  assert (Hvpos : _vpos season_volume = Ok season_vpos)
    by (vm_compute; reflexivity).
  assert (Hpos : _pos season_volume = Ok season_pos)
    by (vm_compute; reflexivity).
  assert (Hs : pixel (v_values season_volume) 0 0 = Some season_series)
    by reflexivity.
  split; [by split_and!|].
  exact (peak_is_first_maximum season_volume season_vpos season_pos 0 0
           season_series Hvpos Hpos Hs).
Defined.

(** ** Length of season *)

Lemma los_cell_value (last e s : Z) :
  los_cell last e s
  = Some (if (0 <=? e - s)%Z then (e - s)%Z else (last + (e - s))%Z).
Proof.
  unfold los_cell, where_int, nan_lift2.
  destruct (0 <=? e - s)%Z eqn:Hnonneg; [done|].
  apply Z.leb_gt in Hnonneg.
  assert (Hneg : (e - s <? 0)%Z = true) by (by apply Z.ltb_lt).
  by rewrite Hneg.
Qed.

(** C4 (amended).  For every pixel with a start and an end of season, the
    length of season is EOS - SOS when that is not negative, and otherwise
    the last observed day of the year of the record plus (EOS - SOS); it is
    never NaN, and it is not negative whenever SOS is no later in the year
    than that last observed day. *)
Theorem los_wraps_at_last_day {F : Type} `{FloatOps F}
    (da : Volume F) (eos sos : Layer F Z) (los : Layer F (option Z))
    (i j : nat) (e s : Z) :
  _los da eos sos = Ok los ->
  pixel (l_values eos) i j = Some e ->
  pixel (l_values sos) i j = Some s ->
  exists last n : Z,
    py_last (map dayofyear (v_time da)) = Ok last
    /\ pixel (l_values los) i j = Some (Some n)
    /\ (0 <= e - s -> n = e - s)%Z
    /\ (e - s < 0 -> n = last + (e - s))%Z
    /\ (0 <= e -> s <= last -> 0 <= n)%Z.
Proof.
  unfold _los. intros Hlos He Hs. exc_inv Hlos. rename a into last.
  exc_inv Hlos. subst los. simpl.
  exists last, (if (0 <=? e - s)%Z then (e - s)%Z else (last + (e - s))%Z).
  split_and!; [done| | | |].
  - erewrite pixel_grid_zip by eauto. by rewrite los_cell_value.
  - intros Hge. apply Z.leb_le in Hge. by rewrite Hge.
  - intros Hlt. apply Z.leb_gt in Hlt. by rewrite Hlt.
  - intros He0 Hsl. destruct (0 <=? e - s)%Z eqn:Hc; [by apply Z.leb_le|lia].
Qed.

Lemma los_wraps_at_last_day_witness :
  (_los new_year_volume
        (mkLayer [xq 0 1] [xq 0 1] None [] [[10%Z]])
        (mkLayer [xq 0 1] [xq 0 1] None [] [[330%Z]])
   = Ok (mkLayer [xq 0 1] [xq 0 1] None [] [[Some (-280)%Z]]))
  /\ exists last n : Z,
       py_last (map dayofyear (v_time new_year_volume)) = Ok last
       /\ pixel [[Some (-280)%Z]] 0 0 = Some (Some n)
       /\ (0 <= 10 - 330 -> n = 10 - 330)%Z
       /\ (10 - 330 < 0 -> n = last + (10 - 330))%Z
       /\ (0 <= 10 -> 330 <= last -> 0 <= n)%Z.
Proof.
  assert (Hlos : _los new_year_volume
                   (mkLayer [xq 0 1] [xq 0 1] None [] [[10%Z]])
                   (mkLayer [xq 0 1] [xq 0 1] None [] [[330%Z]])
                 = Ok (mkLayer [xq 0 1] [xq 0 1] None [] [[Some (-280)%Z]]))
    by (vm_compute; reflexivity).
  split; [done|].
  exact (los_wraps_at_last_day new_year_volume _ _ _ 0 0 10%Z 330%Z
           Hlos eq_refl eq_refl).
Defined.

(** A record that runs from November 2019 to February 2020: the season
    starts on day 330, ends on day 10 of the next year, the last
    observation is on day 40, and the length of season comes out as
    40 + (10 - 330) = -280. *)
Lemma los_negative_across_new_year :
  exists (ds : Dataset xfloat) (los : Z),
    snd (xr_phenology_x 0 true new_year_volume
           (StatsList ["SOS"; "EOS"; "LOS"]) "median" "median" false) = Ok ds
    /\ ds_get "SOS" ds = Some (mkDataVar [] (Int16Grid [[330%Z]]))
    /\ ds_get "EOS" ds = Some (mkDataVar [] (Int16Grid [[10%Z]]))
    /\ ds_get "LOS" ds = Some (mkDataVar [] (Int16Grid [[los]]))
    /\ (los < 0)%Z.
Proof.
  eexists. exists (-280)%Z. split_and!; [vm_compute; reflexivity|done..].
Qed.

(** ** The stats argument and the stat argument *)

(** C10.  With a [stat] that is neither 'max' nor 'min', [allNaN_arg]
    falls through both tests and returns [None], whatever the array and
    whichever of its dimensions is named: no error, no index. *)
Theorem allNaN_arg_other_stat {F : Type} `{FloatOps F}
    (da : grid (list F)) (dim stat : string) :
  In dim ["y"; "x"; "time"] -> stat <> "max" -> stat <> "min" ->
  allNaN_arg da dim stat = Ok None.
Proof.
  intros Hdim Hmax Hmin. unfold allNaN_arg.
  apply String.eqb_neq in Hmax, Hmin. rewrite Hmax, Hmin.
  simpl in Hdim. destruct Hdim as [<-|[<-|[<-|[]]]]; reflexivity.
Qed.

Lemma allNaN_arg_other_stat_witness :
  allNaN_arg [[season_series]] "time" "median" = Ok None.
Proof.
  apply (allNaN_arg_other_stat [[season_series]] "time" "median").
  - simpl. auto.
  - discriminate.
  - discriminate.
Defined.

(** ** Validation of the arguments *)

(** C3.  [xr_phenology] checks its arguments before anything
    else: a dask collection is refused with [TypeError], and, for an array
    in memory, a [method_sos] other than 'median' and 'first' or a
    [method_eos] other than 'median' and 'last' is refused with
    [ValueError]; in both cases nothing has been printed, so no stage of
    the computation was entered, and there is no dataset. *)
Theorem validation_comes_first {F : Type} `{FloatOps F}
    (nan_int16 : Z) (astype_keeps_attrs : bool)
    (fast_completion smooth : grid (list F) -> grid (list F))
    (da : Volume F) (stats : stats_arg) (method_sos method_eos : string)
    (complete_smooth : bool) :
  (v_dask da = true ->
   xr_phenology nan_int16 astype_keeps_attrs fast_completion smooth
     da stats method_sos method_eos complete_smooth = ([], Raise TypeError))
  /\ (v_dask da = false ->
      (method_sos <> "median" /\ method_sos <> "first")
      \/ (method_eos <> "median" /\ method_eos <> "last") ->
      xr_phenology nan_int16 astype_keeps_attrs fast_completion smooth
        da stats method_sos method_eos complete_smooth
      = ([], Raise ValueError)).
Proof.
  unfold xr_phenology. split.
  - by intros ->.
  - intros -> Hbad.
    assert (Hno : forall m a b : string,
               m <> a /\ m <> b -> existsb (String.eqb m) [a; b] = false).
    { intros m a b [Ha Hb]. apply String.eqb_neq in Ha, Hb.
      simpl. by rewrite Ha, Hb. }
    destruct Hbad as [Hsos|Heos].
    + by rewrite (Hno _ _ _ Hsos).
    + rewrite (Hno _ _ _ Heos).
      by destruct (existsb (String.eqb method_sos) ["median"; "first"]).
Qed.

Lemma validation_comes_first_witness :
  (v_dask lazy_volume = true ->
   xr_phenology_x 0 true lazy_volume (StatsList default_stats)
     "median" "median" true = ([], Raise TypeError))
  /\ (v_dask season_volume = false ->
      ("mean"%string <> "median" /\ "mean"%string <> "first")
      \/ ("median"%string <> "median" /\ "median"%string <> "last") ->
      xr_phenology_x 0 true season_volume (StatsList default_stats)
        "mean" "median" true = ([], Raise ValueError)).
Proof.
  split.
  - exact (proj1 (validation_comes_first 0%Z true keep_series keep_series
                    lazy_volume (StatsList default_stats)
                    "median" "median" true)).
  - exact (proj2 (validation_comes_first 0%Z true keep_series keep_series
                    season_volume (StatsList default_stats)
                    "mean" "median" true)).
Defined.

(** ** Dictionaries and the assembly of the dataset *)

Lemma dict_set_keys {V : Type} (k : string) (v : V) (d : list (string * V)) :
  map fst (dict_set k v d) = add_key (map fst d) k.
Proof.
  unfold add_key. induction d as [|[k' v'] d IH]; simpl; [done|].
  destruct (String.eqb k k') eqn:Hk; simpl.
  - apply String.eqb_eq in Hk. by subst.
  - rewrite IH. by destruct (existsb (String.eqb k) (map fst d)).
Qed.

Lemma dict_get_set {V : Type} (k k' : string) (v : V) (d : list (string * V)) :
  dict_get k' (dict_set k v d)
  = if String.eqb k' k then Some v else dict_get k' d.
Proof.
  induction d as [|[k0 v0] d IH]; simpl.
  - by destruct (String.eqb k' k).
  - destruct (String.eqb k k0) eqn:Hk; simpl.
    + apply String.eqb_eq in Hk. subst k0. by destruct (String.eqb k' k).
    + destruct (String.eqb k' k0) eqn:Hk'; [|done].
      apply String.eqb_eq in Hk'. subst k0.
      by rewrite String.eqb_sym, Hk.
Qed.

Lemma has_key_keys {V : Type} (d : list (string * V)) (k : string) :
  has_key d k = existsb (String.eqb k) (map fst d).
Proof.
  unfold has_key. induction d as [|[k' v] d IH]; simpl; [done|].
  by destruct (String.eqb k k').
Qed.

Lemma fold_add_key_fresh (l ks : list string) :
  NoDup (ks ++ l) -> fold_left add_key l ks = ks ++ l.
Proof.
  revert ks. induction l as [|k l IH]; intros ks Hnd; simpl.
  - by rewrite app_nil_r.
  - assert (Hk : existsb (String.eqb k) ks = false).
    { destruct (existsb (String.eqb k) ks) eqn:He; [|done].
      apply existsb_exists in He as (k' & Hin & Heq).
      apply String.eqb_eq in Heq. subst k'.
      apply NoDup_app in Hnd as (_ & Hdisj & _).
      exfalso. apply (Hdisj k); [by apply list_elem_of_In|constructor]. }
    unfold add_key at 2. rewrite Hk.
    rewrite IH; rewrite <- app_assoc; simpl; done.
Qed.

Section Assembly.
Context {F : Type}.

Lemma add_stats_spec (d : list (string * StatArray F)) (rest : list string) :
  forall ds : Dataset F,
  match add_stats d rest ds with
  | Ok ds' =>
      forallb (has_key d) rest = true
      /\ ds_x ds' = ds_x ds /\ ds_y ds' = ds_y ds
      /\ ds_keys ds' = fold_left add_key rest (ds_keys ds)
      /\ forall s, ds_get s ds'
                   = if existsb (String.eqb s) rest
                     then sa_var <$> dict_get s d else ds_get s ds
  | Raise e => e = KeyError /\ forallb (has_key d) rest = false
  end.
Proof.
  induction rest as [|stat rest IH]; intros ds; simpl; [done|].
  unfold dict_item, has_key.
  destruct (dict_get stat d) as [a|] eqn:Hstat; simpl; [|done].
  specialize (IH (ds_setitem ds stat a)).
  destruct (add_stats d rest (ds_setitem ds stat a)) as [ds'|e]; [|done].
  destruct IH as (Hall & Hx & Hy & Hkeys & Hget).
  split_and!; [done|done|done| |].
  - rewrite Hkeys. unfold ds_keys, ds_setitem. simpl.
    by rewrite dict_set_keys.
  - intros s. rewrite Hget. unfold ds_get, ds_setitem. simpl.
    rewrite dict_get_set.
    destruct (String.eqb s stat) eqn:Hs; simpl.
    + apply String.eqb_eq in Hs. subst s. rewrite Hstat.
      by destruct (existsb (String.eqb stat) rest).
    + done.
Qed.

Lemma build_dataset_spec (d : list (string * StatArray F))
    (s0 : string) (rest : list string) :
  match build_dataset d (s0 :: rest) with
  | Ok ds =>
      forallb (has_key d) (s0 :: rest) = true
      /\ (exists a0, dict_get s0 d = Some a0
                     /\ ds_x ds = sa_x a0 /\ ds_y ds = sa_y a0)
      /\ ds_keys ds = fold_left add_key (s0 :: rest) []
      /\ forall s, ds_get s ds
                   = if existsb (String.eqb s) (s0 :: rest)
                     then sa_var <$> dict_get s d else None
  | Raise e => e = KeyError /\ forallb (has_key d) (s0 :: rest) = false
  end.
Proof.
  unfold build_dataset, dict_item. simpl. unfold has_key at 1 3.
  destruct (dict_get s0 d) as [a0|] eqn:Hs0; simpl; [|done].
  pose proof (add_stats_spec d rest (to_dataset s0 a0)) as Hspec.
  destruct (add_stats d rest (to_dataset s0 a0)) as [ds|e]; [|done].
  destruct Hspec as (Hall & Hx & Hy & Hkeys & Hget).
  split_and!; [done|by exists a0|done|].
  intros s. rewrite Hget. unfold ds_get, to_dataset. simpl.
  destruct (String.eqb s s0) eqn:Hs; simpl.
  - apply String.eqb_eq in Hs. subst s. rewrite Hs0.
    by destruct (existsb (String.eqb s0) rest).
  - done.
Qed.

End Assembly.

(** ** Coordinates and attributes along the pipeline *)

Section Metadata.
Context {F : Type} `{FloatOps F}.
Variable nan_int16 : Z.
Variable astype_keeps_attrs : bool.
Variable fast_completion smooth : grid (list F) -> grid (list F).

Lemma reduce_time_meta {A : Type} (f : list F -> Exc A) (da : Volume F)
    (l : Layer F A) :
  reduce_time f da = Ok l ->
  l_x l = v_x da /\ l_y l = v_y da /\ l_attrs l = [].
Proof. unfold reduce_time. intros Hl. exc_inv Hl. exc_inv Hl. by subst. Qed.

Lemma isel_time_meta (da : Volume F) (idx : grid Z) (l : Layer F F) :
  isel_time da idx = Ok l ->
  l_x l = v_x da /\ l_y l = v_y da /\ l_attrs l = v_attrs da.
Proof.
  unfold isel_time. intros Hl. exc_inv Hl. exc_inv Hl. exc_inv Hl. by subst.
Qed.

Lemma time_dayofyear_meta {A : Type} (l : Layer F A) (l' : Layer F Z) :
  time_dayofyear l = Ok l' ->
  l_x l' = l_x l /\ l_y l' = l_y l /\ l_attrs l' = [].
Proof.
  unfold time_dayofyear. destruct (l_time l); intros Hl; exc_inv Hl.
  by subst.
Qed.

Lemma pos_meta (da : Volume F) (l : Layer F Z) :
  _pos da = Ok l -> l_x l = v_x da /\ l_y l = v_y da /\ l_attrs l = [].
Proof.
  unfold _pos. intros Hl. exc_inv Hl. exc_inv Hl.
  apply isel_time_meta in Ha0 as (Hx & Hy & _).
  apply time_dayofyear_meta in Hl as (Hx' & Hy' & Ha').
  split_and!; congruence.
Qed.

Lemma vsos_meta (da : Volume F) (pos : Layer F Z) (m : string) (l : Layer F F) :
  _vsos nan_int16 da pos m = Ok l ->
  l_x l = v_x da /\ l_y l = v_y da /\ l_attrs l = v_attrs da.
Proof.
  unfold _vsos. intros Hl. exc_inv Hl. exc_inv Hl. exc_inv Hl.
  by apply isel_time_meta in Hl.
Qed.

Lemma veos_meta (da : Volume F) (pos : Layer F Z) (m : string) (l : Layer F F) :
  _veos nan_int16 da pos m = Ok l ->
  l_x l = v_x da /\ l_y l = v_y da /\ l_attrs l = v_attrs da.
Proof.
  unfold _veos. intros Hl. exc_inv Hl. exc_inv Hl. exc_inv Hl.
  by apply isel_time_meta in Hl.
Qed.

Lemma phenology_stats_entries (da : Volume F) (method_sos method_eos : string)
    (d : list (string * StatArray F)) :
  phenology_stats nan_int16 astype_keeps_attrs da method_sos method_eos = Ok d ->
  map fst d = stats_dict_keys
  /\ forall k a, dict_get k d = Some a ->
       sa_x a = v_x da /\ sa_y a = v_y da
       /\ var_attrs (sa_var a) = stat_attrs astype_keeps_attrs k (v_attrs da).
Proof.
  unfold phenology_stats. intros Hd.
  exc_inv Hd. rename a into vpos, Ha into Hvpos.
  exc_inv Hd. rename a into pos, Ha into Hpos.
  exc_inv Hd. rename a into trough, Ha into Htrough.
  exc_inv Hd. rename a into vsos, Ha into Hvsos.
  exc_inv Hd. rename a into sos, Ha into Hsos.
  exc_inv Hd. rename a into veos, Ha into Hveos.
  exc_inv Hd. rename a into eos, Ha into Heos.
  exc_inv Hd. rename a into los, Ha into Hlos.
  exc_inv Hd. subst d. split; [done|].
  apply reduce_time_meta in Hvpos as (Hx1 & Hy1 & Ha1).
  apply pos_meta in Hpos as (Hx2 & Hy2 & Ha2).
  apply reduce_time_meta in Htrough as (Hx3 & Hy3 & Ha3).
  apply vsos_meta in Hvsos as (Hx4 & Hy4 & Ha4).
  apply time_dayofyear_meta in Hsos as (Hx5 & Hy5 & Ha5).
  apply veos_meta in Hveos as (Hx6 & Hy6 & Ha6).
  apply time_dayofyear_meta in Heos as (Hx7 & Hy7 & Ha7).
  unfold _los in Hlos. exc_inv Hlos. rename a into last.
  exc_inv Hlos. subst los.
  intros k a Hget. simpl in Hget. unfold stat_attrs, astype_attrs.
  repeat match type of Hget with
         | (if String.eqb k ?n then _ else _) = _ =>
             let Hk := fresh "Hk" in
             destruct (String.eqb k n) eqn:Hk;
             [apply String.eqb_eq in Hk; subst k; injection Hget as <-; simpl;
              rewrite ?Ha1, ?Ha2, ?Ha3, ?Ha4, ?Ha5, ?Ha6, ?Ha7;
              split_and!; [congruence|congruence|by destruct astype_keeps_attrs]
             |]
         end.
  done.
Qed.

(** Either the preparation fails, whatever was requested, or the dataset is
    assembled from the statistics of the working copy. *)
Lemma xr_phenology_cases (da : Volume F) (method_sos method_eos : string)
    (complete_smooth : bool) :
  (exists out e, forall stats,
      xr_phenology nan_int16 astype_keeps_attrs fast_completion smooth
        da stats method_sos method_eos complete_smooth = (out, Raise e))
  \/ (exists out da2,
        v_x da2 = v_x da /\ v_y da2 = v_y da /\ v_attrs da2 = v_attrs da
        /\ forall stats,
             xr_phenology nan_int16 astype_keeps_attrs fast_completion smooth
               da stats method_sos method_eos complete_smooth
             = (out,
                d <- phenology_stats nan_int16 astype_keeps_attrs da2
                       method_sos method_eos ;;
                build_dataset d (stats_as_list stats))).
Proof.
  unfold xr_phenology.
  destruct (v_dask da); [left; eauto|].
  destruct (negb (existsb (String.eqb method_sos) _)); [left; eauto|].
  destruct (negb (existsb (String.eqb method_eos) _)); [left; eauto|].
  destruct complete_smooth.
  - unfold complete_and_smooth.
    destruct (shape_ok3 _ _ _ _); [|left; eauto].
    right. eexists _, _. split_and!; [| | |intros; reflexivity]; done.
  - right. eexists _, _. split_and!; [| | |intros; reflexivity]; done.
Qed.

End Metadata.

(** ** The requested statistics *)

Lemma vocabulary_is_stats_dict (s : string) :
  existsb (String.eqb s) stats_dict_keys = in_vocabulary s.
Proof.
  unfold in_vocabulary, stats_dict_keys, default_stats. simpl.
  repeat match goal with
         | |- context [String.eqb s ?n] => destruct (String.eqb s n)
         end; reflexivity.
Qed.

Lemma forallb_pointwise {A : Type} (f g : A -> bool) (l : list A) :
  (forall a, f a = g a) -> forallb f l = forallb g l.
Proof. intros Hfg. induction l as [|a l IH]; simpl; [done|]. by rewrite Hfg, IH. Qed.

Section Requests.
Context {F : Type} `{FloatOps F}.
Variable nan_int16 : Z.
Variable astype_keeps_attrs : bool.
Variable fast_completion smooth : grid (list F) -> grid (list F).

Local Abbreviation run :=
  (xr_phenology nan_int16 astype_keeps_attrs fast_completion smooth).

Lemma stats_dict_has_key (da : Volume F) (method_sos method_eos : string)
    (d : list (string * StatArray F)) (s : string) :
  phenology_stats nan_int16 astype_keeps_attrs da method_sos method_eos = Ok d ->
  has_key d s = in_vocabulary s.
Proof.
  intros Hd. apply phenology_stats_entries in Hd as [Hkeys _].
  by rewrite has_key_keys, Hkeys, vocabulary_is_stats_dict.
Qed.

(** C2 (amended).  For every input, every pair of methods and every
    non-empty list of requested names: if the computation of all eleven
    statistics fails, the request fails with the same error; otherwise, when
    every requested name is in the vocabulary, the output has exactly the
    requested names as keys, in the requested order (a repeated name once,
    at its first place), each holding the layer of the full computation;
    and when some requested name is outside the vocabulary the call fails
    with [KeyError] and returns no dataset. *)
Theorem requested_subset_of_full (da : Volume F)
    (method_sos method_eos : string) (complete_smooth : bool)
    (stats : list string) :
  stats <> [] ->
  match snd (run da (StatsList default_stats) method_sos method_eos
               complete_smooth) with
  | Raise e =>
      snd (run da (StatsList stats) method_sos method_eos complete_smooth)
      = Raise e
  | Ok full =>
      if forallb in_vocabulary stats
      then exists ds : Dataset F,
             snd (run da (StatsList stats) method_sos method_eos
                    complete_smooth) = Ok ds
             /\ ds_keys ds = fold_left add_key stats []
             /\ (NoDup stats -> ds_keys ds = stats)
             /\ forall s, s ∈ stats ->
                  exists v, ds_get s ds = Some v /\ ds_get s full = Some v
      else snd (run da (StatsList stats) method_sos method_eos
                  complete_smooth) = Raise KeyError
  end.
Proof.
  intros Hne.
  destruct (xr_phenology_cases nan_int16 astype_keeps_attrs fast_completion
              smooth da method_sos method_eos complete_smooth)
    as [(out & e & Hfail)|(out & da2 & _ & _ & _ & Hrun)].
  { by rewrite !Hfail. }
  rewrite !Hrun. cbn [snd stats_as_list].
  destruct (phenology_stats nan_int16 astype_keeps_attrs da2 method_sos
              method_eos) as [d|e] eqn:Hd; cbn [exc_bind]; [|done].
  assert (Hkey : forall s, has_key d s = in_vocabulary s).
  { intros s. eapply stats_dict_has_key; eauto. }
  pose proof (build_dataset_spec d "SOS" (tail default_stats)) as Hfull.
  change ("SOS" :: tail default_stats) with default_stats in Hfull.
  destruct (build_dataset d default_stats) as [full|e].
  2: { destruct Hfull as [_ Hfull].
       rewrite (forallb_pointwise _ _ _ Hkey) in Hfull. discriminate. }
  destruct Hfull as (_ & _ & _ & Hfullget).
  destruct stats as [|s0 rest]; [done|].
  pose proof (build_dataset_spec d s0 rest) as Hsub.
  rewrite (forallb_pointwise _ _ _ Hkey) in Hsub.
  destruct (build_dataset d (s0 :: rest)) as [ds|e].
  - destruct Hsub as (Hall & _ & Hkeys & Hget). rewrite Hall.
    exists ds. split_and!; [done|done| |].
    + intros Hnd. rewrite Hkeys. by apply (fold_add_key_fresh _ []).
    + intros s Hs.
      assert (Hin : existsb (String.eqb s) (s0 :: rest) = true).
      { apply existsb_exists. exists s. split; [by apply list_elem_of_In|].
        apply String.eqb_refl. }
      assert (Hvoc : in_vocabulary s = true).
      { rewrite forallb_forall in Hall. apply Hall.
        by apply list_elem_of_In. }
      rewrite Hget, Hfullget, Hin. fold (in_vocabulary s). rewrite Hvoc.
      rewrite <- Hkey in Hvoc. unfold has_key in Hvoc.
      destruct (dict_get s d) as [a|]; [|done]. simpl. eauto.
  - destruct Hsub as [-> Hall]. by rewrite Hall.
Qed.

End Requests.

Lemma requested_subset_of_full_witness :
  ["vPOS"; "AOS"] <> []
  /\ match snd (xr_phenology 0 true keep_series keep_series season_volume
                  (StatsList default_stats) "median" "median" false) with
     | Raise e =>
         snd (xr_phenology 0 true keep_series keep_series season_volume
                (StatsList ["vPOS"; "AOS"]) "median" "median" false)
         = Raise e
     | Ok full =>
         if forallb in_vocabulary ["vPOS"; "AOS"]
         then exists ds : Dataset xfloat,
                snd (xr_phenology 0 true keep_series keep_series season_volume
                       (StatsList ["vPOS"; "AOS"]) "median" "median" false)
                = Ok ds
                /\ ds_keys ds = fold_left add_key ["vPOS"; "AOS"] []
                /\ (NoDup ["vPOS"; "AOS"] -> ds_keys ds = ["vPOS"; "AOS"])
                /\ forall s, s ∈ ["vPOS"; "AOS"] ->
                     exists v, ds_get s ds = Some v /\ ds_get s full = Some v
         else snd (xr_phenology 0 true keep_series keep_series season_volume
                     (StatsList ["vPOS"; "AOS"]) "median" "median" false)
              = Raise KeyError
     end.
Proof.
  assert (Hne : ["vPOS"; "AOS"] <> []) by discriminate.
  pose proof (requested_subset_of_full 0%Z true keep_series keep_series
                season_volume "median" "median" false ["vPOS"; "AOS"] Hne)
    as Hsubset.
  split; [exact Hne|exact Hsubset].
Defined.

(** An empty list of names is refused with [IndexError] instead of giving
    an output without keys, and a valid request on a series of a single
    observation fails with [IndexError] too (no slope can be taken)
    instead of giving an output. *)
Lemma empty_request_has_no_output :
  snd (xr_phenology_x 0 true season_volume (StatsList [])
         "median" "median" false) = Raise IndexError
  /\ snd (xr_phenology_x 0 true single_step_volume (StatsList ["vPOS"])
            "median" "median" false) = Raise IndexError.
Proof. split; vm_compute; reflexivity. Qed.

(** ** Coordinates and attributes of the outputs *)

Section Frame.
Context {F : Type} `{FloatOps F}.
Variable nan_int16 : Z.
Variable astype_keeps_attrs : bool.
Variable fast_completion smooth : grid (list F) -> grid (list F).
Variable discordance : grid (list F) -> Z -> grid F.
Variable fourier_std fourier_mean fourier_median :
  grid (list F) -> Z -> Z -> grid (list F).
Variable mean_change median_change mean_abs_change complexity
  mean_central_diff : grid (list F) -> grid F.
Variable number_peaks : grid (list F) -> Z -> grid F.

Local Abbreviation phenology :=
  (xr_phenology nan_int16 astype_keeps_attrs fast_completion smooth).
Local Abbreviation temporal :=
  (temporal_statistics fast_completion discordance fourier_std fourier_mean
     fourier_median mean_change median_change mean_abs_change complexity
     mean_central_diff number_peaks).
Local Abbreviation loop :=
  (temporal_loop discordance fourier_std fourier_mean fourier_median
     mean_change median_change mean_abs_change complexity mean_central_diff
     number_peaks).

Lemma stat_array_meta (x y : list F) (a : attrs) (vals : grid F)
    (sa : StatArray F) :
  stat_array x y a vals = Ok sa ->
  sa_x sa = x /\ sa_y sa = y /\ var_attrs (sa_var sa) = a.
Proof.
  unfold stat_array. destruct (shape_ok2 x y vals); intros Hsa; exc_inv Hsa.
  by subst.
Qed.

Lemma temporal_loop_frame (da : Volume F) (vals : grid (list F))
    (rest : list string) :
  forall (out : list string) (ds : Dataset F) (out' : list string)
         (ds' : Dataset F),
  loop da vals rest out ds = (out', Ok ds') ->
  ds_x ds' = ds_x ds /\ ds_y ds' = ds_y ds
  /\ forall k v, ds_get k ds' = Some v ->
                 var_attrs v = v_attrs da \/ ds_get k ds = Some v.
Proof.
  induction rest as [|stat rest IH]; intros out ds out' ds' Hloop;
    simpl in Hloop.
  - injection Hloop as _ <-. auto.
  - destruct (exc_bind _ _) as [a|e] eqn:Hstat; [|done].
    exc_inv Hstat. apply stat_array_meta in Hstat as (_ & _ & Hattrs).
    destruct (IH _ _ _ _ Hloop) as (Hx & Hy & Hvars).
    split_and!; [done|done|].
    intros k v Hk. destruct (Hvars k v Hk) as [Hv|Hv]; [by left|].
    unfold ds_get, ds_setitem in Hv. simpl in Hv. rewrite dict_get_set in Hv.
    destruct (String.eqb k stat); [|by right].
    injection Hv as <-. by left.
Qed.

(** X27.  The outputs of both functions are laid over the spatial
    coordinates of the input.  [temporal_statistics] hands the attributes of
    the input to every layer.  [xr_phenology] does not: a statistic that
    went through a reduction over time, arithmetic or the day-of-year
    accessor has no attributes, and only the two selections along time
    (vSOS, vEOS) keep those of the input, as far as [astype] keeps
    attributes ([stat_attrs]). *)
Theorem outputs_share_spatial_axes :
  (forall (da : Volume F) (stats : stats_arg) (method_sos method_eos : string)
          (complete_smooth : bool) (out : list string) (ds : Dataset F),
     phenology da stats method_sos method_eos complete_smooth = (out, Ok ds) ->
     ds_x ds = v_x da /\ ds_y ds = v_y da
     /\ forall k v, ds_get k ds = Some v ->
                    var_attrs v = stat_attrs astype_keeps_attrs k (v_attrs da))
  /\ (forall (da : Volume F) (stats : stats_arg) (out : list string)
             (ds : Dataset F),
        temporal da stats = (out, Ok ds) ->
        ds_x ds = v_x da /\ ds_y ds = v_y da
        /\ forall k v, ds_get k ds = Some v -> var_attrs v = v_attrs da).
Proof.
  split.
  - intros da stats method_sos method_eos complete_smooth out ds Hrun.
    destruct (xr_phenology_cases nan_int16 astype_keeps_attrs fast_completion
                smooth da method_sos method_eos complete_smooth)
      as [(out' & e & Hfail)|(out' & da2 & Hx & Hy & Hattrs & Hcase)].
    { rewrite Hfail in Hrun. discriminate. }
    rewrite Hcase in Hrun. injection Hrun as _ Hrun.
    exc_inv Hrun. rename a into d.
    apply phenology_stats_entries in Ha as [_ Hentries].
    destruct (stats_as_list stats) as [|s0 rest]; [done|].
    pose proof (build_dataset_spec d s0 rest) as Hspec.
    rewrite Hrun in Hspec.
    destruct Hspec as (_ & (a0 & Ha0 & Hdx & Hdy) & _ & Hget).
    destruct (Hentries _ _ Ha0) as (Hx0 & Hy0 & _).
    split_and!; [congruence|congruence|].
    intros k v Hk. rewrite Hget in Hk.
    destruct (existsb (String.eqb k) (s0 :: rest)); [|done].
    destruct (dict_get k d) as [a|] eqn:Hka; [|done].
    injection Hk as <-. destruct (Hentries _ _ Hka) as (_ & _ & Hv).
    by rewrite Hv, Hattrs.
  - intros da stats out ds. unfold temporal_statistics.
    destruct (stats_as_list stats) as [|s0 rest]; [done|].
    destruct (exc_bind _ _) as [a|e] eqn:Hstat; [|done].
    exc_inv Hstat. apply stat_array_meta in Hstat as (Hx & Hy & Hattrs).
    intros Hloop. apply temporal_loop_frame in Hloop as (Hdx & Hdy & Hvars).
    split_and!; [by rewrite Hdx|by rewrite Hdy|].
    intros k v Hk. destruct (Hvars k v Hk) as [Hv|Hv]; [done|].
    unfold ds_get, to_dataset in Hv. simpl in Hv.
    destruct (String.eqb k s0); [|done]. by injection Hv as <-.
Qed.

End Frame.

Lemma outputs_share_spatial_axes_witness :
  (xr_phenology_x 0 true season_volume (StatsList ["vPOS"; "vSOS"])
     "median" "median" true
   = (["Completing..."; "   Smoothing..."; "      Phenology..."],
      Ok season_phenology_output)
   /\ ds_x season_phenology_output = v_x season_volume
   /\ ds_y season_phenology_output = v_y season_volume
   /\ forall k v, ds_get k season_phenology_output = Some v ->
                  var_attrs v = stat_attrs true k (v_attrs season_volume))
  /\ (temporal_statistics_x season_volume (StatsList ["f_std_n2"; "num_peaks"])
      = (["Completing..."; "   Statistics:"; "      f_std_n2";
          "      num_peaks"], Ok season_temporal_output)
      /\ ds_x season_temporal_output = v_x season_volume
      /\ ds_y season_temporal_output = v_y season_volume
      /\ forall k v, ds_get k season_temporal_output = Some v ->
                     var_attrs v = v_attrs season_volume).
Proof.
  assert (Hp : xr_phenology_x 0 true season_volume
                 (StatsList ["vPOS"; "vSOS"]) "median" "median" true
               = (["Completing..."; "   Smoothing..."; "      Phenology..."],
                  Ok season_phenology_output))
    by (vm_compute; reflexivity).
  assert (Ht : temporal_statistics_x season_volume
                 (StatsList ["f_std_n2"; "num_peaks"])
               = (["Completing..."; "   Statistics:"; "      f_std_n2";
                   "      num_peaks"], Ok season_temporal_output))
    by (vm_compute; reflexivity).
  pose proof (outputs_share_spatial_axes 0%Z true keep_series keep_series
                count_stat_n three_columns three_columns three_columns
                count_stat count_stat count_stat count_stat count_stat
                count_stat_n) as [Hphen Htemp].
  split.
  - split; [exact Hp|]. exact (Hphen _ _ _ _ _ _ _ Hp).
  - split; [exact Ht|]. exact (Htemp _ _ _ _ Ht).
Defined.

(** C8 (failing input).  The attributes of the input are meant to reach
    the output unchanged.  The input carries an attribute, the vPOS layer
    of [xr_phenology] carries none, whether [astype] keeps attributes or
    not. *)
Lemma phenology_drops_attributes :
  v_attrs season_volume = [("crs", "EPSG:6933")]
  /\ snd (xr_phenology_x 0 true season_volume (StatsList ["vPOS"])
            "median" "median" true)
     = Ok (mkDataset [xq 0 1] [xq 0 1]
             [("vPOS", mkDataVar [] (Float32Grid [[xq 95 100]]))])
  /\ snd (xr_phenology_x 0 false season_volume (StatsList ["vPOS"])
            "median" "median" true)
     = Ok (mkDataset [xq 0 1] [xq 0 1]
             [("vPOS", mkDataVar [] (Float32Grid [[xq 95 100]]))]).
Proof. split_and!; vm_compute; reflexivity. Qed.

(** ** A bare name in place of the list *)

Section BareName.
Context {F : Type} `{FloatOps F}.
Variable nan_int16 : Z.
Variable astype_keeps_attrs : bool.
Variable fast_completion smooth : grid (list F) -> grid (list F).
Variable discordance : grid (list F) -> Z -> grid F.
Variable fourier_std fourier_mean fourier_median :
  grid (list F) -> Z -> Z -> grid (list F).
Variable mean_change median_change mean_abs_change complexity
  mean_central_diff : grid (list F) -> grid F.
Variable number_peaks : grid (list F) -> Z -> grid F.

(** C9.  A [stats] argument that is not a list is accepted and wrapped
    into a one-element list.  Both functions do for the bare name [s] what
    they do for the list [[s]].  [xr_phenology] returns for it, whenever
    the full computation returns and [s] is in the vocabulary, a dataset
    whose only variable is [s], holding the layer of the full computation;
    [temporal_statistics] returns for it, whenever the function of [s]
    returns an array of the shape of the coordinates, the dataset whose
    only variable is [s], holding that array. *)
Theorem bare_stat_is_wrapped (da : Volume F) (s method_sos method_eos : string)
    (complete_smooth : bool) :
  (xr_phenology nan_int16 astype_keeps_attrs fast_completion smooth
     da (StatsBare s) method_sos method_eos complete_smooth
   = xr_phenology nan_int16 astype_keeps_attrs fast_completion smooth
       da (StatsList [s]) method_sos method_eos complete_smooth
   /\ forall full,
        snd (xr_phenology nan_int16 astype_keeps_attrs fast_completion smooth
               da (StatsList default_stats) method_sos method_eos
               complete_smooth) = Ok full ->
        in_vocabulary s = true ->
        exists ds v,
          snd (xr_phenology nan_int16 astype_keeps_attrs fast_completion
                 smooth da (StatsBare s) method_sos method_eos
                 complete_smooth) = Ok ds
          /\ ds_keys ds = [s]
          /\ ds_get s ds = Some v /\ ds_get s full = Some v)
  /\ (temporal_statistics fast_completion discordance fourier_std
        fourier_mean fourier_median mean_change median_change
        mean_abs_change complexity mean_central_diff number_peaks
        da (StatsBare s)
      = temporal_statistics fast_completion discordance fourier_std
          fourier_mean fourier_median mean_change median_change
          mean_abs_change complexity mean_central_diff number_peaks
          da (StatsList [s])
      /\ forall v,
           call_stat discordance fourier_std fourier_mean fourier_median
             mean_change median_change mean_abs_change complexity
             mean_central_diff number_peaks s
             (fast_completion (v_values da)) = Ok v ->
           shape_ok2 (v_x da) (v_y da) v = true ->
           temporal_statistics fast_completion discordance fourier_std
             fourier_mean fourier_median mean_change median_change
             mean_abs_change complexity mean_central_diff number_peaks
             da (StatsBare s)
           = (["Completing..."; "   Statistics:"; String.append "      " s],
              Ok (mkDataset (v_x da) (v_y da)
                    [(s, mkDataVar (v_attrs da) (Float32Grid v))]))).
Proof.
  split; split; try reflexivity.
  - intros full Hfull Hvoc.
    destruct (xr_phenology_cases nan_int16 astype_keeps_attrs fast_completion
                smooth da method_sos method_eos complete_smooth)
      as [(out & e & Hfail)|(out & da2 & _ & _ & _ & Hrun)].
    { by rewrite Hfail in Hfull. }
    rewrite Hrun in Hfull. rewrite Hrun. cbn [snd stats_as_list] in *.
    destruct (phenology_stats nan_int16 astype_keeps_attrs da2 method_sos
                method_eos) as [d|e] eqn:Hd; cbn [exc_bind] in *; [|done].
    assert (Hkey : has_key d s = true).
    { rewrite <- Hvoc. eapply stats_dict_has_key; eauto. }
    unfold has_key in Hkey.
    destruct (dict_get s d) as [a|] eqn:Hget; [|done].
    pose proof (build_dataset_spec d "SOS" (tail default_stats)) as Hspec.
    change ("SOS" :: tail default_stats) with default_stats in Hspec.
    rewrite Hfull in Hspec. destruct Hspec as (_ & _ & _ & Hfullget).
    exists (to_dataset s a), (sa_var a). split_and!.
    + unfold build_dataset, dict_item. by rewrite Hget.
    + done.
    + unfold ds_get, to_dataset. simpl. by rewrite String.eqb_refl.
    + rewrite Hfullget. fold (in_vocabulary s). by rewrite Hvoc, Hget.
  - intros v Hv Hshape. unfold temporal_statistics.
    cbn [stats_as_list]. rewrite Hv. cbn [exc_bind]. unfold stat_array.
    by rewrite Hshape.
Qed.

End BareName.

Lemma bare_stat_is_wrapped_witness :
  (exists full ds v,
     snd (xr_phenology 0 true keep_series keep_series season_volume
            (StatsList default_stats) "median" "median" false) = Ok full
     /\ in_vocabulary "vPOS" = true
     /\ snd (xr_phenology 0 true keep_series keep_series season_volume
               (StatsBare "vPOS") "median" "median" false) = Ok ds
     /\ ds_keys ds = ["vPOS"]
     /\ ds_get "vPOS" ds = Some v /\ ds_get "vPOS" full = Some v)
  /\ (call_stat count_stat_n three_columns three_columns three_columns
        count_stat count_stat count_stat count_stat count_stat count_stat_n
        "num_peaks" (keep_series (v_values season_volume)) = Ok [[xq 8 1]]
      /\ shape_ok2 (v_x season_volume) (v_y season_volume) [[xq 8 1]] = true)
  /\ temporal_statistics keep_series count_stat_n three_columns three_columns
       three_columns count_stat count_stat count_stat count_stat count_stat
       count_stat_n season_volume (StatsBare "num_peaks")
     = (["Completing..."; "   Statistics:";
         String.append "      " "num_peaks"],
        Ok (mkDataset (v_x season_volume) (v_y season_volume)
              [("num_peaks",
                mkDataVar (v_attrs season_volume) (Float32Grid [[xq 8 1]]))])).
Proof.
  assert (Hfull : exists full,
            snd (xr_phenology 0 true keep_series keep_series season_volume
                   (StatsList default_stats) "median" "median" false)
            = Ok full).
  { eexists. vm_compute. reflexivity. }
  assert (Hcall : call_stat count_stat_n three_columns three_columns
                    three_columns count_stat count_stat count_stat count_stat
                    count_stat count_stat_n "num_peaks"
                    (keep_series (v_values season_volume)) = Ok [[xq 8 1]])
    by (vm_compute; reflexivity).
  assert (Hshape : shape_ok2 (v_x season_volume) (v_y season_volume)
                     [[xq 8 1]] = true) by reflexivity.
  pose proof (bare_stat_is_wrapped 0 true keep_series keep_series
                count_stat_n three_columns three_columns three_columns
                count_stat count_stat count_stat count_stat count_stat
                count_stat_n season_volume "vPOS" "median" "median" false)
    as [[_ Hphen] _].
  pose proof (bare_stat_is_wrapped 0 true keep_series keep_series
                count_stat_n three_columns three_columns three_columns
                count_stat count_stat count_stat count_stat count_stat
                count_stat_n season_volume "num_peaks" "median" "median" false)
    as [_ [_ Htemp]].
  destruct Hfull as [full Hfull].
  destruct (Hphen full Hfull eq_refl) as (ds & v & Hds & Hkeys & Hget & Hsame).
  split.
  { exists full, ds, v. split; [exact Hfull|]. split; [reflexivity|].
    split; [exact Hds|]. split; [exact Hkeys|]. split; [exact Hget|exact Hsame]. }
  split; [split; [exact Hcall|exact Hshape]|].
  exact (Htemp [[xq 8 1]] Hcall Hshape).
Defined.

(** ** allNaN_arg on slices with and without missing values *)

Section ArgExtremum.
Context {F : Type} `{FloatLaws F}.

Lemma fillna_no_nan (v : F) (s : list F) :
  no_nan s = true -> map (fillna v) s = s.
Proof.
  induction s as [|a s IH]; simpl; [done|].
  intros Hs. apply andb_true_iff in Hs as [Ha Hs]. unfold fillna at 1.
  apply negb_true_iff in Ha. rewrite Ha. by rewrite IH.
Qed.

Lemma not_fle_flt (a m : F) :
  is_nan a = false -> is_nan m = false -> negb (fle a m) = flt m a.
Proof.
  intros Ha Hm. unfold fle. rewrite (feq_spec a m Ha Hm).
  destruct (flt a m) eqn:Ham; simpl.
  - symmetry. destruct (flt m a) eqn:Hma; [|done].
    pose proof (flt_trans _ _ _ Ham Hma) as Hc. by rewrite flt_irrefl in Hc.
  - by rewrite negb_involutive.
Qed.

(** Without NaNs the NaN-skipping scan is the loop of [np.argmax]. *)
Lemma nanarg_loop_argmax (l : list F) :
  forall (m : F) (mi i : nat),
  is_nan m = false -> no_nan l = true ->
  exists v, nanarg_loop flt (Some (m, mi)) i l
            = Some (v, argmax_loop m mi i l).
Proof.
  induction l as [|a l IH]; intros m mi i Hm Hl; simpl; [eauto|].
  simpl in Hl. apply andb_true_iff in Hl as [Ha Hl].
  apply negb_true_iff in Ha. rewrite Ha, Hm, (not_fle_flt a m Ha Hm).
  destruct (flt m a); by apply IH.
Qed.

Lemma nanarg_loop_argmin (l : list F) :
  forall (m : F) (mi i : nat),
  is_nan m = false -> no_nan l = true ->
  exists v, nanarg_loop fgt (Some (m, mi)) i l
            = Some (v, argmin_loop m mi i l).
Proof.
  induction l as [|a l IH]; intros m mi i Hm Hl; simpl; [eauto|].
  simpl in Hl. apply andb_true_iff in Hl as [Ha Hl].
  apply negb_true_iff in Ha. rewrite Ha, Hm, (not_fle_flt m a Hm Ha).
  change (fgt m a) with (flt a m). destruct (flt a m); by apply IH.
Qed.

Lemma nanargmax_no_nan (s : list F) :
  no_nan s = true -> nanargmax s = argmax s.
Proof.
  destruct s as [|a s]; [done|]. simpl. intros Hs.
  apply andb_true_iff in Hs as [Ha Hs]. apply negb_true_iff in Ha.
  unfold nanargmax, nanarg. simpl. rewrite Ha.
  by destruct (nanarg_loop_argmax s a 0 1 Ha Hs) as [v ->].
Qed.

Lemma nanargmin_no_nan (s : list F) :
  no_nan s = true -> nanargmin s = argmin s.
Proof.
  destruct s as [|a s]; [done|]. simpl. intros Hs.
  apply andb_true_iff in Hs as [Ha Hs]. apply negb_true_iff in Ha.
  unfold nanargmin, nanarg. simpl. rewrite Ha.
  by destruct (nanarg_loop_argmin s a 0 1 Ha Hs) as [v ->].
Qed.

Lemma no_nan_not_all_nan (s : list F) :
  s <> [] -> no_nan s = true -> forallb is_nan s = false.
Proof.
  destruct s as [|a s]; [done|]. simpl. intros _ Hs.
  apply andb_true_iff in Hs as [Ha _]. apply negb_true_iff in Ha.
  by rewrite Ha.
Qed.

(** What [allNaN_arg] does when it returns: the result of every slice. *)
Lemma allNaN_arg_slice (da : grid (list F)) (dim stat : string)
    (g : grid (option nat)) (sl : grid (list F)) (i j : nat) (s : list F) :
  allNaN_arg da dim stat = Ok (Some g) ->
  slices_along dim da = Ok sl -> pixel sl i j = Some s ->
  exists (fill : F) (k : nat),
    ((stat = "max" /\ nanargmax (map (fillna fill) s) = Ok k)
     \/ (stat = "min" /\ nanargmin (map (fillna fill) s) = Ok k))
    /\ pixel g i j = Some (where_not k (forallb is_nan s)).
Proof.
  unfold allNaN_arg. intros Hg Hsl Hs. rewrite Hsl in Hg. simpl in Hg.
  assert (Hmask : pixel (grid_map (forallb is_nan) sl) i j
                  = Some (forallb is_nan s))
    by (by rewrite pixel_grid_map, Hs).
  destruct (String.eqb stat "max") eqn:Hmax;
    [|destruct (String.eqb stat "min") eqn:Hmin; [|done]].
  - apply String.eqb_eq in Hmax. exc_inv Hg. rename a into m.
    exc_inv Hg. rename a into idx. injection Hg as <-.
    assert (Hy : pixel (grid_map (map (fillna (fsub m (of_Z 1)))) sl) i j
                 = Some (map (fillna (fsub m (of_Z 1))) s))
      by (by rewrite pixel_grid_map, Hs).
    destruct (grid_exc_map_pixel _ _ _ _ _ _ Ha0 Hy) as (k & Hk & Hidx).
    exists (fsub m (of_Z 1)), k. split; [by left|].
    by apply pixel_grid_zip.
  - apply String.eqb_eq in Hmin. exc_inv Hg. rename a into m.
    exc_inv Hg. rename a into idx. injection Hg as <-.
    assert (Hy : pixel (grid_map (map (fillna (fadd m (of_Z 1)))) sl) i j
                 = Some (map (fillna (fadd m (of_Z 1))) s))
      by (by rewrite pixel_grid_map, Hs).
    destruct (grid_exc_map_pixel _ _ _ _ _ _ Ha0 Hy) as (k & Hk & Hidx).
    exists (fadd m (of_Z 1)), k. split; [by right|].
    by apply pixel_grid_zip.
Qed.

(** X1.  When [allNaN_arg] returns, a slice of nothing but missing values has a
    missing result. *)
Lemma allNaN_arg_masks_missing_slice (da : grid (list F)) (dim stat : string)
    (g : grid (option nat)) (sl : grid (list F)) (i j : nat) (s : list F) :
  allNaN_arg da dim stat = Ok (Some g) ->
  slices_along dim da = Ok sl -> pixel sl i j = Some s ->
  forallb is_nan s = true ->
  pixel g i j = Some None.
Proof.
  intros Hg Hsl Hs Hnan.
  destruct (allNaN_arg_slice _ _ _ _ _ _ _ _ Hg Hsl Hs) as (fill & k & _ & Hp).
  by rewrite Hp, Hnan.
Qed.

(** X2.  When [allNaN_arg] returns, a slice without missing values has the
    index of the ordinary [argmax] or [argmin]. *)
Lemma allNaN_arg_agrees_without_nan (da : grid (list F)) (dim stat : string)
    (g : grid (option nat)) (sl : grid (list F)) (i j : nat) (s : list F) :
  allNaN_arg da dim stat = Ok (Some g) ->
  slices_along dim da = Ok sl -> pixel sl i j = Some s ->
  no_nan s = true ->
  exists k, pixel g i j = Some (Some k)
            /\ ((stat = "max" /\ argmax s = Ok k)
                \/ (stat = "min" /\ argmin s = Ok k)).
Proof.
  intros Hg Hsl Hs Hno.
  destruct (allNaN_arg_slice _ _ _ _ _ _ _ _ Hg Hsl Hs)
    as (fill & k & Hk & Hp).
  rewrite (fillna_no_nan _ _ Hno) in Hk.
  assert (Hne : s <> []).
  { intros ->. destruct Hk as [[_ Hk]|[_ Hk]]; discriminate. }
  rewrite (no_nan_not_all_nan _ Hne Hno) in Hp.
  exists k. split; [done|].
  destruct Hk as [[-> Hk]|[-> Hk]]; [left|right]; split; try done.
  - by rewrite <- nanargmax_no_nan.
  - by rewrite <- nanargmin_no_nan.
Qed.

End ArgExtremum.

Lemma exc_map_raise_inv {A B : Type} (f : A -> Exc B) (l : list A) (e : exn) :
  exc_map f l = Raise e -> exists a, a ∈ l /\ f a = Raise e.
Proof.
  induction l as [|x l IH]; simpl; [done|].
  destruct (f x) as [b|e'] eqn:Hx; simpl.
  - destruct (exc_map f l) as [bs|e'] eqn:Hl; simpl; [done|].
    intros [= ->]. destruct (IH eq_refl) as (a & Ha & Hfa).
    exists a. split; [by constructor|done].
  - intros [= ->]. exists x. split; [constructor|done].
Qed.

Section ArgExtremumOutcome.
Context {F : Type} `{FloatLaws F}.

Lemma forallb_is_nan_concat (g : list (list F)) (s : list F) :
  s ∈ g -> forallb is_nan (concat g) = true -> forallb is_nan s = true.
Proof.
  intros Hs Hall. rewrite forallb_forall in *. intros a Ha.
  apply Hall. apply in_concat. exists s. split; [by apply list_elem_of_In|done].
Qed.

Lemma fillna_nan_all_nan (v : F) (s : list F) :
  is_nan v = true -> forallb is_nan s = true ->
  forallb is_nan (map (fillna v) s) = true.
Proof.
  intros Hv. induction s as [|a s IH]; simpl; [done|].
  intros Hs. apply andb_true_iff in Hs as [Ha Hs].
  unfold fillna at 1. rewrite Ha, Hv. simpl. auto.
Qed.

Lemma fillna_observed (v : F) (s : list F) :
  is_nan v = false -> s <> [] ->
  forallb is_nan (map (fillna v) s) = false.
Proof.
  intros Hv. destruct s as [|a s]; [done|]. intros _. simpl.
  unfold fillna at 1. destruct (is_nan a) eqn:Ha; by rewrite ?Hv, ?Ha.
Qed.

Lemma nanarg_all_nan (better : F -> F -> bool) (s : list F) :
  forallb is_nan s = true -> nanarg better s = Raise ValueError.
Proof.
  intros Hs. unfold nanarg.
  by rewrite (proj2 (nanarg_loop_none better s 0) Hs).
Qed.

(** The value that replaces the NaNs is itself a NaN exactly when the
    array holds no observation at all. *)
Lemma global_extremum_nan (better : F -> F -> bool) (a : F) (l : list F) :
  is_nan (fold_left (pick better) l a) = forallb is_nan (a :: l).
Proof.
  pose proof (fold_pick_follows better l a
                (if is_nan a then None else Some (a, 0)) 1) as Hf.
  assert (Hinit : follows a (if is_nan a then None else Some (a, 0))).
  { destruct (is_nan a) eqn:Ha; simpl; auto. }
  specialize (Hf Hinit).
  change (nanarg_loop better (if is_nan a then None else Some (a, 0)) 1 l)
    with (nanarg_loop better None 0 (a :: l)) in Hf.
  pose proof (nanarg_loop_none better (a :: l) 0) as Hnone.
  destruct (nanarg_loop better None 0 (a :: l)) as [[v k]|].
  - destruct Hf as [-> Hv]. rewrite Hv. symmetry.
    destruct (forallb is_nan (a :: l)); [|done].
    by destruct Hnone as [_ Hnone]; specialize (Hnone eq_refl).
  - simpl in Hf. rewrite Hf. symmetry. by apply Hnone.
Qed.

(** X3.  [allNaN_arg] returns as soon as the array holds one observation (and
    the reduced dimension is not of length zero). *)
Lemma allNaN_arg_returns (da : grid (list F)) (dim stat : string)
    (sl : grid (list F)) :
  slices_along dim da = Ok sl -> stat = "max" \/ stat = "min" ->
  forallb is_nan (concat (concat da)) = false ->
  (forall i j s, pixel sl i j = Some s -> s <> []) ->
  exists g, allNaN_arg da dim stat = Ok (Some g).
Proof.
  intros Hsl Hstat Hobs Hlen. unfold allNaN_arg. rewrite Hsl. simpl.
  destruct (concat (concat da)) as [|a l] eqn:Hall; [done|].
  assert (Hfilled : forall v, is_nan v = false ->
            forall i j y, pixel (grid_map (map (fillna v)) sl) i j = Some y ->
                          forallb is_nan y = false).
  { intros v Hv i j y Hy. rewrite pixel_grid_map in Hy.
    destruct (pixel sl i j) as [s|] eqn:Hs; [|done].
    injection Hy as <-. apply fillna_observed; eauto. }
  destruct Hstat as [-> | ->]; simpl.
  - destruct (grid_exc_map_total nanargmax
                (grid_map (map (fillna (fsub (fold_left fmin l a) (of_Z 1)))) sl))
      as [idx ->]; [|simpl; eauto].
    intros i j y Hy. apply (nanarg_ok_iff flt).
    eapply Hfilled; [|exact Hy].
    unfold fmin. by rewrite fsub_one_nan, (global_extremum_nan fgt).
  - destruct (grid_exc_map_total nanargmin
                (grid_map (map (fillna (fadd (fold_left fmax l a) (of_Z 1)))) sl))
      as [idx ->]; [|simpl; eauto].
    intros i j y Hy. apply (nanarg_ok_iff fgt).
    eapply Hfilled; [|exact Hy].
    unfold fmax. by rewrite fadd_one_nan, (global_extremum_nan flt).
Qed.

(** X4.  [allNaN_arg] over time raises [ValueError] when the array holds no
    observation at all: the fill value is a NaN, nothing is filled, and the
    NaN-skipping [argmax] meets a slice of nothing but NaNs. *)
Lemma allNaN_arg_raises_without_observation (da : grid (list F))
    (stat : string) (i j : nat) (s : list F) :
  pixel da i j = Some s -> stat = "max" \/ stat = "min" ->
  forallb is_nan (concat (concat da)) = true ->
  allNaN_arg da "time" stat = Raise ValueError.
Proof.
  intros Hs Hstat Hall. unfold allNaN_arg. simpl.
  assert (Hslices : forall v, is_nan v = true ->
            forall better,
            grid_exc_map (nanarg better) (grid_map (map (fillna v)) da)
            = Raise ValueError).
  { intros v Hv better.
    destruct (pixel_elem _ _ _ _ Hs) as (row & Hrow & Hsrow).
    assert (Hrows : forall r, r ∈ grid_map (map (fillna v)) da ->
              forall y, y ∈ r -> nanarg better y = Raise ValueError).
    { intros r Hr y Hy. unfold grid_map in Hr.
      apply list_elem_of_In, in_map_iff in Hr as (r0 & <- & Hr0).
      apply list_elem_of_In, in_map_iff in Hy as (s0 & <- & Hs0).
      apply nanarg_all_nan, fillna_nan_all_nan; [done|].
      apply (forallb_is_nan_concat (concat da)); [|done].
      apply list_elem_of_In, in_concat. by exists r0. }
    assert (Hin : map (map (fillna v)) row ∈ grid_map (map (fillna v)) da).
    { unfold grid_map. apply list_elem_of_In, in_map. by apply list_elem_of_In. }
    assert (Hy : map (fillna v) s ∈ map (map (fillna v)) row).
    { apply list_elem_of_In, in_map. by apply list_elem_of_In. }
    destruct (exc_map_raise (nanarg better) _ _ ValueError Hy
                (Hrows _ Hin _ Hy)) as [e He].
    destruct (exc_map_raise (exc_map (nanarg better)) _ _ e Hin He) as [e' He'].
    unfold grid_exc_map. rewrite He'. f_equal.
    apply exc_map_raise_inv in He' as (r & Hr & Hre).
    apply exc_map_raise_inv in Hre as (y & Hyr & Hye).
    rewrite (Hrows _ Hr _ Hyr) in Hye. congruence. }
  destruct (concat (concat da)) as [|a l] eqn:Hcat.
  { by destruct Hstat as [-> | ->]. }
  destruct Hstat as [-> | ->]; simpl.
  - unfold nanargmax. rewrite Hslices; [done|].
    apply fsub_nan_l. unfold fmin. by rewrite (global_extremum_nan fgt).
  - unfold nanargmin. rewrite Hslices; [done|].
    unfold fmax. by rewrite fadd_one_nan, (global_extremum_nan flt).
Qed.

End ArgExtremumOutcome.

(** ** Series without a greening or senescing side *)

(** C5 (failing input).  On a slice of nothing but missing values
    [allNaN_arg] is meant to return a missing result and no error.  When the
    whole array is missing, as for the single slice [NaN, NaN], the fill
    value [da.min() - 1] is itself a NaN and the call raises [ValueError]
    for 'max' and for 'min'. *)
Theorem allNaN_arg_all_missing_input :
  allNaN_arg [[[XNaN; XNaN]]] "time" "max" = Raise ValueError
  /\ allNaN_arg [[[XNaN; XNaN]]] "time" "min" = Raise ValueError.
Proof. split; vm_compute; reflexivity. Qed.

(** The mask of positive (or negative) slopes is true everywhere: a slope
    that fails the test became a NaN, and a NaN used as a condition is
    true.  [where_float] with this mask keeps every value. *)
Lemma slope_mask_is_true {F : Type} `{FloatLaws F} (d : F) :
  truthy (if flt (of_Z 0) d then d else nan) = true
  /\ truthy (if flt d (of_Z 0) then d else nan) = true.
Proof.
  assert (Hnan : truthy nan = true).
  { unfold truthy. destruct (feq nan (of_Z 0)) eqn:Heq; [|done].
    apply feq_not_nan in Heq as [Hn _]. by rewrite is_nan_nan in Hn. }
  unfold truthy in *. split.
  - destruct (flt (of_Z 0) d) eqn:Hd; [|done].
    apply flt_not_nan in Hd as Hn. destruct Hn as [Hz Hdn].
    by rewrite (feq_spec _ _ Hdn Hz), Hd, andb_false_r.
  - destruct (flt d (of_Z 0)) eqn:Hd; [|done].
    apply flt_not_nan in Hd as Hn. destruct Hn as [Hdn Hz].
    by rewrite (feq_spec _ _ Hdn Hz), Hd.
Qed.

(** C1 (failing input).  A series that only rises has no senescing side.
    Alone in the array it makes [xr_phenology] raise [ValueError]; beside a
    pixel with a complete season its vEOS and ROS are NaN, but the index that
    [allNaN_arg] masked is cast to [int16], so its EOS is the day of the
    first time-step (day 10) and its LOS the number 30. *)
Theorem rising_series_outcome :
  snd (xr_phenology_x 0 true rising_volume (StatsList default_stats)
         "median" "median" false) = Raise ValueError
  /\ snd (xr_phenology_x 0 true rising_beside_season
            (StatsList ["vEOS"; "EOS"; "LOS"; "ROS"])
            "median" "median" false)
     = Ok (mkDataset [xq 0 1; xq 1 1] [xq 0 1]
             [("vEOS", mkDataVar [] (Float32Grid [[XNaN; xq 2 1]]));
              ("EOS", mkDataVar [] (Int16Grid [[10%Z; 30%Z]]));
              ("LOS", mkDataVar [] (Int16Grid [[30%Z; 20%Z]]));
              ("ROS", mkDataVar [] (Float32Grid [[XNaN; xq (-1) 10]]))]).
Proof. split; vm_compute; reflexivity. Qed.

(** A greening side without a single positive slope still has a start of
    season: the mask of positive slopes keeps every value
    ([slope_mask_is_true]), and the start is picked among all the values
    before the peak. *)
Example falling_greenup_still_has_start :
  snd (xr_phenology_x 0 true dip_before_peak (StatsList ["vSOS"; "SOS"])
         "median" "median" false)
  = Ok (mkDataset [xq 0 1; xq 1 1] [xq 0 1]
          [("vSOS", mkDataVar [] (Float32Grid [[xq 1 1; xq 1 1]]));
           ("SOS", mkDataVar [] (Int16Grid [[20%Z; 10%Z]]))]).
Proof. vm_compute; reflexivity. Qed.

(** ** The peak statistics in [stats_dict] *)

(** The entries vPOS, Trough, AOS and POS of [stats_dict] are the casts of
    what [_vpos], [_trough], [_aos] and [_pos] return on the working copy. *)
Lemma phenology_stats_layers {F : Type} `{FloatOps F}
    (nan_int16 : Z) (astype_keeps_attrs : bool) (da : Volume F)
    (method_sos method_eos : string) (d : list (string * StatArray F)) :
  phenology_stats nan_int16 astype_keeps_attrs da method_sos method_eos = Ok d ->
  exists (vpos trough : Layer F F) (pos : Layer F Z),
    _vpos da = Ok vpos /\ _trough da = Ok trough /\ _pos da = Ok pos
    /\ dict_get "vPOS" d = Some (astype_float32 astype_keeps_attrs vpos)
    /\ dict_get "Trough" d = Some (astype_float32 astype_keeps_attrs trough)
    /\ dict_get "AOS" d
       = Some (astype_float32 astype_keeps_attrs (_aos vpos trough))
    /\ dict_get "POS" d = Some (astype_int16 astype_keeps_attrs pos).
Proof.
  unfold phenology_stats. intros Hd.
  exc_inv Hd. rename a into vpos, Ha into Hvpos.
  exc_inv Hd. rename a into pos, Ha into Hpos.
  exc_inv Hd. rename a into trough, Ha into Htrough.
  do 5 (exc_inv Hd; clear Ha). exc_inv Hd. subst d.
  exists vpos, trough, pos. by split_and!.
Qed.

(** ** The amplitude in the output *)

Section Amplitude.
Context {F : Type} `{FloatLaws F}.
Variable nan_int16 : Z.
Variable astype_keeps_attrs : bool.
Variable fast_completion smooth : grid (list F) -> grid (list F).

(** A run that returns a dataset computed [stats_dict] on the working
    array and assembled the dataset from it. *)
Lemma xr_phenology_run (da : Volume F) (stats : stats_arg)
    (method_sos method_eos : string) (complete_smooth : bool)
    (out : list string) (ds : Dataset F) :
  xr_phenology nan_int16 astype_keeps_attrs fast_completion smooth
    da stats method_sos method_eos complete_smooth = (out, Ok ds) ->
  exists d,
    phenology_stats nan_int16 astype_keeps_attrs
      (working_array fast_completion smooth da complete_smooth)
      method_sos method_eos = Ok d
    /\ build_dataset d (stats_as_list stats) = Ok ds.
Proof.
  unfold xr_phenology, working_array. intros Hrun.
  destruct (v_dask da); [done|].
  destruct (negb (existsb (String.eqb method_sos) _)); [done|].
  destruct (negb (existsb (String.eqb method_eos) _)); [done|].
  destruct complete_smooth.
  - unfold complete_and_smooth in Hrun.
    destruct (shape_ok3 _ _ _ _); [|done].
    injection Hrun as _ Hrun. exc_inv Hrun. eauto.
  - injection Hrun as _ Hrun. exc_inv Hrun. eauto.
Qed.

(** C6 (amended).  In the dataset that [xr_phenology] returns, the
    amplitude of a pixel is the [float32] cast of the difference, taken
    before any cast, of the maximum and the minimum over time of the
    pixel's series in the working array; the peak value and the trough of
    the dataset are the [float32] casts of that maximum and that
    minimum. *)
Theorem amplitude_is_rounded_difference (da : Volume F) (stats : stats_arg)
    (method_sos method_eos : string) (complete_smooth : bool)
    (out : list string) (ds : Dataset F) (i j : nat) (s : list F) :
  xr_phenology nan_int16 astype_keeps_attrs fast_completion smooth
    da stats method_sos method_eos complete_smooth = (out, Ok ds) ->
  pixel (v_values (working_array fast_completion smooth da complete_smooth))
        i j = Some s ->
  exists hi lo : F,
    reduces_to flt s hi /\ reduces_to fgt s lo
    /\ (In "vPOS" (stats_as_list stats) ->
        float32_pixel ds "vPOS" i j = Some (to_f32 hi))
    /\ (In "Trough" (stats_as_list stats) ->
        float32_pixel ds "Trough" i j = Some (to_f32 lo))
    /\ (In "AOS" (stats_as_list stats) ->
        float32_pixel ds "AOS" i j = Some (to_f32 (fsub hi lo))).
Proof.
  intros Hrun Hs.
  destruct (xr_phenology_run _ _ _ _ _ _ _ Hrun) as (d & Hd & Hbuild).
  destruct (phenology_stats_layers _ _ _ _ _ _ Hd)
    as (vpos & trough & pos & Hvpos & Htrough & _ & Hgv & Hgt & Hga & _).
  destruct (vpos_pixel _ _ _ _ _ Hvpos Hs) as (hi & Hmax & Hhi).
  destruct (trough_pixel _ _ _ _ _ Htrough Hs) as (lo & Hmin & Hlo).
  exists hi, lo.
  split; [by apply nanmax_spec|]. split; [by apply nanmin_spec|].
  destruct (stats_as_list stats) as [|s0 rest]; [done|].
  pose proof (build_dataset_spec d s0 rest) as Hspec.
  rewrite Hbuild in Hspec. destruct Hspec as (_ & _ & _ & Hget).
  assert (Hreq : forall k, In k (s0 :: rest) ->
                   ds_get k ds = sa_var <$> dict_get k d).
  { intros k Hk. rewrite Hget.
    replace (existsb (String.eqb k) (s0 :: rest)) with true; [done|].
    symmetry. apply existsb_exists. exists k. split; [done|].
    apply String.eqb_refl. }
  unfold float32_pixel. split_and!; intros Hin; rewrite (Hreq _ Hin).
  - rewrite Hgv. simpl. by rewrite pixel_grid_map, Hhi.
  - rewrite Hgt. simpl. by rewrite pixel_grid_map, Hlo.
  - rewrite Hga. simpl. rewrite pixel_grid_map.
    by rewrite (pixel_grid_zip _ _ _ _ _ _ _ Hhi Hlo).
Qed.

End Amplitude.

Lemma amplitude_is_rounded_difference_witness :
  (xr_phenology_b64 0 true season_volume_b64
     (StatsList ["vPOS"; "Trough"; "AOS"]) "median" "median" false
   = (["      Phenology..."], Ok season_amplitude_output_b64)
   /\ pixel (v_values (working_array (fun a => a) (fun a => a)
                         season_volume_b64 false)) 0 0
      = Some season_series_b64)
  /\ exists hi lo : SpecFloat.spec_float,
       reduces_to flt season_series_b64 hi
       /\ reduces_to fgt season_series_b64 lo
       /\ (In "vPOS" (stats_as_list (StatsList ["vPOS"; "Trough"; "AOS"])) ->
           float32_pixel season_amplitude_output_b64 "vPOS" 0 0
           = Some (to_f32 hi))
       /\ (In "Trough" (stats_as_list (StatsList ["vPOS"; "Trough"; "AOS"])) ->
           float32_pixel season_amplitude_output_b64 "Trough" 0 0
           = Some (to_f32 lo))
       /\ (In "AOS" (stats_as_list (StatsList ["vPOS"; "Trough"; "AOS"])) ->
           float32_pixel season_amplitude_output_b64 "AOS" 0 0
           = Some (to_f32 (fsub hi lo))).
Proof.
  assert (Hrun : xr_phenology 0 true (fun a => a) (fun a => a)
                   season_volume_b64 (StatsList ["vPOS"; "Trough"; "AOS"])
                   "median" "median" false
                 = (["      Phenology..."], Ok season_amplitude_output_b64))
    by (vm_compute; reflexivity).
  assert (Hs : pixel (v_values (working_array (fun a => a) (fun a => a)
                                  season_volume_b64 false)) 0 0
               = Some season_series_b64) by (vm_compute; reflexivity).
  pose proof (amplitude_is_rounded_difference 0 true (fun a => a)
                (fun a => a) season_volume_b64
                (StatsList ["vPOS"; "Trough"; "AOS"])
                "median" "median" false ["      Phenology..."]
                season_amplitude_output_b64 0 0 season_series_b64 Hrun Hs)
    as Hthm.
  split; [|exact Hthm]. split; [exact Hrun|exact Hs].
Defined.

(** With the rounding of the floats the amplitude of the dataset is not
    the difference of its peak value and its trough.  For the season of
    2020 (maximum 0.95, minimum 0.1) the dataset holds the [float32]
    values of 0.95, 0.1 and 0.85, and the difference of the first two is,
    in [float32], the value below that of 0.85; in [float64] it is not
    that of 0.85 either. *)
Lemma amplitude_differs_after_cast :
  xr_phenology_b64 0 true season_volume_b64
    (StatsList ["vPOS"; "Trough"; "AOS"]) "median" "median" false
  = (["      Phenology..."], Ok season_amplitude_output_b64)
  /\ float32_pixel season_amplitude_output_b64 "vPOS" 0 0 = Some f32_0_95
  /\ float32_pixel season_amplitude_output_b64 "Trough" 0 0 = Some f32_0_1
  /\ float32_pixel season_amplitude_output_b64 "AOS" 0 0 = Some f32_0_85
  /\ to_f32 (fsub f32_0_95 f32_0_1) = f32_below_0_85
  /\ feq f32_0_85 (to_f32 (fsub f32_0_95 f32_0_1)) = false
  /\ feq f32_0_85 (fsub f32_0_95 f32_0_1) = false.
Proof. split_and!; vm_compute; reflexivity. Qed.

(** ** Rates at a missing value *)

(** X13.  A rate whose numerator involves a missing value is missing, in the
    statistic and in its [float32] layer: this is how a missing vSOS or vEOS
    reaches ROG or ROS. *)
Lemma rate_of_missing_value {F : Type} `{FloatLaws F}
    (a b : Layer F F) (p q : Layer F Z) (i j : nat) (va vb : F) (zp zq : Z) :
  pixel (l_values a) i j = Some va -> pixel (l_values b) i j = Some vb ->
  pixel (l_values p) i j = Some zp -> pixel (l_values q) i j = Some zq ->
  is_nan va = true \/ is_nan vb = true ->
  exists r, pixel (l_values (rate a b p q)) i j = Some r
            /\ is_nan r = true /\ is_nan (to_f32 r) = true.
Proof.
  intros Ha Hb Hp Hq Hnan. unfold rate. simpl.
  exists (fdiv (fsub va vb) (of_Z (zp - zq))).
  assert (Hr : is_nan (fdiv (fsub va vb) (of_Z (zp - zq))) = true).
  { apply fdiv_nan_l. destruct Hnan; [by apply fsub_nan_l|by apply fsub_nan_r]. }
  split_and!; [|done|by rewrite to_f32_nan].
  apply pixel_grid_zip; [by apply pixel_grid_zip|].
  rewrite pixel_grid_map. by rewrite (pixel_grid_zip _ _ _ _ _ _ _ Hp Hq).
Qed.

(** ** When the peak statistics return *)

Section PeakReturns.
Context {F : Type} `{FloatLaws F}.

Lemma py_index_in_range {A : Type} (l : list A) (k : nat) (a : A) :
  l !! k = Some a -> py_index l (Z.of_nat k) = Ok a.
Proof.
  intros Hk. unfold py_index.
  assert (Hneg : (Z.of_nat k <? 0)%Z = false) by (apply Z.ltb_ge; lia).
  apply lookup_lt_Some in Hk as Hlt. rewrite Hneg.
  assert (Hin : ((0 <=? Z.of_nat k) && (Z.of_nat k <? Z.of_nat (length l)))%Z
                = true).
  { apply andb_true_iff. split; [apply Z.leb_le|apply Z.ltb_lt]; lia. }
  by rewrite Hin, Nat2Z.id, Hk.
Qed.

(** X22.  After the zero-fill of [xr_phenology] every series that is not empty
    holds a value that is not NaN. *)
Lemma fill_all_nan_observed (da : Volume F) (i j : nat) (s : list F) :
  pixel (v_values (fill_all_nan da)) i j = Some s -> s <> [] ->
  forallb is_nan s = false.
Proof.
  unfold fill_all_nan. simpl. rewrite pixel_grid_map.
  destruct (pixel (v_values da) i j) as [s0|]; [|done]. simpl.
  intros [= <-] Hne. destruct (forallb is_nan s0) eqn:Hs0; [|done].
  destruct s0 as [|a s0]; [done|]. simpl. by rewrite is_nan_of_Z.
Qed.

(** X12.  [_vpos] and [_pos] return on every array whose series each hold an
    observation and are no longer than the time coordinate. *)
Lemma peak_statistics_return (da : Volume F) :
  (forall i j s, pixel (v_values da) i j = Some s ->
                 forallb is_nan s = false /\ length s <= length (v_time da)) ->
  exists (vpos : Layer F F) (pos : Layer F Z),
    _vpos da = Ok vpos /\ _pos da = Ok pos.
Proof.
  intros Hwf.
  assert (Hne : forall i j s, pixel (v_values da) i j = Some s -> s <> []).
  { intros i j s Hs ->. by destruct (Hwf _ _ _ Hs) as [Hobs _]. }
  unfold _vpos, _pos, reduce_time.
  destruct (grid_exc_map_total nanmax (v_values da)) as [g ->].
  { intros i j [|a s] Hs; [by destruct (Hne _ _ _ Hs)|]. simpl. eauto. }
  destruct (grid_exc_map_total nanargmax (v_values da)) as [idx Hidx].
  { intros i j s Hs. apply (nanarg_ok_iff flt). by apply (Hwf i j). }
  rewrite Hidx. simpl. unfold isel_time.
  assert (Hsel : forall i j s z,
            pixel (v_values da) i j = Some s ->
            pixel (grid_map Z.of_nat idx) i j = Some z ->
            exists k v, z = Z.of_nat k /\ s !! k = Some v).
  { intros i j s z Hs Hz. rewrite pixel_grid_map in Hz.
    destruct (grid_exc_map_pixel _ _ _ _ _ _ Hidx Hs) as (k & Hk & Hik).
    rewrite Hik in Hz. injection Hz as <-.
    destruct (nanargmax_first _ _ Hk) as (v & Hv & _). eauto. }
  destruct (grid_exc_map_total (fun '(s, k) => py_index s k)
              (grid_zip pair (v_values da) (grid_map Z.of_nat idx)))
    as [vals ->].
  { intros i j [s z] Hp.
    apply pixel_grid_zip_inv in Hp as (s' & z' & Hs & Hz & [= -> ->]).
    destruct (Hsel _ _ _ _ Hs Hz) as (k & v & -> & Hv).
    exists v. by apply py_index_in_range. }
  destruct (grid_exc_map_total (py_index (v_time da)) (grid_map Z.of_nat idx))
    as [ts ->].
  { intros i j z Hz. rewrite pixel_grid_map in Hz.
    destruct (pixel idx i j) as [k|] eqn:Hk; [|done]. injection Hz as <-.
    assert (Hs : exists s, pixel (v_values da) i j = Some s
                           /\ nanargmax s = Ok k).
    { unfold grid_exc_map, pixel in *.
      destruct (idx !! i) as [row'|] eqn:Hrow'; [|done].
      apply exc_map_length in Hidx as Hlen.
      destruct (v_values da !! i) as [row|] eqn:Hrow.
      - destruct (exc_map_lookup _ _ _ _ _ Hidx Hrow) as (r & Hr & Hri).
        assert (r = row') as -> by congruence.
        apply exc_map_length in Hr as Hlen'.
        destruct (row !! j) as [s|] eqn:Hsj.
        + destruct (exc_map_lookup _ _ _ _ _ Hr Hsj) as (k' & Hk' & Hkj).
          exists s. split; [done|congruence].
        + apply lookup_ge_None in Hsj. apply lookup_lt_Some in Hk. lia.
      - apply lookup_ge_None in Hrow. apply lookup_lt_Some in Hrow'. lia. }
    destruct Hs as (s & Hs & Hks).
    destruct (nanargmax_first _ _ Hks) as (v & Hv & _).
    destruct (Hwf _ _ _ Hs) as [_ Hlen].
    apply lookup_lt_Some in Hv.
    destruct (lookup_lt_is_Some_2 (v_time da) k) as [t Ht]; [lia|].
    exists t. by apply py_index_in_range. }
  simpl. eauto.
Qed.

End PeakReturns.

(** * Further properties of the module *)

(** ** allNaN_arg on slices with some missing values *)

Lemma grid_exc_map_pixel_inv {A B : Type} (f : A -> Exc B) (g : grid A)
    (g' : grid B) (i j : nat) (b : B) :
  grid_exc_map f g = Ok g' -> pixel g' i j = Some b ->
  exists a, pixel g i j = Some a /\ f a = Ok b.
Proof.
  unfold grid_exc_map, pixel. intros Hm Hp.
  destruct (g' !! i) as [row'|] eqn:Hrow'; [|done].
  apply exc_map_length in Hm as Hlen.
  destruct (g !! i) as [row|] eqn:Hrow.
  - destruct (exc_map_lookup _ _ _ _ _ Hm Hrow) as (r & Hr & Hri).
    assert (r = row') as -> by congruence.
    apply exc_map_length in Hr as Hlen'.
    destruct (row !! j) as [a|] eqn:Ha.
    + destruct (exc_map_lookup _ _ _ _ _ Hr Ha) as (b' & Hb' & Hbj).
      exists a. split; [done|congruence].
    + apply lookup_ge_None in Ha. apply lookup_lt_Some in Hp. lia.
  - apply lookup_ge_None in Hrow. apply lookup_lt_Some in Hrow'. lia.
Qed.

Section FilledScan.
Context {F : Type} `{FloatLaws F}.
Variable better : F -> F -> bool.
Hypothesis better_irrefl : forall a, better a a = false.
Hypothesis better_trans :
  forall a b c, better a b = true -> better b c = true -> better a c = true.

Lemma nanarg_loop_fillna (fill : F) (l : list F) :
  is_nan fill = false ->
  (forall a, a ∈ l -> is_nan a = false -> better fill a = true) ->
  forall bf bu i, fill_follows better fill bf bu ->
    fill_follows better fill (nanarg_loop better bf i (map (fillna fill) l))
                      (nanarg_loop better bu i l).
Proof.
  intros Hfill. induction l as [|a l IH]; intros Hbeat bf bu i Hf; simpl; [done|].
  apply IH; [intros b Hb; apply Hbeat; by constructor|].
  unfold fillna. destruct (is_nan a) eqn:Ha; rewrite ?Hfill, ?Ha.
  - destruct Hf as [[-> [-> | [k ->]]]|(v & k & -> & -> & Hv)].
    + left. eauto.
    + rewrite better_irrefl. left. eauto.
    + assert (Hvf : better v fill = false).
      { destruct (better v fill) eqn:Hvf; [|done].
        pose proof (better_trans _ _ _ Hv Hvf) as Hc.
        by rewrite better_irrefl in Hc. }
      rewrite Hvf. right. eauto.
  - assert (Hfa : better fill a = true) by (apply Hbeat; [constructor|done]).
    destruct Hf as [[-> [-> | [k ->]]]|(v & k & -> & -> & Hv)].
    + right. eauto.
    + rewrite Hfa. right. eauto.
    + destruct (better v a); right; eauto.
Qed.

(** Filling the NaNs with a value that every observation beats does not
    change the index of the extremum. *)
Lemma nanarg_fillna (fill : F) (s : list F) :
  is_nan fill = false ->
  (forall a, a ∈ s -> is_nan a = false -> better fill a = true) ->
  forallb is_nan s = false ->
  nanarg better (map (fillna fill) s) = nanarg better s.
Proof.
  intros Hfill Hbeat Hobs. unfold nanarg.
  assert (Hinit : fill_follows better fill None None) by (left; auto).
  pose proof (nanarg_loop_fillna fill s Hfill Hbeat None None 0 Hinit) as Hf.
  destruct Hf as [[Hu _]|(v & k & -> & -> & _)]; [|done].
  apply nanarg_loop_none in Hu. congruence.
Qed.

End FilledScan.

Section PartlyMissing.
Context {F : Type} `{FloatLaws F}.

Lemma observed_element (s : list F) :
  forallb is_nan s = false -> exists a, a ∈ s /\ is_nan a = false.
Proof.
  induction s as [|a s IH]; simpl; [done|].
  destruct (is_nan a) eqn:Ha; simpl.
  - intros Hs. destruct (IH Hs) as (b & Hb & Hnb). exists b.
    split; [by constructor|done].
  - intros _. exists a. split; [constructor|done].
Qed.

Lemma observed_in_array (da : grid (list F)) (i j : nat) (s : list F) :
  pixel da i j = Some s -> forallb is_nan s = false ->
  forallb is_nan (concat (concat da)) = false
  /\ forall a, a ∈ s -> a ∈ concat (concat da).
Proof.
  intros Hs Hobs.
  destruct (pixel_elem _ _ _ _ Hs) as (row & Hrow & Hsrow).
  assert (Hin : forall a, a ∈ s -> a ∈ concat (concat da)).
  { intros a Ha. apply list_elem_of_In, in_concat. exists s.
    split; [|by apply list_elem_of_In].
    apply in_concat. exists row. split; by apply list_elem_of_In. }
  split; [|done].
  destruct (observed_element s Hobs) as (a & Ha & Hna).
  destruct (forallb is_nan (concat (concat da))) eqn:Hall; [|done].
  rewrite forallb_forall in Hall.
  rewrite (Hall a) in Hna; [done|]. by apply list_elem_of_In, Hin.
Qed.

(** X5.  Over time, on a slice that holds observations beside its missing
    values, [allNaN_arg] returns the position of the first largest ('max')
    or first smallest ('min') observation, as the NaN-skipping argmax or
    argmin of the slice itself does, provided the fill value is strictly
    below the minimum of the array (strictly above its maximum). *)
Theorem allNaN_arg_skips_missing_values (da : grid (list F))
    (g : grid (option nat)) (i j : nat) (s : list F) :
  pixel da i j = Some s -> forallb is_nan s = false ->
  (allNaN_arg da "time" "max" = Ok (Some g) ->
   (forall m, nanmin (concat (concat da)) = Ok m ->
              flt (fsub m (of_Z 1)) m = true) ->
   exists k v, pixel g i j = Some (Some k) /\ nanargmax s = Ok k
               /\ s !! k = Some v /\ extremum_of flt s v)
  /\ (allNaN_arg da "time" "min" = Ok (Some g) ->
      (forall m, nanmax (concat (concat da)) = Ok m ->
                 flt m (fadd m (of_Z 1)) = true) ->
      exists k v, pixel g i j = Some (Some k) /\ nanargmin s = Ok k
                  /\ s !! k = Some v /\ extremum_of fgt s v).
Proof.
  intros Hs Hobs.
  destruct (observed_in_array _ _ _ _ Hs Hobs) as [Hall Hin].
  assert (Hmask : pixel (grid_map (forallb is_nan) da) i j = Some false)
    by (by rewrite pixel_grid_map, Hs; simpl; rewrite Hobs).
  split.
  - unfold allNaN_arg. simpl. intros Hg Hstrict.
    exc_inv Hg. rename a into m, Ha into Hm.
    exc_inv Hg. rename a into idx, Ha into Hidx. injection Hg as <-.
    specialize (Hstrict m Hm).
    apply flt_not_nan in Hstrict as Hn. destruct Hn as [Hfill Hmn].
    pose proof (nanmin_spec _ _ Hm) as Hmin. unfold reduces_to in Hmin.
    rewrite Hall in Hmin. destruct Hmin as (_ & _ & Hleast).
    assert (Hbeat : forall a, a ∈ s -> is_nan a = false ->
                              flt (fsub m (of_Z 1)) a = true).
    { intros a Ha Hna.
      destruct (flt_cotrans _ a _ Hstrict Hna) as [Hc|Hc]; [done|].
      specialize (Hleast a (Hin a Ha) Hna). unfold fgt in Hleast. congruence. }
    assert (Hy : pixel (grid_map (map (fillna (fsub m (of_Z 1)))) da) i j
                 = Some (map (fillna (fsub m (of_Z 1))) s))
      by (by rewrite pixel_grid_map, Hs).
    destruct (grid_exc_map_pixel _ _ _ _ _ _ Hidx Hy) as (k & Hk & Hik).
    unfold nanargmax in Hk.
    rewrite (nanarg_fillna flt flt_irrefl flt_trans _ _ Hfill Hbeat Hobs) in Hk.
    destruct (nanarg_first flt flt_irrefl flt_trans flt_cotrans _ _ Hk)
      as (v & Hv & Hext & _).
    exists k, v. split_and!; [|done|done|done].
    by rewrite (pixel_grid_zip _ _ _ _ _ _ _ Hik Hmask).
  - unfold allNaN_arg. simpl. intros Hg Hstrict.
    exc_inv Hg. rename a into m, Ha into Hm.
    exc_inv Hg. rename a into idx, Ha into Hidx. injection Hg as <-.
    specialize (Hstrict m Hm).
    apply flt_not_nan in Hstrict as Hn. destruct Hn as [Hmn Hfill].
    pose proof (nanmax_spec _ _ Hm) as Hmax. unfold reduces_to in Hmax.
    rewrite Hall in Hmax. destruct Hmax as (_ & _ & Hmost).
    assert (Hbeat : forall a, a ∈ s -> is_nan a = false ->
                              fgt (fadd m (of_Z 1)) a = true).
    { intros a Ha Hna. unfold fgt.
      destruct (flt_cotrans _ a _ Hstrict Hna) as [Hc|Hc]; [|done].
      specialize (Hmost a (Hin a Ha) Hna). congruence. }
    assert (Hy : pixel (grid_map (map (fillna (fadd m (of_Z 1)))) da) i j
                 = Some (map (fillna (fadd m (of_Z 1))) s))
      by (by rewrite pixel_grid_map, Hs).
    destruct (grid_exc_map_pixel _ _ _ _ _ _ Hidx Hy) as (k & Hk & Hik).
    unfold nanargmin in Hk.
    rewrite (nanarg_fillna fgt fgt_irrefl fgt_trans _ _ Hfill Hbeat Hobs) in Hk.
    destruct (nanarg_first fgt fgt_irrefl fgt_trans fgt_cotrans _ _ Hk)
      as (v & Hv & Hext & _).
    exists k, v. split_and!; [|done|done|done].
    by rewrite (pixel_grid_zip _ _ _ _ _ _ _ Hik Hmask).
Qed.

End PartlyMissing.

Lemma allNaN_arg_skips_missing_values_witness :
  (pixel gappy_array 0 0 = Some gappy_slice
   /\ forallb is_nan gappy_slice = false
   /\ allNaN_arg gappy_array "time" "max" = Ok (Some [[Some 3; Some 3]])
   /\ allNaN_arg gappy_array "time" "min" = Ok (Some [[Some 1; Some 4]]))
  /\ (exists k v, pixel [[Some 3; Some 3]] 0 0 = Some (Some k)
                  /\ nanargmax gappy_slice = Ok k
                  /\ gappy_slice !! k = Some v
                  /\ extremum_of flt gappy_slice v)
  /\ (exists k v, pixel [[Some 1; Some 4]] 0 0 = Some (Some k)
                  /\ nanargmin gappy_slice = Ok k
                  /\ gappy_slice !! k = Some v
                  /\ extremum_of fgt gappy_slice v).
Proof.
  assert (Hmax : allNaN_arg gappy_array "time" "max"
                 = Ok (Some [[Some 3; Some 3]])) by (vm_compute; reflexivity).
  assert (Hmin : allNaN_arg gappy_array "time" "min"
                 = Ok (Some [[Some 1; Some 4]])) by (vm_compute; reflexivity).
  assert (Hlow : forall m, nanmin (concat (concat gappy_array)) = Ok m ->
                           flt (fsub m (of_Z 1)) m = true).
  { intros m Hm. vm_compute in Hm. injection Hm as <-. reflexivity. }
  assert (Hhigh : forall m, nanmax (concat (concat gappy_array)) = Ok m ->
                            flt m (fadd m (of_Z 1)) = true).
  { intros m Hm. vm_compute in Hm. injection Hm as <-. reflexivity. }
  pose proof (allNaN_arg_skips_missing_values gappy_array [[Some 3; Some 3]]
                0 0 gappy_slice eq_refl eq_refl) as [Hthm _].
  pose proof (allNaN_arg_skips_missing_values gappy_array [[Some 1; Some 4]]
                0 0 gappy_slice eq_refl eq_refl) as [_ Hthm'].
  split; [by split_and!|].
  split; [exact (Hthm Hmax Hlow)|exact (Hthm' Hmin Hhigh)].
Defined.

(** ** The slope masks of [_vsos] and [_veos] *)

Lemma zip_with_keeps_left {A B : Type} (f : A -> B -> A) (l : list A)
    (c : list B) :
  length l <= length c ->
  (forall i a b, l !! i = Some a -> c !! i = Some b -> f a b = a) ->
  zip_with f l c = l.
Proof.
  revert c. induction l as [|a l IH]; intros [|b c] Hlen Hf; simpl in *;
    [done|done|lia|].
  rewrite (Hf 0 a b eq_refl eq_refl). f_equal.
  apply IH; [lia|]. intros i a' b' Ha Hb. by apply (Hf (S i)).
Qed.

Lemma gradient_length {F : Type} `{FloatOps F} (f x d : list F) :
  gradient f x = Ok d -> length d = length f /\ 2 <= length f.
Proof.
  unfold gradient. destruct (Nat.ltb (length f) 2) eqn:Hlen; [done|].
  intros [= <-]. rewrite length_map, length_seq.
  apply Nat.ltb_ge in Hlen. done.
Qed.

Section SlopeMask.
Context {F : Type} `{FloatLaws F}.

Lemma where_float_true_mask (g : Volume F) (deriv : grid (list F))
    (mask : F -> F) :
  (forall d, truthy (mask d) = true) ->
  differentiate_time g = Ok deriv ->
  where_float g (grid_map (map mask) deriv) = g.
Proof.
  intros Hmask Hd. destruct g as [x y t a vals dask].
  unfold where_float, differentiate_time, grid_exc_map in *. simpl in *.
  f_equal. unfold grid_zip, grid_map.
  apply zip_with_keeps_left.
  { rewrite length_map. apply exc_map_length in Hd. lia. }
  intros i row crow Hrow Hcrow. rewrite lookup_map in Hcrow.
  destruct (exc_map_lookup _ _ _ _ _ Hd Hrow) as (drow & Hdrow & Hdi).
  rewrite Hdi in Hcrow. injection Hcrow as <-.
  apply zip_with_keeps_left.
  { rewrite length_map. apply exc_map_length in Hdrow. lia. }
  intros j s c Hs Hc. rewrite lookup_map in Hc.
  destruct (exc_map_lookup _ _ _ _ _ Hdrow Hs) as (d & Hgrad & Hdj).
  rewrite Hdj in Hc. injection Hc as <-.
  apply zip_with_keeps_left.
  { rewrite length_map. apply gradient_length in Hgrad. lia. }
  intros k v c Hv Hc. rewrite lookup_map in Hc.
  destruct (d !! k) as [e|]; [|done]. injection Hc as <-.
  by rewrite Hmask.
Qed.

(** X6.  The masks of positive and of negative slopes are true at every
    time-step (a slope that fails the test is a NaN, and a NaN is true as a
    condition), so masking a side of the curve with them gives the side
    back: [pos_greenup] is [greenup] and [neg_senesce] is [senesce]. *)
Theorem slope_masks_keep_every_value (g : Volume F) (deriv : grid (list F)) :
  differentiate_time g = Ok deriv ->
  where_float g
    (grid_map (map (fun d => if flt (of_Z 0) d then d else nan)) deriv) = g
  /\ where_float g
       (grid_map (map (fun d => if flt d (of_Z 0) then d else nan)) deriv) = g.
Proof.
  intros Hd. split; apply where_float_true_mask; try done;
    intros d; by destruct (slope_mask_is_true d).
Qed.

End SlopeMask.

Lemma slope_masks_keep_every_value_witness :
  differentiate_time dip_greenup = Ok dip_greenup_slope
  /\ where_float dip_greenup
       (grid_map (map (fun d => if flt (of_Z 0) d then d else nan))
                 dip_greenup_slope) = dip_greenup
  /\ where_float dip_greenup
       (grid_map (map (fun d => if flt d (of_Z 0) then d else nan))
                 dip_greenup_slope) = dip_greenup.
Proof.
  assert (Hd : differentiate_time dip_greenup = Ok dip_greenup_slope)
    by (vm_compute; reflexivity).
  pose proof (slope_masks_keep_every_value dip_greenup dip_greenup_slope Hd)
    as Hthm.
  split; [exact Hd|exact Hthm].
Defined.

(** ** Start before the peak, end after the peak *)

(** The place a Python index points at; it is the same place in every
    sequence of the same length. *)
Lemma py_index_position {A : Type} (l : list A) (k : Z) (a : A) :
  py_index l k = Ok a ->
  exists p, l !! p = Some a
            /\ forall (B : Type) (l' : list B) (b : B),
                 length l' = length l -> py_index l' k = Ok b ->
                 l' !! p = Some b.
Proof.
  unfold py_index. cbv zeta.
  set (q := fun n : nat => Z.to_nat (if (k <? 0)%Z then (k + Z.of_nat n)%Z else k)).
  change (Z.to_nat (if (k <? 0)%Z then (k + Z.of_nat (length l))%Z else k))
    with (q (length l)).
  intros Hk. exists (q (length l)). split.
  - destruct (_ && _); [|done].
    destruct (l !! q (length l)); [|done]. by injection Hk as ->.
  - intros B l' b Hlen. rewrite Hlen. fold (q (length l)).
    destruct (_ && _); [|done].
    destruct (l' !! q (length l)); [|done]. by intros [= ->].
Qed.

Section SeasonSides.
Context {F : Type} `{FloatLaws F}.

Lemma isel_time_pixel (g : Volume F) (idx : grid Z) (l : Layer F F)
    (i j : nat) (v : F) :
  isel_time g idx = Ok l -> pixel (l_values l) i j = Some v ->
  exists gs k ts t,
    pixel (v_values g) i j = Some gs /\ pixel idx i j = Some k
    /\ py_index gs k = Ok v
    /\ l_time l = Some ts /\ pixel ts i j = Some t
    /\ py_index (v_time g) k = Ok t.
Proof.
  unfold isel_time. intros Hl Hv. exc_inv Hl. rename a into vals.
  exc_inv Hl. rename a into ts. injection Hl as <-. simpl in *.
  destruct (grid_exc_map_pixel_inv _ _ _ _ _ _ Ha Hv) as ([gs k] & Hp & Hgk).
  apply pixel_grid_zip_inv in Hp as (gs' & k' & Hgs & Hk & [= -> ->]).
  destruct (grid_exc_map_pixel _ _ _ _ _ _ Ha0 Hk) as (t & Ht & Hts).
  exists gs', k', ts, t. by split_and!.
Qed.

(** The selection along time on one side of the peak, whichever index is
    chosen: a selected value that is not NaN is an observation of the
    series, taken at a time-step on that side. *)
Lemma side_selection (cmp : Z -> Z -> bool) (mask : F -> F)
    (da : Volume F) (ptime : grid Z) (deriv : grid (list F)) (idx : grid Z)
    (l : Layer F F) (i j : nat) (s : list F) (tp : Z) (v : F) :
  (forall d, truthy (mask d) = true) ->
  differentiate_time (where_time cmp da ptime) = Ok deriv ->
  isel_time (where_float (where_time cmp da ptime)
                         (grid_map (map mask) deriv)) idx = Ok l ->
  pixel (v_values da) i j = Some s -> pixel ptime i j = Some tp ->
  length s = length (v_time da) ->
  pixel (l_values l) i j = Some v -> is_nan v = false ->
  exists p t ts,
    s !! p = Some v /\ v_time da !! p = Some t /\ cmp t tp = true
    /\ l_time l = Some ts /\ pixel ts i j = Some t.
Proof.
  intros Hmask Hd Hsel Hs Htp Hlen Hv Hnv.
  rewrite (where_float_true_mask _ _ _ Hmask Hd) in Hsel.
  destruct (isel_time_pixel _ _ _ _ _ _ Hsel Hv)
    as (gs & k & ts & t & Hgs & Hk & Hgk & Hts & Ht & Htk).
  simpl in Hgs, Htk.
  rewrite (pixel_grid_zip _ _ _ _ _ _ _ Hs Htp) in Hgs. injection Hgs as <-.
  destruct (py_index_position _ _ _ Hgk) as (p & Hp & Hsame).
  assert (Htime : v_time da !! p = Some t).
  { apply Hsame; [|done]. rewrite length_zip_with. lia. }
  rewrite lookup_zip_with, Htime in Hp. simpl in Hp.
  destruct (s !! p) as [w|] eqn:Hw; [|done]. simpl in Hp.
  injection Hp as Hp. exists p, t, ts.
  destruct (cmp t tp); [subst w; by split_and!|].
  subst v. by rewrite is_nan_nan in Hnv.
Qed.

Lemma dayofyear_pixel (l : Layer F F) (sel : Layer F Z) (ts : grid Z)
    (i j : nat) (t : Z) :
  l_time l = Some ts -> pixel ts i j = Some t -> time_dayofyear l = Ok sel ->
  pixel (l_values sel) i j = Some (dayofyear t).
Proof.
  unfold time_dayofyear. intros -> Ht [= <-]. simpl.
  by rewrite pixel_grid_map, Ht.
Qed.

Variable nan_int16 : Z.

(** X7.  Whatever the method, a value at start of season that is not NaN
    is an observation of the pixel's series at a time-step strictly before
    the peak, and the start of season is the day of the year of that
    time-step. *)
Theorem start_is_observed_before_peak (da : Volume F) (pos : Layer F Z)
    (method_sos : string) (vsos : Layer F F) (ptime : grid Z)
    (i j : nat) (s : list F) (tp : Z) (v : F) :
  _vsos nan_int16 da pos method_sos = Ok vsos ->
  l_time pos = Some ptime -> pixel ptime i j = Some tp ->
  pixel (v_values da) i j = Some s -> length s = length (v_time da) ->
  pixel (l_values vsos) i j = Some v -> is_nan v = false ->
  exists p t,
    s !! p = Some v /\ v_time da !! p = Some t /\ (t < tp)%Z
    /\ forall sos, _sos vsos = Ok sos ->
                   pixel (l_values sos) i j = Some (dayofyear t).
Proof.
  unfold _vsos, layer_time. intros Hvsos Hpt Htp Hs Hlen Hv Hnv.
  rewrite Hpt in Hvsos. simpl in Hvsos.
  exc_inv Hvsos. rename a into deriv, Ha into Hd.
  exc_inv Hvsos. rename a into idx.
  destruct (side_selection Z.ltb _ _ _ _ _ _ _ _ _ _ _
              (fun d => proj1 (slope_mask_is_true d)) Hd Hvsos Hs Htp Hlen
              Hv Hnv) as (p & t & ts & Hp & Ht & Hcmp & Hts & Hpix).
  exists p, t. split_and!; [done|done|by apply Z.ltb_lt|].
  intros sos Hsos. eapply dayofyear_pixel; eauto.
Qed.

(** X8.  Whatever the method, a value at end of season that is not NaN is
    an observation of the pixel's series at a time-step strictly after the
    peak, and the end of season is the day of the year of that time-step. *)
Theorem end_is_observed_after_peak (da : Volume F) (pos : Layer F Z)
    (method_eos : string) (veos : Layer F F) (ptime : grid Z)
    (i j : nat) (s : list F) (tp : Z) (v : F) :
  _veos nan_int16 da pos method_eos = Ok veos ->
  l_time pos = Some ptime -> pixel ptime i j = Some tp ->
  pixel (v_values da) i j = Some s -> length s = length (v_time da) ->
  pixel (l_values veos) i j = Some v -> is_nan v = false ->
  exists p t,
    s !! p = Some v /\ v_time da !! p = Some t /\ (tp < t)%Z
    /\ forall eos, _eos veos = Ok eos ->
                   pixel (l_values eos) i j = Some (dayofyear t).
Proof.
  unfold _veos, layer_time. intros Hveos Hpt Htp Hs Hlen Hv Hnv.
  rewrite Hpt in Hveos. simpl in Hveos.
  exc_inv Hveos. rename a into deriv, Ha into Hd.
  exc_inv Hveos. rename a into idx.
  destruct (side_selection Z.gtb _ _ _ _ _ _ _ _ _ _ _
              (fun d => proj2 (slope_mask_is_true d)) Hd Hveos Hs Htp Hlen
              Hv Hnv) as (p & t & ts & Hp & Ht & Hcmp & Hts & Hpix).
  exists p, t. split_and!; [done|done| |].
  - apply Z.gtb_lt in Hcmp. lia.
  - intros eos Heos. eapply dayofyear_pixel; eauto.
Qed.

End SeasonSides.

Lemma start_is_observed_before_peak_witness :
  (_vsos 0 season_volume season_pos "median" = Ok season_vsos
   /\ l_time season_pos = Some [[timestamp 2020 120]]
   /\ pixel [[timestamp 2020 120]] 0 0 = Some (timestamp 2020 120)
   /\ pixel (v_values season_volume) 0 0 = Some season_series
   /\ length season_series = length (v_time season_volume)
   /\ pixel (l_values season_vsos) 0 0 = Some (xq 20 100)
   /\ is_nan (xq 20 100) = false)
  /\ exists p t,
       season_series !! p = Some (xq 20 100)
       /\ v_time season_volume !! p = Some t
       /\ (t < timestamp 2020 120)%Z
       /\ forall sos, _sos season_vsos = Ok sos ->
                      pixel (l_values sos) 0 0 = Some (dayofyear t).
Proof.
  assert (Hv : _vsos 0 season_volume season_pos "median" = Ok season_vsos)
    by (vm_compute; reflexivity).
  pose proof (start_is_observed_before_peak 0 season_volume season_pos
                "median" season_vsos [[timestamp 2020 120]] 0 0
                season_series (timestamp 2020 120) (xq 20 100)
                Hv eq_refl eq_refl eq_refl eq_refl eq_refl eq_refl) as Hthm.
  split; [by split_and!|exact Hthm].
Defined.

Lemma end_is_observed_after_peak_witness :
  (_veos 0 season_volume season_pos "median" = Ok season_veos
   /\ l_time season_pos = Some [[timestamp 2020 120]]
   /\ pixel [[timestamp 2020 120]] 0 0 = Some (timestamp 2020 120)
   /\ pixel (v_values season_volume) 0 0 = Some season_series
   /\ length season_series = length (v_time season_volume)
   /\ pixel (l_values season_veos) 0 0 = Some (xq 30 100)
   /\ is_nan (xq 30 100) = false)
  /\ exists p t,
       season_series !! p = Some (xq 30 100)
       /\ v_time season_volume !! p = Some t
       /\ (timestamp 2020 120 < t)%Z
       /\ forall eos, _eos season_veos = Ok eos ->
                      pixel (l_values eos) 0 0 = Some (dayofyear t).
Proof.
  assert (Hv : _veos 0 season_volume season_pos "median" = Ok season_veos)
    by (vm_compute; reflexivity).
  pose proof (end_is_observed_after_peak 0 season_volume season_pos
                "median" season_veos [[timestamp 2020 120]] 0 0
                season_series (timestamp 2020 120) (xq 30 100)
                Hv eq_refl eq_refl eq_refl eq_refl eq_refl eq_refl) as Hthm.
  split; [by split_and!|exact Hthm].
Defined.

(** ** What a run of [xr_phenology] requires of the time axis *)

Section TwoTimeSteps.
Context {F : Type} `{FloatOps F}.

(** The peak of season carries the timestamp of every pixel. *)
Lemma pos_time_pixel (da : Volume F) (pos : Layer F Z) (i j : nat)
    (s : list F) :
  _pos da = Ok pos -> pixel (v_values da) i j = Some s ->
  exists ts tp, l_time pos = Some ts /\ pixel ts i j = Some tp.
Proof.
  unfold _pos, isel_time, time_dayofyear. intros Hpos Hs.
  exc_inv Hpos. rename a into idx, Ha into Hidx.
  exc_inv Hpos. rename a into sel, Ha into Hsel.
  exc_inv Hsel. rename a into vals, Ha into Hvals.
  exc_inv Hsel. rename a into ts, Ha into Hts.
  injection Hsel as <-. simpl in Hpos. injection Hpos as <-. simpl.
  destruct (grid_exc_map_pixel _ _ _ _ _ _ Hidx Hs) as (k & _ & Hk).
  assert (Hzk : pixel (grid_map Z.of_nat idx) i j = Some (Z.of_nat k))
    by (by rewrite pixel_grid_map, Hk).
  destruct (grid_exc_map_pixel _ _ _ _ _ _ Hts Hzk) as (t & _ & Ht).
  eauto.
Qed.

Lemma fill_all_nan_pixel (da : Volume F) (i j : nat) (s : list F) :
  pixel (v_values da) i j = Some s ->
  exists s', pixel (v_values (fill_all_nan da)) i j = Some s'
             /\ length s' = length s.
Proof.
  intros Hs. unfold fill_all_nan. simpl. rewrite pixel_grid_map, Hs. simpl.
  eexists. split; [done|]. destruct (forallb is_nan s); [|done].
  by rewrite length_map.
Qed.

Variables (nan_int16 : Z) (astype_keeps_attrs : bool).
Variables (fast_completion smooth : grid (list F) -> grid (list F)).

(** X9.  Without completion, [xr_phenology] returns only on series of at
    least two time-steps: when it returns a dataset, every pixel of the
    input has two values or more, and so has the time coordinate. *)
Theorem phenology_needs_two_time_steps (da : Volume F) (stats : stats_arg)
    (method_sos method_eos : string) (out : list string) (ds : Dataset F)
    (i j : nat) (s : list F) :
  xr_phenology nan_int16 astype_keeps_attrs fast_completion smooth
    da stats method_sos method_eos false = (out, Ok ds) ->
  pixel (v_values da) i j = Some s ->
  2 <= length s /\ 2 <= length (v_time da).
Proof.
  unfold xr_phenology. intros Hrun Hs.
  destruct (v_dask da); [done|].
  destruct (negb (existsb (String.eqb method_sos) _)); [done|].
  destruct (negb (existsb (String.eqb method_eos) _)); [done|].
  injection Hrun as _ Hrun. exc_inv Hrun. rename a into d, Ha into Hd.
  destruct (fill_all_nan_pixel _ _ _ _ Hs) as (s' & Hs' & Hlen).
  unfold phenology_stats in Hd.
  exc_inv Hd. rename a into vpos, Ha into Hvpos.
  exc_inv Hd. rename a into pos, Ha into Hpos.
  exc_inv Hd. rename a into trough, Ha into Htrough.
  exc_inv Hd. rename a into vsos, Ha into Hvsos.
  destruct (pos_time_pixel _ _ _ _ _ Hpos Hs') as (ts & tp & Hts & Htp).
  unfold _vsos, layer_time in Hvsos. rewrite Hts in Hvsos. simpl in Hvsos.
  exc_inv Hvsos. rename a into deriv, Ha into Hderiv.
  unfold differentiate_time in Hderiv.
  pose proof (pixel_grid_zip
                (fun s tp => zip_with (fun t v => if (t <? tp)%Z then v else nan)
                                      (v_time (fill_all_nan da)) s)
                _ _ _ _ _ _ Hs' Htp) as Hgreen.
  destruct (grid_exc_map_pixel _ _ _ _ _ _ Hderiv Hgreen) as (g & Hg & _).
  apply gradient_length in Hg as [_ Hg].
  rewrite length_zip_with in Hg. simpl in Hg. lia.
Qed.

End TwoTimeSteps.

Lemma phenology_needs_two_time_steps_witness :
  (exists ds,
     xr_phenology_x 0 false rising_beside_season (StatsList ["vPOS"; "POS"])
       "first" "last" false = (["      Phenology..."], Ok ds))
  /\ 2 <= length rising_series
  /\ 2 <= length (v_time rising_beside_season).
Proof.
  assert (Hrun : exists ds,
            xr_phenology 0 false keep_series keep_series rising_beside_season
              (StatsList ["vPOS"; "POS"]) "first" "last" false
            = (["      Phenology..."], Ok ds)).
  { eexists. vm_compute. reflexivity. }
  split; [exact Hrun|]. destruct Hrun as [ds Hrun].
  pose proof (phenology_needs_two_time_steps 0 false keep_series keep_series
                rising_beside_season (StatsList ["vPOS"; "POS"])
                "first" "last" ["      Phenology..."] ds 0 0 rising_series
                Hrun eq_refl) as Hthm.
  exact Hthm.
Defined.

(** ** Pixels that were never observed *)

Section UnobservedPixel.
Context {F : Type} `{FloatLaws F}.

Lemma fold_pick_constant (better : F -> F -> bool) (z : F) (l : list F) :
  fold_left (pick better) (map (fun _ => z) l) z = z.
Proof.
  induction l as [|a l IH]; [done|]. simpl.
  replace (pick better z z) with z; [done|].
  unfold pick. by repeat destruct (_ : bool).
Qed.

Lemma nanarg_loop_constant (better : F -> F -> bool) (z : F) (k : nat)
    (l : list F) :
  better z z = false ->
  forall i, nanarg_loop better (Some (z, k)) i (map (fun _ => z) l)
            = Some (z, k).
Proof.
  intros Hz. induction l as [|a l IH]; intros i; [done|]. simpl.
  rewrite Hz. destruct (is_nan z); apply IH.
Qed.

Lemma nanarg_constant (better : F -> F -> bool) (z : F) (s : list F) :
  is_nan z = false -> better z z = false -> s <> [] ->
  nanarg better (map (fun _ => z) s) = Ok 0.
Proof.
  intros Hnan Hz Hs. destruct s as [|a s]; [done|].
  unfold nanarg. simpl. rewrite Hnan.
  by rewrite nanarg_loop_constant.
Qed.

Lemma nanarg_raises_value_error (better : F -> F -> bool) (l : list F)
    (e : exn) :
  nanarg better l = Raise e -> e = ValueError.
Proof.
  unfold nanarg. destruct (nanarg_loop better None 0 l) as [[m k]|]; [done|].
  by intros [= <-].
Qed.

(** X10.  After the zero fill of [xr_phenology] a pixel that was never
    observed (and has at least one time-step) has the value 0 at its peak
    and at its trough, and its peak of season is the day of the year of
    the first time-step. *)
Theorem unobserved_pixel_after_fill (da : Volume F) (i j : nat) (s : list F) :
  pixel (v_values da) i j = Some s -> s <> [] -> forallb is_nan s = true ->
  (forall vpos, _vpos (fill_all_nan da) = Ok vpos ->
                pixel (l_values vpos) i j = Some (of_Z 0))
  /\ (forall trough, _trough (fill_all_nan da) = Ok trough ->
                     pixel (l_values trough) i j = Some (of_Z 0))
  /\ (forall pos, _pos (fill_all_nan da) = Ok pos ->
                  exists t0, v_time da !! 0 = Some t0
                             /\ pixel (l_values pos) i j = Some (dayofyear t0)).
Proof.
  intros Hs Hne Hnan.
  assert (Hfill : pixel (v_values (fill_all_nan da)) i j
                  = Some (map (fun _ => of_Z 0) s)).
  { unfold fill_all_nan. simpl. rewrite pixel_grid_map, Hs. simpl.
    by rewrite Hnan. }
  assert (Hcons : exists a l, s = a :: l).
  { destruct s as [|a l]; [done|eauto]. }
  destruct Hcons as (a & l & ->).
  split_and!.
  - intros vpos Hvpos.
    destruct (vpos_pixel _ _ _ _ _ Hvpos Hfill) as (v & Hv & Hpix).
    simpl in Hv. injection Hv as <-. unfold fmax in Hpix.
    by rewrite fold_pick_constant in Hpix.
  - intros trough Htrough.
    destruct (trough_pixel _ _ _ _ _ Htrough Hfill) as (v & Hv & Hpix).
    simpl in Hv. injection Hv as <-. unfold fmin in Hpix.
    by rewrite fold_pick_constant in Hpix.
  - intros pos Hpos.
    destruct (pos_pixel _ _ _ _ _ Hpos Hfill) as (k & t & Hk & Ht & Hpix).
    unfold nanargmax in Hk.
    rewrite nanarg_constant in Hk;
      [|apply is_nan_of_Z|apply flt_irrefl|done].
    injection Hk as <-. by exists t.
Qed.

(** X11.  Without that fill, one pixel that was never observed makes
    [_pos] raise [ValueError] for the whole array, while [_vpos], when it
    returns, holds a NaN for that pixel. *)
Theorem pos_raises_on_unobserved_pixel (da : Volume F) (i j : nat)
    (s : list F) :
  pixel (v_values da) i j = Some s -> forallb is_nan s = true ->
  _pos da = Raise ValueError
  /\ forall vpos, _vpos da = Ok vpos ->
                  exists v, pixel (l_values vpos) i j = Some v
                            /\ is_nan v = true.
Proof.
  intros Hs Hnan. split.
  - unfold _pos.
    destruct (grid_exc_map nanargmax (v_values da)) as [idx|e] eqn:Hidx.
    + destruct (grid_exc_map_pixel _ _ _ _ _ _ Hidx Hs) as (k & Hk & _).
      unfold nanargmax in Hk. by rewrite nanarg_all_nan in Hk.
    + simpl. f_equal. unfold grid_exc_map in Hidx.
      apply exc_map_raise_inv in Hidx as (r & _ & Hr).
      apply exc_map_raise_inv in Hr as (y & _ & Hy).
      by apply nanarg_raises_value_error in Hy.
  - intros vpos Hvpos.
    destruct (vpos_pixel _ _ _ _ _ Hvpos Hs) as (v & Hv & Hpix).
    exists v. split; [done|].
    apply nanmax_spec in Hv. unfold reduces_to in Hv. by rewrite Hnan in Hv.
Qed.

End UnobservedPixel.

Lemma unobserved_pixel_after_fill_witness :
  (pixel (v_values blank_beside_season) 0 0 = Some [XNaN; XNaN; XNaN; XNaN]
   /\ [XNaN; XNaN; XNaN; XNaN] <> []
   /\ forallb is_nan [XNaN; XNaN; XNaN; XNaN] = true)
  /\ (forall vpos, _vpos (fill_all_nan blank_beside_season) = Ok vpos ->
                   pixel (l_values vpos) 0 0 = Some (of_Z 0))
  /\ (forall trough, _trough (fill_all_nan blank_beside_season) = Ok trough ->
                     pixel (l_values trough) 0 0 = Some (of_Z 0))
  /\ (forall pos, _pos (fill_all_nan blank_beside_season) = Ok pos ->
                  exists t0, v_time blank_beside_season !! 0 = Some t0
                             /\ pixel (l_values pos) 0 0
                                = Some (dayofyear t0)).
Proof.
  assert (Hne : [XNaN; XNaN; XNaN; XNaN] <> []) by discriminate.
  pose proof (unobserved_pixel_after_fill blank_beside_season 0 0
                [XNaN; XNaN; XNaN; XNaN] eq_refl Hne eq_refl) as Hthm.
  split; [by split_and!|exact Hthm].
Defined.

Lemma pos_raises_on_unobserved_pixel_witness :
  (pixel (v_values blank_beside_season) 0 0 = Some [XNaN; XNaN; XNaN; XNaN]
   /\ forallb is_nan [XNaN; XNaN; XNaN; XNaN] = true)
  /\ _pos blank_beside_season = Raise ValueError
  /\ forall vpos, _vpos blank_beside_season = Ok vpos ->
                  exists v, pixel (l_values vpos) 0 0 = Some v
                            /\ is_nan v = true.
Proof.
  pose proof (pos_raises_on_unobserved_pixel blank_beside_season 0 0
                [XNaN; XNaN; XNaN; XNaN] eq_refl eq_refl) as Hthm.
  split; [by split_and!|exact Hthm].
Defined.

(** ** The dataset of [temporal_statistics] *)

Section TemporalOutput.
Context {F : Type} `{FloatOps F}.
Variable fast_completion : grid (list F) -> grid (list F).
Variable discordance : grid (list F) -> Z -> grid F.
Variable fourier_std fourier_mean fourier_median :
  grid (list F) -> Z -> Z -> grid (list F).
Variable mean_change median_change mean_abs_change complexity
  mean_central_diff : grid (list F) -> grid F.
Variable number_peaks : grid (list F) -> Z -> grid F.

Local Abbreviation temporal :=
  (temporal_statistics fast_completion discordance fourier_std fourier_mean
     fourier_median mean_change median_change mean_abs_change complexity
     mean_central_diff number_peaks).
Local Abbreviation loop :=
  (temporal_loop discordance fourier_std fourier_mean fourier_median
     mean_change median_change mean_abs_change complexity mean_central_diff
     number_peaks).
Local Abbreviation call :=
  (call_stat discordance fourier_std fourier_mean fourier_median
     mean_change median_change mean_abs_change complexity mean_central_diff
     number_peaks).
Local Abbreviation indent := (String.append "      ").

(** One statistic as a layer: the function is found, returns, and its
    result has the shape of the coordinates. *)
Lemma stat_layer_ok (da : Volume F) (vals : grid (list F)) (k : string)
    (a : StatArray F) :
  (v <- call k vals ;; stat_array (v_x da) (v_y da) (v_attrs da) v) = Ok a ->
  exists v, call k vals = Ok v
            /\ shape_ok2 (v_x da) (v_y da) v = true
            /\ a = mkStatArray (v_x da) (v_y da)
                     (mkDataVar (v_attrs da) (Float32Grid v)).
Proof.
  intros Ha. exc_inv Ha. rename a0 into v. exists v. unfold stat_array in Ha.
  destruct (shape_ok2 (v_x da) (v_y da) v); [|done].
  by injection Ha as <-.
Qed.

Lemma stat_layer_returns (da : Volume F) (vals : grid (list F)) (k : string)
    (v : grid F) :
  call k vals = Ok v -> shape_ok2 (v_x da) (v_y da) v = true ->
  (v <- call k vals ;; stat_array (v_x da) (v_y da) (v_attrs da) v)
  = Ok (mkStatArray (v_x da) (v_y da) (mkDataVar (v_attrs da) (Float32Grid v))).
Proof. intros -> Hshape. simpl. unfold stat_array. by rewrite Hshape. Qed.

Lemma temporal_loop_spec (da : Volume F) (vals : grid (list F))
    (rest : list string) :
  forall (out : list string) (ds : Dataset F) (out' : list string)
         (ds' : Dataset F),
  loop da vals rest out ds = (out', Ok ds') ->
  out' = out ++ map indent rest
  /\ ds_keys ds' = fold_left add_key rest (ds_keys ds)
  /\ (forall k, In k rest ->
        exists v, call k vals = Ok v
                  /\ shape_ok2 (v_x da) (v_y da) v = true
                  /\ ds_get k ds'
                     = Some (mkDataVar (v_attrs da) (Float32Grid v)))
  /\ (forall k, ~ In k rest -> ds_get k ds' = ds_get k ds).
Proof.
  induction rest as [|stat rest IH]; intros out ds out' ds' Hloop;
    simpl in Hloop.
  - injection Hloop as <- <-. rewrite app_nil_r. by split_and!.
  - destruct (exc_bind _ _) as [a|e] eqn:Hstat; [|done].
    apply stat_layer_ok in Hstat as (v & Hv & Hshape & ->).
    destruct (IH _ _ _ _ Hloop) as (Hout & Hkeys & Hin & Hnot).
    split_and!.
    + rewrite Hout, <- app_assoc. done.
    + rewrite Hkeys. simpl. f_equal. unfold ds_keys, ds_setitem. simpl.
      apply dict_set_keys.
    + intros k Hk. destruct (in_dec String.string_dec k rest) as [Hr|Hr].
      { by apply Hin. }
      destruct Hk as [<-|Hk]; [|done].
      exists v. split_and!; [done|done|].
      rewrite (Hnot _ Hr). unfold ds_get, ds_setitem. simpl.
      by rewrite dict_get_set, String.eqb_refl.
    + intros k Hk. rewrite Hnot by (intros Hr; apply Hk; by right).
      unfold ds_get, ds_setitem. simpl. rewrite dict_get_set.
      destruct (String.eqb k stat) eqn:Heq; [|done].
      apply String.eqb_eq in Heq. destruct Hk. by left.
Qed.

(** X14.  When [temporal_statistics] returns, it has printed one line for
    every requested name after the two headers; the variables of the
    dataset are the requested names in the order of their first
    occurrence; each is the result of its [hdstats] function on the
    completed series, of the shape of the coordinates, carrying the
    attributes of the input; and no other variable exists. *)
Theorem temporal_statistics_output (da : Volume F) (stats : stats_arg)
    (out : list string) (ds : Dataset F) :
  temporal da stats = (out, Ok ds) ->
  out = ["Completing..."; "   Statistics:"] ++ map indent (stats_as_list stats)
  /\ ds_keys ds = fold_left add_key (stats_as_list stats) []
  /\ (forall k, In k (stats_as_list stats) ->
        exists v, call k (fast_completion (v_values da)) = Ok v
                  /\ shape_ok2 (v_x da) (v_y da) v = true
                  /\ ds_get k ds
                     = Some (mkDataVar (v_attrs da) (Float32Grid v)))
  /\ (forall k, ~ In k (stats_as_list stats) -> ds_get k ds = None).
Proof.
  unfold temporal_statistics.
  destruct (stats_as_list stats) as [|s0 rest]; [done|].
  destruct (exc_bind _ _) as [a|e] eqn:Hstat; [|done].
  apply stat_layer_ok in Hstat as (v & Hv & Hshape & ->).
  intros Hloop. apply temporal_loop_spec in Hloop as (Hout & Hkeys & Hin & Hnot).
  split_and!.
  - rewrite Hout. simpl. done.
  - exact Hkeys.
  - intros k Hk. destruct (in_dec String.string_dec k rest) as [Hr|Hr].
    { by apply Hin. }
    destruct Hk as [<-|Hk]; [|done].
    exists v. split_and!; [done|done|].
    rewrite (Hnot _ Hr). unfold ds_get, to_dataset. simpl.
    by rewrite String.eqb_refl.
  - intros k Hk. rewrite Hnot by (intros Hr; apply Hk; by right).
    unfold ds_get, to_dataset. simpl.
    destruct (String.eqb k s0) eqn:Heq; [|done].
    apply String.eqb_eq in Heq. destruct Hk. by left.
Qed.

Lemma temporal_loop_returns (da : Volume F) (vals : grid (list F))
    (rest : list string) :
  (forall k, In k rest ->
     exists v, call k vals = Ok v /\ shape_ok2 (v_x da) (v_y da) v = true) ->
  forall (out : list string) (ds : Dataset F),
  exists ds', loop da vals rest out ds = (out ++ map indent rest, Ok ds').
Proof.
  induction rest as [|stat rest IH]; intros Hok out ds; simpl.
  - rewrite app_nil_r. eauto.
  - destruct (Hok stat (or_introl eq_refl)) as (v & Hv & Hshape).
    rewrite (stat_layer_returns da vals stat v Hv Hshape).
    destruct (IH (fun k Hk => Hok k (or_intror Hk))
                 (out ++ [indent stat])
                 (ds_setitem ds stat
                    (mkStatArray (v_x da) (v_y da)
                       (mkDataVar (v_attrs da) (Float32Grid v)))))
      as [ds' Hds'].
    exists ds'. rewrite Hds'. by rewrite <- app_assoc.
Qed.

Lemma temporal_loop_fails (da : Volume F) (vals : grid (list F))
    (good : list string) (k : string) (rest : list string) (e : exn) :
  (forall g, In g good ->
     exists v, call g vals = Ok v /\ shape_ok2 (v_x da) (v_y da) v = true) ->
  (v <- call k vals ;; stat_array (v_x da) (v_y da) (v_attrs da) v)
  = Raise e ->
  forall (out : list string) (ds : Dataset F),
  loop da vals (good ++ k :: rest) out ds
  = (out ++ map indent (good ++ [k]), Raise e).
Proof.
  intros Hok Hk. induction good as [|g good IH]; intros out ds; simpl.
  - by rewrite Hk.
  - destruct (Hok g (or_introl eq_refl)) as (v & Hv & Hshape).
    rewrite (stat_layer_returns da vals g v Hv Hshape).
    rewrite IH by (intros g' Hg'; apply Hok; by right).
    by rewrite <- app_assoc.
Qed.

(** X15.  [temporal_statistics] returns a dataset as soon as the request
    is not empty and each requested name has a function in [stats_dict]
    whose result has the shape of the coordinates. *)
Theorem temporal_statistics_returns (da : Volume F) (stats : stats_arg) :
  stats_as_list stats <> [] ->
  (forall k, In k (stats_as_list stats) ->
     exists v, call k (fast_completion (v_values da)) = Ok v
               /\ shape_ok2 (v_x da) (v_y da) v = true) ->
  exists ds,
    temporal da stats
    = (["Completing..."; "   Statistics:"] ++ map indent (stats_as_list stats),
       Ok ds).
Proof.
  unfold temporal_statistics. intros Hne Hok.
  destruct (stats_as_list stats) as [|s0 rest]; [done|].
  destruct (Hok s0 (or_introl eq_refl)) as (v & Hv & Hshape).
  rewrite (stat_layer_returns da _ s0 v Hv Hshape).
  destruct (temporal_loop_returns da (fast_completion (v_values da)) rest
              (fun k Hk => Hok k (or_intror Hk))
              (["Completing..."; "   Statistics:"] ++ [indent s0])
              (to_dataset s0
                 (mkStatArray (v_x da) (v_y da)
                    (mkDataVar (v_attrs da) (Float32Grid v)))))
    as [ds Hds].
  exists ds. rewrite Hds. done.
Qed.

(** X16.  A requested name that is no key of [stats_dict] (the docstring's
    'f_std', 'f_mean' and 'f_median' among them) makes
    [temporal_statistics] raise [TypeError] once the names before it have
    been computed: the line of the name is the last one printed and no
    dataset is returned. *)
Theorem temporal_statistics_unknown_name (da : Volume F) (stats : stats_arg)
    (good : list string) (k : string) (rest : list string) :
  stats_as_list stats = good ++ k :: rest ->
  (forall g, In g good ->
     exists v, call g (fast_completion (v_values da)) = Ok v
               /\ shape_ok2 (v_x da) (v_y da) v = true) ->
  dict_get k
    (temporal_stats_dict discordance fourier_std fourier_mean fourier_median
       mean_change median_change mean_abs_change complexity mean_central_diff
       number_peaks) = None ->
  temporal da stats
  = (["Completing..."; "   Statistics:"] ++ map indent (good ++ [k]),
     Raise TypeError).
Proof.
  unfold temporal_statistics. intros -> Hok Hk.
  assert (Hfail : (v <- call k (fast_completion (v_values da)) ;;
                   stat_array (v_x da) (v_y da) (v_attrs da) v)
                  = Raise TypeError).
  { unfold call_stat. by rewrite Hk. }
  destruct good as [|g good]; simpl.
  - by rewrite Hfail.
  - destruct (Hok g (or_introl eq_refl)) as (v & Hv & Hshape).
    rewrite (stat_layer_returns da _ g v Hv Hshape).
    by rewrite (temporal_loop_fails da _ good k rest TypeError
                  (fun g' Hg' => Hok g' (or_intror Hg')) Hfail).
Qed.

End TemporalOutput.

Lemma temporal_statistics_output_witness :
  temporal_statistics_x season_volume (StatsList ["f_std_n2"; "num_peaks"])
  = (["Completing..."; "   Statistics:"; "      f_std_n2"; "      num_peaks"],
     Ok season_temporal_output)
  /\ ["Completing..."; "   Statistics:"; "      f_std_n2"; "      num_peaks"]
     = ["Completing..."; "   Statistics:"]
       ++ map (String.append "      ")
              (stats_as_list (StatsList ["f_std_n2"; "num_peaks"]))
  /\ ds_keys season_temporal_output
     = fold_left add_key (stats_as_list (StatsList ["f_std_n2"; "num_peaks"])) []
  /\ (forall k, In k (stats_as_list (StatsList ["f_std_n2"; "num_peaks"])) ->
        exists v,
          call_stat count_stat_n three_columns three_columns three_columns
            count_stat count_stat count_stat count_stat count_stat
            count_stat_n k (keep_series (v_values season_volume)) = Ok v
          /\ shape_ok2 (v_x season_volume) (v_y season_volume) v = true
          /\ ds_get k season_temporal_output
             = Some (mkDataVar (v_attrs season_volume) (Float32Grid v)))
  /\ (forall k, ~ In k (stats_as_list (StatsList ["f_std_n2"; "num_peaks"])) ->
        ds_get k season_temporal_output = None).
Proof.
  assert (Ht : temporal_statistics keep_series count_stat_n three_columns
                 three_columns three_columns count_stat count_stat count_stat
                 count_stat count_stat count_stat_n season_volume
                 (StatsList ["f_std_n2"; "num_peaks"])
               = (["Completing..."; "   Statistics:"; "      f_std_n2";
                   "      num_peaks"], Ok season_temporal_output))
    by (vm_compute; reflexivity).
  pose proof (temporal_statistics_output keep_series count_stat_n
                three_columns three_columns three_columns count_stat
                count_stat count_stat count_stat count_stat count_stat_n
                season_volume (StatsList ["f_std_n2"; "num_peaks"])
                _ _ Ht) as Hthm.
  split; [exact Ht|exact Hthm].
Defined.

Lemma temporal_statistics_returns_witness :
  exists ds,
    temporal_statistics keep_series count_stat_n three_columns three_columns
      three_columns count_stat count_stat count_stat count_stat count_stat
      count_stat_n season_volume (StatsList ["complexity"; "f_mean_n3"])
    = (["Completing..."; "   Statistics:"]
       ++ map (String.append "      ")
              (stats_as_list (StatsList ["complexity"; "f_mean_n3"])),
       Ok ds).
Proof.
  assert (Hne : stats_as_list (StatsList ["complexity"; "f_mean_n3"]) <> [])
    by discriminate.
  assert (Hok : forall k,
            In k (stats_as_list (StatsList ["complexity"; "f_mean_n3"])) ->
            exists v,
              call_stat count_stat_n three_columns three_columns three_columns
                count_stat count_stat count_stat count_stat count_stat
                count_stat_n k (keep_series (v_values season_volume)) = Ok v
              /\ shape_ok2 (v_x season_volume) (v_y season_volume) v = true).
  { intros k [<-|[<-|[]]]; eexists; split; vm_compute; reflexivity. }
  pose proof (temporal_statistics_returns keep_series count_stat_n
                three_columns three_columns three_columns count_stat
                count_stat count_stat count_stat count_stat count_stat_n
                season_volume (StatsList ["complexity"; "f_mean_n3"])
                Hne Hok) as Hthm.
  exact Hthm.
Defined.

Lemma temporal_statistics_unknown_name_witness :
  temporal_statistics keep_series count_stat_n three_columns three_columns
    three_columns count_stat count_stat count_stat count_stat count_stat
    count_stat_n season_volume
    (StatsList ["abs_change"; "f_mean"; "complexity"; "central_diff"])
  = (["Completing..."; "   Statistics:"]
     ++ map (String.append "      ") (["abs_change"] ++ ["f_mean"]),
     Raise TypeError).
Proof.
  assert (Hok : forall g, In g ["abs_change"] ->
            exists v,
              call_stat count_stat_n three_columns three_columns three_columns
                count_stat count_stat count_stat count_stat count_stat
                count_stat_n g (keep_series (v_values season_volume)) = Ok v
              /\ shape_ok2 (v_x season_volume) (v_y season_volume) v = true).
  { intros g [<-|[]]; eexists; split; vm_compute; reflexivity. }
  pose proof (temporal_statistics_unknown_name keep_series count_stat_n
                three_columns three_columns three_columns count_stat
                count_stat count_stat count_stat count_stat count_stat_n
                season_volume
                (StatsList ["abs_change"; "f_mean"; "complexity";
                            "central_diff"])
                ["abs_change"] "f_mean" ["complexity"; "central_diff"]
                eq_refl Hok eq_refl) as Hthm.
  exact Hthm.
Defined.

(** ** The properties above on concrete arrays *)

Lemma allNaN_arg_masks_missing_slice_witness :
  (allNaN_arg (v_values blank_beside_season) "time" "max"
   = Ok (Some [[None; Some 1]])
   /\ slices_along "time" (v_values blank_beside_season)
      = Ok (v_values blank_beside_season)
   /\ pixel (v_values blank_beside_season) 0 0
      = Some [XNaN; XNaN; XNaN; XNaN]
   /\ forallb is_nan [XNaN; XNaN; XNaN; XNaN] = true)
  /\ pixel [[None; Some 1]] 0 0 = Some None.
Proof.
  assert (Hg : allNaN_arg (v_values blank_beside_season) "time" "max"
               = Ok (Some [[None; Some 1]])) by (vm_compute; reflexivity).
  pose proof (allNaN_arg_masks_missing_slice (v_values blank_beside_season)
                "time" "max" [[None; Some 1]] (v_values blank_beside_season)
                0 0 [XNaN; XNaN; XNaN; XNaN] Hg eq_refl eq_refl eq_refl)
    as Hthm.
  split; [by split_and!|exact Hthm].
Defined.

Lemma allNaN_arg_agrees_without_nan_witness :
  (allNaN_arg gappy_array "time" "min" = Ok (Some [[Some 1; Some 4]])
   /\ slices_along "time" gappy_array = Ok gappy_array
   /\ pixel gappy_array 0 1 = Some [xq 2 1; xq 1 1; xq 1 1; xq 4 1; xq 0 1]
   /\ no_nan [xq 2 1; xq 1 1; xq 1 1; xq 4 1; xq 0 1] = true)
  /\ exists k,
       pixel [[Some 1; Some 4]] 0 1 = Some (Some k)
       /\ (("min" = "max"
            /\ argmax [xq 2 1; xq 1 1; xq 1 1; xq 4 1; xq 0 1] = Ok k)
           \/ ("min" = "min"
               /\ argmin [xq 2 1; xq 1 1; xq 1 1; xq 4 1; xq 0 1] = Ok k)).
Proof.
  assert (Hg : allNaN_arg gappy_array "time" "min"
               = Ok (Some [[Some 1; Some 4]])) by (vm_compute; reflexivity).
  pose proof (allNaN_arg_agrees_without_nan gappy_array "time" "min"
                [[Some 1; Some 4]] gappy_array 0 1
                [xq 2 1; xq 1 1; xq 1 1; xq 4 1; xq 0 1]
                Hg eq_refl eq_refl eq_refl) as Hthm.
  split; [by split_and!|exact Hthm].
Defined.

Lemma allNaN_arg_returns_witness :
  exists g, allNaN_arg (v_values blank_beside_season) "time" "max"
            = Ok (Some g).
Proof.
  assert (Hstat : "max" = "max" \/ "max" = "min") by (left; reflexivity).
  assert (Hlen : forall i j s,
            pixel (v_values blank_beside_season) i j = Some s -> s <> []).
  { intros [|i] [|[|j]] s; simpl; intros [= <-]; discriminate. }
  pose proof (allNaN_arg_returns (v_values blank_beside_season) "time" "max"
                (v_values blank_beside_season) eq_refl Hstat eq_refl Hlen)
    as Hthm.
  exact Hthm.
Defined.

Lemma allNaN_arg_raises_without_observation_witness :
  allNaN_arg [[[XNaN; XNaN; XNaN]; [XNaN; XNaN; XNaN]]] "time" "min"
  = Raise ValueError.
Proof.
  assert (Hstat : "min" = "max" \/ "min" = "min") by (right; reflexivity).
  pose proof (allNaN_arg_raises_without_observation
                [[[XNaN; XNaN; XNaN]; [XNaN; XNaN; XNaN]]] "min" 0 1
                [XNaN; XNaN; XNaN] eq_refl Hstat eq_refl) as Hthm.
  exact Hthm.
Defined.

Lemma peak_statistics_return_witness :
  exists (vpos : Layer xfloat xfloat) (pos : Layer xfloat Z),
    _vpos gappy_volume = Ok vpos /\ _pos gappy_volume = Ok pos.
Proof.
  assert (Hwf : forall i j s,
            pixel (v_values gappy_volume) i j = Some s ->
            forallb is_nan s = false
            /\ length s <= length (v_time gappy_volume)).
  { intros [|i] [|[|j]] s; simpl; intros [= <-]; split;
      (reflexivity || (simpl; lia)). }
  pose proof (peak_statistics_return gappy_volume Hwf) as Hthm.
  exact Hthm.
Defined.

Lemma rate_of_missing_value_witness :
  (pixel (l_values missing_layer) 0 0 = Some XNaN
   /\ pixel (l_values season_vpos) 0 0 = Some (xq 95 100)
   /\ pixel (l_values season_pos) 0 0 = Some 120%Z
   /\ pixel (l_values season_pos) 0 0 = Some 120%Z
   /\ (is_nan XNaN = true \/ is_nan (xq 95 100) = true))
  /\ exists r,
       pixel (l_values (rate missing_layer season_vpos season_pos season_pos))
             0 0 = Some r
       /\ is_nan r = true /\ is_nan (to_f32 r) = true.
Proof.
  assert (Hnan : is_nan XNaN = true \/ is_nan (xq 95 100) = true)
    by (left; reflexivity).
  pose proof (rate_of_missing_value missing_layer season_vpos season_pos
                season_pos 0 0 XNaN (xq 95 100) 120%Z 120%Z
                eq_refl eq_refl eq_refl eq_refl Hnan) as Hthm.
  split; [by split_and!|exact Hthm].
Defined.

(** ** A method that is not one of the two *)

Section UnboundIndex.
Context {F : Type} `{FloatOps F}.
Variable nan_int16 : Z.

Lemma select_index_unbound (method first_name : string)
    (distance : grid (list F)) :
  method <> first_name -> method <> "median" ->
  select_index nan_int16 method first_name distance = Raise UnboundLocalError.
Proof.
  intros Hfirst Hmedian. unfold select_index.
  apply String.eqb_neq in Hfirst, Hmedian. by rewrite Hfirst, Hmedian.
Qed.

(** X17.  Called on their own, [_vsos] with a method other than 'first'
    and 'median', and [_veos] with a method other than 'last' and 'median'
    ('first', which its docstring names, among them), bind no index: once
    the slopes have been computed they raise [UnboundLocalError], and in
    no case do they return a value. *)
Theorem unknown_method_binds_no_index (da : Volume F) (pos : Layer F Z)
    (method : string) :
  method <> "median" ->
  (method <> "first" ->
   (forall vsos, _vsos nan_int16 da pos method <> Ok vsos)
   /\ forall ptime deriv,
        l_time pos = Some ptime ->
        differentiate_time (where_time Z.ltb da ptime) = Ok deriv ->
        _vsos nan_int16 da pos method = Raise UnboundLocalError)
  /\ (method <> "last" ->
      (forall veos, _veos nan_int16 da pos method <> Ok veos)
      /\ forall ptime deriv,
           l_time pos = Some ptime ->
           differentiate_time (where_time Z.gtb da ptime) = Ok deriv ->
           _veos nan_int16 da pos method = Raise UnboundLocalError).
Proof.
  intros Hmedian. split; intros Hname; split.
  - intros vsos Hvsos. unfold _vsos in Hvsos.
    exc_inv Hvsos. exc_inv Hvsos. exc_inv Hvsos.
    by rewrite select_index_unbound in Ha1.
  - intros ptime deriv Hpt Hd. unfold _vsos, layer_time.
    rewrite Hpt. simpl. rewrite Hd. simpl.
    by rewrite select_index_unbound.
  - intros veos Hveos. unfold _veos in Hveos.
    exc_inv Hveos. exc_inv Hveos. exc_inv Hveos.
    by rewrite select_index_unbound in Ha1.
  - intros ptime deriv Hpt Hd. unfold _veos, layer_time.
    rewrite Hpt. simpl. rewrite Hd. simpl.
    by rewrite select_index_unbound.
Qed.

End UnboundIndex.

Lemma unknown_method_binds_no_index_witness :
  ("first" <> "first" ->
   (forall vsos, _vsos 0 season_volume season_pos "first" <> Ok vsos)
   /\ forall ptime deriv,
        l_time season_pos = Some ptime ->
        differentiate_time (where_time Z.ltb season_volume ptime) = Ok deriv ->
        _vsos 0 season_volume season_pos "first" = Raise UnboundLocalError)
  /\ ("first" <> "last" ->
      (forall veos, _veos 0 season_volume season_pos "first" <> Ok veos)
      /\ forall ptime deriv,
           l_time season_pos = Some ptime ->
           differentiate_time (where_time Z.gtb season_volume ptime)
           = Ok deriv ->
           _veos 0 season_volume season_pos "first" = Raise UnboundLocalError).
Proof.
  assert (Hmedian : "first" <> "median") by discriminate.
  pose proof (unknown_method_binds_no_index 0 season_volume season_pos
                "first" Hmedian) as Hthm.
  exact Hthm.
Defined.

(** ** Days of the year *)

Lemma dayofyear_range (ns : Z) : (1 <= dayofyear ns <= 366)%Z.
Proof.
  unfold dayofyear. cbv zeta.
  set (z := (ns / ns_per_day + 719468)%Z).
  set (era := (z / 146097)%Z).
  set (doe := (z - era * 146097)%Z).
  assert (Hdoe : (0 <= doe < 146097)%Z).
  { unfold doe, era. pose proof (Z.mod_pos_bound z 146097 eq_refl).
    rewrite Z.mod_eq in * by lia. lia. }
  clearbody doe.
  set (yoe := ((doe - doe / 1460 + doe / 36524 - doe / 146096) / 365)%Z).
  assert (Hdoy : (0 <= doe - (365 * yoe + yoe / 4 - yoe / 100) <= 365)%Z).
  { unfold yoe. Z.div_mod_to_equations. lia. }
  destruct (_ <? 306)%Z eqn:Hlt.
  - apply Z.ltb_lt in Hlt. destruct (is_leap _); lia.
  - apply Z.ltb_ge in Hlt. lia.
Qed.

Lemma wrap16_dayofyear (ns : Z) : wrap16 (dayofyear ns) = dayofyear ns.
Proof.
  pose proof (dayofyear_range ns) as Hr. unfold wrap16.
  rewrite Z.mod_small by lia. lia.
Qed.

Section DayLayers.
Context {F : Type} `{FloatOps F}.

Lemma time_dayofyear_values {A : Type} (l : Layer F A) (doy : Layer F Z) :
  time_dayofyear l = Ok doy ->
  exists ts, l_values doy = grid_map dayofyear ts.
Proof.
  unfold time_dayofyear. destruct (l_time l) as [ts|]; [|done].
  intros [= <-]. by exists ts.
Qed.

(** X18.  The peak, the start and the end of season are days of the year
    between 1 and 366, and their cast to [int16] in [stats_dict] changes
    none of them. *)
Theorem season_days_fit_int16 (astype_keeps_attrs : bool) (da : Volume F)
    (vsos veos : Layer F F) (doy : Layer F Z) :
  _pos da = Ok doy \/ _sos vsos = Ok doy \/ _eos veos = Ok doy ->
  (forall i j v, pixel (l_values doy) i j = Some v -> (1 <= v <= 366)%Z)
  /\ var_values (sa_var (astype_int16 astype_keeps_attrs doy))
     = Int16Grid (l_values doy).
Proof.
  intros Hdoy.
  assert (Hts : exists ts, l_values doy = grid_map dayofyear ts).
  { destruct Hdoy as [Hpos|[Hsos|Heos]].
    - unfold _pos in Hpos. exc_inv Hpos. exc_inv Hpos.
      by apply time_dayofyear_values in Hpos.
    - by apply time_dayofyear_values in Hsos.
    - by apply time_dayofyear_values in Heos. }
  destruct Hts as [ts Hts]. split.
  - intros i j v Hv. rewrite Hts, pixel_grid_map in Hv.
    destruct (pixel ts i j) as [t|]; [|done]. injection Hv as <-.
    apply dayofyear_range.
  - unfold astype_int16. simpl. f_equal. rewrite Hts. unfold grid_map.
    rewrite map_map. apply map_ext. intros row. rewrite map_map.
    apply map_ext. intros t. apply wrap16_dayofyear.
Qed.

End DayLayers.

Lemma season_days_fit_int16_witness :
  (_pos season_volume = Ok season_pos
   \/ _sos season_vsos = Ok season_pos \/ _eos season_veos = Ok season_pos)
  /\ (forall i j v, pixel (l_values season_pos) i j = Some v ->
                    (1 <= v <= 366)%Z)
  /\ var_values (sa_var (astype_int16 true season_pos))
     = Int16Grid (l_values season_pos).
Proof.
  assert (Hpos : _pos season_volume = Ok season_pos
                 \/ _sos season_vsos = Ok season_pos
                 \/ _eos season_veos = Ok season_pos)
    by (left; vm_compute; reflexivity).
  pose proof (season_days_fit_int16 true season_volume season_vsos
                season_veos season_pos Hpos) as Hthm.
  split; [exact Hpos|exact Hthm].
Defined.

(** ** The feature layers *)

Section FeatureLayerProperties.
Context {F : Type} `{FloatOps F}.
Variable nan_int16 : Z.
Variable astype_keeps_attrs : bool.
Variable fast_completion smooth : grid (list F) -> grid (list F).
Variable DEM : Type.
Variable RDA : Type.
Variable squeeze : DEM -> Layer F F.
Variable rdarray : grid F -> string -> Exc RDA.
Variable crs_to_wkt : string -> Exc string.
Variable geotransform : Layer F F -> Exc (list F).
Variable TerrainAttribute :
  RDA -> string -> list F -> option string -> Exc (grid F).
Variable BANDS : Type.
Variable CUBE : Type.
Variable INDICES : Type.
Variable Datacube : string -> Exc CUBE.
Variable calculate_indices :
  BANDS -> list string -> bool -> string -> Exc INDICES.
Variable get_NDVI : INDICES -> Exc (Volume F).
Variable rainfall_climatology : BANDS -> Exc (Dataset F).
Variable load_elevation : CUBE -> BANDS -> Exc DEM.
Variable slope_to_dataset : Layer F F -> Dataset F.
Variable median_time : BANDS -> Exc (Dataset F).
Variable merge_override : list (Dataset F) -> Exc (Dataset F).
Variable assign_crs_squeeze : BANDS -> Dataset F -> Exc (Dataset F).

(** A keyword that names no parameter stops the call of [xr_phenology]
    before its body. *)
Lemma xr_phenology_kw_unexpected (da : Volume F)
    (kwargs : list (string * pyarg)) (k : string) :
  In k (map fst kwargs) -> ~ In k ["stats"; "method_sos"; "method_eos";
                                     "complete_smooth"] ->
  xr_phenology_kw nan_int16 astype_keeps_attrs fast_completion smooth
    da kwargs = Raise TypeError.
Proof.
  intros Hk Hnot. unfold xr_phenology_kw, bind_keywords. simpl.
  destruct (forallb _ (map fst kwargs)) eqn:Hall; [|done].
  rewrite forallb_forall in Hall. specialize (Hall k Hk).
  destruct Hnot. simpl in *.
  repeat match type of Hall with
         | (String.eqb ?a ?b || _) = true =>
             destruct (String.eqb_spec a b) as [->|_]; [auto 6|simpl in Hall]
         end.
  done.
Qed.

(** X19.  [crop_features] returns for no input: it passes the keyword
    'complete', which is no parameter of [xr_phenology], so that once the
    datacube is open and the NDVI computed the call raises [TypeError], and
    nothing after it runs. *)
Theorem crop_features_never_returns (ds : BANDS) :
  (forall result,
     crop_features nan_int16 astype_keeps_attrs fast_completion smooth
     DEM RDA squeeze rdarray crs_to_wkt geotransform TerrainAttribute
     BANDS CUBE INDICES Datacube calculate_indices get_NDVI
     rainfall_climatology load_elevation slope_to_dataset median_time
     merge_override assign_crs_squeeze ds <> Ok result)
  /\ forall dc data ndvi,
       Datacube "training" = Ok dc ->
       calculate_indices ds ["NDVI"] true "s2" = Ok data ->
       get_NDVI data = Ok ndvi ->
       crop_features nan_int16 astype_keeps_attrs fast_completion smooth
         DEM RDA squeeze rdarray crs_to_wkt geotransform TerrainAttribute
         BANDS CUBE INDICES Datacube calculate_indices get_NDVI
         rainfall_climatology load_elevation slope_to_dataset median_time
         merge_override assign_crs_squeeze ds = Raise TypeError.
Proof.
  assert (Hcall : forall ndvi,
            xr_phenology_kw nan_int16 astype_keeps_attrs fast_completion
              smooth ndvi
              [("stats", ArgList ["Trough"; "vSOS"; "vPOS"; "AOS"; "ROG";
                                  "ROS"]);
               ("complete", ArgStr "fast_completion")]
            = Raise TypeError).
  { intros ndvi. apply (xr_phenology_kw_unexpected _ _ "complete").
    - simpl. auto.
    - simpl. intros [Hk|[Hk|[Hk|[Hk|[]]]]]; discriminate. }
  split.
  - intros result Hrun. unfold crop_features in Hrun.
    exc_inv Hrun. exc_inv Hrun. exc_inv Hrun. exc_inv Hrun.
    by rewrite Hcall in Ha2.
  - intros dc data ndvi Hdc Hdata Hndvi. unfold crop_features.
    rewrite Hdc. cbn [exc_bind]. rewrite Hdata. cbn [exc_bind].
    rewrite Hndvi. cbn [exc_bind]. by rewrite Hcall.
Qed.

(** X20.  [xr_terrain] reads the attributes 'nodata' and 'crs' of the
    array: without 'nodata' it raises [KeyError] before richdem is called,
    and without 'crs' it raises [KeyError] once the richdem array is
    built. *)
Theorem terrain_needs_nodata_and_crs (da : DEM) (attribute : option string) :
  (dict_get "nodata" (l_attrs (squeeze da)) = None ->
   xr_terrain DEM RDA squeeze rdarray crs_to_wkt geotransform
     TerrainAttribute da attribute = Raise KeyError)
  /\ forall nodata rda,
       dict_get "nodata" (l_attrs (squeeze da)) = Some nodata ->
       rdarray (l_values (squeeze da)) nodata = Ok rda ->
       dict_get "crs" (l_attrs (squeeze da)) = None ->
       xr_terrain DEM RDA squeeze rdarray crs_to_wkt geotransform
         TerrainAttribute da attribute = Raise KeyError.
Proof.
  split.
  - intros Hnodata. unfold xr_terrain, dict_item. by rewrite Hnodata.
  - intros nodata rda Hnodata Hrda Hcrs. unfold xr_terrain, dict_item.
    rewrite Hnodata. simpl. rewrite Hrda. simpl. by rewrite Hcrs.
Qed.

(** X21.  When [xr_terrain] returns, the result lies over the x and y
    coordinates of the squeezed input and carries its attributes, 'nodata'
    and 'crs' among them; its values are what richdem computed from the
    elevation, the projection and the geotransform, and they have the
    shape of the coordinates. *)
Theorem terrain_output (da : DEM) (attribute : option string)
    (out : Layer F F) :
  xr_terrain DEM RDA squeeze rdarray crs_to_wkt geotransform
    TerrainAttribute da attribute = Ok out ->
  l_x out = l_x (squeeze da) /\ l_y out = l_y (squeeze da)
  /\ l_attrs out = l_attrs (squeeze da) /\ l_time out = None
  /\ shape_ok2 (l_x out) (l_y out) (l_values out) = true
  /\ exists nodata crs rda projection gt,
       dict_get "nodata" (l_attrs out) = Some nodata
       /\ dict_get "crs" (l_attrs out) = Some crs
       /\ rdarray (l_values (squeeze da)) nodata = Ok rda
       /\ crs_to_wkt crs = Ok projection
       /\ geotransform (squeeze da) = Ok gt
       /\ TerrainAttribute rda projection gt attribute = Ok (l_values out).
Proof.
  unfold xr_terrain, dict_item. intros Hout.
  exc_inv Hout. rename a into nodata, Ha into Hnodata.
  exc_inv Hout. rename a into rda, Ha into Hrda.
  exc_inv Hout. rename a into crs, Ha into Hcrs.
  exc_inv Hout. rename a into projection, Ha into Hwkt.
  exc_inv Hout. rename a into gt, Ha into Hgt.
  exc_inv Hout. rename a into vals, Ha into Hvals.
  destruct (shape_ok2 _ _ vals) eqn:Hshape; [|done].
  injection Hout as <-. simpl.
  destruct (dict_get "nodata" _) as [n|] eqn:Hn; [|done].
  destruct (dict_get "crs" _) as [c|] eqn:Hc; [|done].
  injection Hnodata as ->. injection Hcrs as ->.
  split_and!; try done.
  exists nodata, crs, rda, projection, gt. by split_and!.
Qed.

End FeatureLayerProperties.

Lemma crop_features_never_returns_witness :
  (Datacube_x "training" = Ok tt
   /\ calculate_indices_x season_volume ["NDVI"] true "s2" = Ok season_volume
   /\ get_NDVI_x season_volume = Ok season_volume)
  /\ (forall result, crop_features_x season_volume <> Ok result)
  /\ crop_features_x season_volume = Raise TypeError.
Proof.
  pose proof (crop_features_never_returns 0 false keep_series keep_series
                (Layer xfloat xfloat) (grid xfloat)
                squeeze_x rdarray_x crs_to_wkt_x geotransform_x
                TerrainAttribute_x
                (Volume xfloat) unit (Volume xfloat)
                Datacube_x calculate_indices_x get_NDVI_x empty_dataset_x
                load_elevation_x slope_to_dataset_x empty_dataset_x
                merge_override_x assign_crs_squeeze_x
                season_volume) as [Hnever Hraise].
  split; [by split_and!|]. split; [exact Hnever|].
  exact (Hraise tt season_volume season_volume eq_refl eq_refl eq_refl).
Defined.

Lemma terrain_needs_nodata_and_crs_witness :
  (dict_get "nodata" (l_attrs (squeeze_x dem_without_crs)) = Some "-9999"
   /\ rdarray_x (l_values (squeeze_x dem_without_crs)) "-9999"
      = Ok (l_values dem_without_crs)
   /\ dict_get "crs" (l_attrs (squeeze_x dem_without_crs)) = None)
  /\ xr_terrain_x dem_without_crs (Some "slope_riserun") = Raise KeyError.
Proof.
  pose proof (terrain_needs_nodata_and_crs (Layer xfloat xfloat) (grid xfloat)
                squeeze_x rdarray_x crs_to_wkt_x geotransform_x
                TerrainAttribute_x
                dem_without_crs (Some "slope_riserun")) as [_ Hcrs].
  split; [by split_and!|].
  exact (Hcrs "-9999" (l_values dem_without_crs) eq_refl eq_refl eq_refl).
Defined.

Lemma terrain_output_witness :
  xr_terrain_x dem_layer (Some "slope_riserun") = Ok dem_layer
  /\ l_x dem_layer = l_x (squeeze_x dem_layer)
  /\ l_y dem_layer = l_y (squeeze_x dem_layer)
  /\ l_attrs dem_layer = l_attrs (squeeze_x dem_layer)
  /\ l_time dem_layer = None
  /\ shape_ok2 (l_x dem_layer) (l_y dem_layer) (l_values dem_layer) = true
  /\ exists nodata crs rda projection gt,
       dict_get "nodata" (l_attrs dem_layer) = Some nodata
       /\ dict_get "crs" (l_attrs dem_layer) = Some crs
       /\ rdarray_x (l_values (squeeze_x dem_layer)) nodata = Ok rda
       /\ crs_to_wkt_x crs = Ok projection
       /\ geotransform_x (squeeze_x dem_layer) = Ok gt
       /\ TerrainAttribute_x rda projection gt (Some "slope_riserun")
          = Ok (l_values dem_layer).
Proof.
  assert (Hrun : xr_terrain (Layer xfloat xfloat) (grid xfloat)
                   squeeze_x rdarray_x crs_to_wkt_x geotransform_x
                   TerrainAttribute_x dem_layer (Some "slope_riserun")
                 = Ok dem_layer) by (vm_compute; reflexivity).
  pose proof (terrain_output (Layer xfloat xfloat) (grid xfloat)
                squeeze_x rdarray_x crs_to_wkt_x geotransform_x
                TerrainAttribute_x
                dem_layer (Some "slope_riserun") dem_layer Hrun) as Hthm.
  split; [exact Hrun|exact Hthm].
Defined.

Lemma fill_all_nan_observed_witness :
  (pixel (v_values (fill_all_nan blank_beside_season)) 0 0
   = Some [xq 0 1; xq 0 1; xq 0 1; xq 0 1]
   /\ [xq 0 1; xq 0 1; xq 0 1; xq 0 1] <> [])
  /\ forallb is_nan [xq 0 1; xq 0 1; xq 0 1; xq 0 1] = false.
Proof.
  assert (Hne : [xq 0 1; xq 0 1; xq 0 1; xq 0 1] <> []) by discriminate.
  pose proof (fill_all_nan_observed blank_beside_season 0 0
                [xq 0 1; xq 0 1; xq 0 1; xq 0 1] eq_refl Hne) as Hthm.
  split; [by split_and!|exact Hthm].
Defined.

(** ** A peak with nothing before it, or nothing after it *)

Section EmptySide.
Context {F : Type} `{FloatLaws F}.
Variable nan_int16 : Z.

(** The index array of [allNaN_arg] has a cell for every slice. *)
Lemma argmin_index_pixel (d : grid (list F)) (idx : grid Z) (i j : nat)
    (s : list F) :
  argmin_index nan_int16 d = Ok idx -> pixel d i j = Some s ->
  exists k, pixel idx i j = Some k.
Proof.
  unfold argmin_index. intros Hidx Hs. exc_inv Hidx. rename a into r.
  destruct r as [g|]; [|done]. injection Hidx as <-.
  destruct (allNaN_arg_slice d "time" "min" g d i j s Ha eq_refl Hs)
    as (fill & k & _ & Hg).
  rewrite pixel_grid_map, Hg. simpl. eauto.
Qed.

Lemma select_index_pixel (method first_name : string) (d : grid (list F))
    (idx : grid Z) (i j : nat) (s : list F) :
  select_index nan_int16 method first_name d = Ok idx ->
  pixel d i j = Some s ->
  exists k, pixel idx i j = Some k.
Proof.
  unfold select_index. intros Hidx Hs.
  exc_inv Hidx. rename a into idx1, Ha into H1.
  exc_inv Hidx. rename a into idx2, Ha into H2.
  destruct idx2 as [r|]; [|done]. injection Hidx as ->.
  destruct (String.eqb method "median").
  - exc_inv H2. injection H2 as ->.
    eapply argmin_index_pixel; [exact Ha|].
    by rewrite pixel_grid_map, Hs.
  - injection H2 as ->. destruct (String.eqb method first_name); [|done].
    exc_inv H1. injection H1 as ->.
    eapply argmin_index_pixel; [exact Ha|exact Hs].
Qed.

(** The selection on one side of the peak has a value for every pixel:
    the observation at the selected time-step when that step is on the
    side, a NaN otherwise. *)
Lemma side_selection_value (cmp : Z -> Z -> bool) (mask : F -> F)
    (da : Volume F) (ptime : grid Z) (deriv : grid (list F))
    (method first_name : string) (idx : grid Z) (l : Layer F F)
    (i j : nat) (s : list F) (tp : Z) :
  (forall d, truthy (mask d) = true) ->
  differentiate_time (where_time cmp da ptime) = Ok deriv ->
  select_index nan_int16 method first_name
    (distance_from
       (v_values (where_float (where_time cmp da ptime)
                              (grid_map (map mask) deriv)))
       (grid_map nanmedian
          (v_values (where_float (where_time cmp da ptime)
                                 (grid_map (map mask) deriv))))) = Ok idx ->
  isel_time (where_float (where_time cmp da ptime)
                         (grid_map (map mask) deriv)) idx = Ok l ->
  pixel (v_values da) i j = Some s -> pixel ptime i j = Some tp ->
  length s = length (v_time da) ->
  exists p t w ts,
    v_time da !! p = Some t /\ s !! p = Some w
    /\ pixel (l_values l) i j = Some (if cmp t tp then w else nan)
    /\ l_time l = Some ts /\ pixel ts i j = Some t.
Proof.
  intros Hmask Hd Hidx Hsel Hs Htp Hlen.
  rewrite (where_float_true_mask _ _ _ Hmask Hd) in Hidx, Hsel.
  simpl in Hidx.
  pose proof (pixel_grid_zip
                (fun s tp => zip_with (fun t v => if cmp t tp then v else nan)
                                      (v_time da) s)
                _ _ _ _ _ _ Hs Htp) as Hside.
  assert (Hdist : exists d,
            pixel (distance_from
                     (v_values (where_time cmp da ptime))
                     (grid_map nanmedian (v_values (where_time cmp da ptime))))
                  i j = Some d).
  { eexists. unfold distance_from. apply pixel_grid_zip; [exact Hside|].
    rewrite pixel_grid_map. simpl. by rewrite Hside. }
  destruct Hdist as [d Hdist].
  destruct (select_index_pixel _ _ _ _ _ _ _ Hidx Hdist) as [k Hk].
  unfold isel_time in Hsel.
  exc_inv Hsel. rename a into vals, Ha into Hvals.
  exc_inv Hsel. rename a into ts, Ha into Hts.
  injection Hsel as <-. simpl.
  destruct (grid_exc_map_pixel _ _ _ _ _ _ Hvals
              (pixel_grid_zip pair _ _ _ _ _ _ Hside Hk))
    as (v & Hv & Hpix).
  destruct (grid_exc_map_pixel _ _ _ _ _ _ Hts Hk) as (t & Ht & Htpix).
  simpl in Ht.
  destruct (py_index_position _ _ _ Ht) as (p & Hp & Hsame).
  assert (Hvp : zip_with (fun t v => if cmp t tp then v else nan)
                         (v_time da) s !! p = Some v).
  { apply (Hsame _ _ v); [|exact Hv]. rewrite length_zip_with. lia. }
  rewrite lookup_zip_with, Hp in Hvp. simpl in Hvp.
  destruct (s !! p) as [w|] eqn:Hw; [|done]. simpl in Hvp.
  injection Hvp as <-.
  exists p, t, w, ts. by split_and!.
Qed.

(** X23.  A pixel whose peak is at its earliest time-step has no greening
    side: when [_vsos] returns, its value at start of season is a NaN,
    whatever the method, and yet its start of season is a day of the
    year, that of one of the time-steps of the record. *)
Theorem no_greening_side_start (da : Volume F) (pos : Layer F Z)
    (method_sos : string) (vsos : Layer F F) (ptime : grid Z)
    (i j : nat) (s : list F) (tp : Z) :
  _vsos nan_int16 da pos method_sos = Ok vsos ->
  l_time pos = Some ptime -> pixel ptime i j = Some tp ->
  pixel (v_values da) i j = Some s -> length s = length (v_time da) ->
  (forall t, t ∈ v_time da -> (tp <= t)%Z) ->
  exists v t,
    pixel (l_values vsos) i j = Some v /\ is_nan v = true
    /\ t ∈ v_time da
    /\ forall sos, _sos vsos = Ok sos ->
                   pixel (l_values sos) i j = Some (dayofyear t).
Proof.
  unfold _vsos, layer_time. intros Hvsos Hpt Htp Hs Hlen Hfirst.
  rewrite Hpt in Hvsos. simpl in Hvsos.
  exc_inv Hvsos. rename a into deriv, Ha into Hd.
  exc_inv Hvsos. rename a into idx, Ha into Hidx.
  destruct (side_selection_value Z.ltb _ _ _ _ _ _ _ _ _ _ _ _
              (fun d => proj1 (slope_mask_is_true d)) Hd Hidx Hvsos Hs Htp
              Hlen) as (p & t & w & ts & Ht & Hw & Hpix & Hts & Htpix).
  assert (Hin : t ∈ v_time da) by (by eapply list_elem_of_lookup_2).
  assert (Hcmp : (t <? tp)%Z = false).
  { apply Z.ltb_ge. by apply Hfirst. }
  rewrite Hcmp in Hpix. exists nan, t.
  split_and!; [done|apply is_nan_nan|done|].
  intros sos Hsos. eapply dayofyear_pixel; eauto.
Qed.

(** X24.  A pixel whose peak is at its latest time-step has no senescing
    side: when [_veos] returns, its value at end of season is a NaN,
    whatever the method, and yet its end of season is a day of the year,
    that of one of the time-steps of the record. *)
Theorem no_senescing_side_end (da : Volume F) (pos : Layer F Z)
    (method_eos : string) (veos : Layer F F) (ptime : grid Z)
    (i j : nat) (s : list F) (tp : Z) :
  _veos nan_int16 da pos method_eos = Ok veos ->
  l_time pos = Some ptime -> pixel ptime i j = Some tp ->
  pixel (v_values da) i j = Some s -> length s = length (v_time da) ->
  (forall t, t ∈ v_time da -> (t <= tp)%Z) ->
  exists v t,
    pixel (l_values veos) i j = Some v /\ is_nan v = true
    /\ t ∈ v_time da
    /\ forall eos, _eos veos = Ok eos ->
                   pixel (l_values eos) i j = Some (dayofyear t).
Proof.
  unfold _veos, layer_time. intros Hveos Hpt Htp Hs Hlen Hlast.
  rewrite Hpt in Hveos. simpl in Hveos.
  exc_inv Hveos. rename a into deriv, Ha into Hd.
  exc_inv Hveos. rename a into idx, Ha into Hidx.
  destruct (side_selection_value Z.gtb _ _ _ _ _ _ _ _ _ _ _ _
              (fun d => proj2 (slope_mask_is_true d)) Hd Hidx Hveos Hs Htp
              Hlen) as (p & t & w & ts & Ht & Hw & Hpix & Hts & Htpix).
  assert (Hin : t ∈ v_time da) by (by eapply list_elem_of_lookup_2).
  assert (Hcmp : (t >? tp)%Z = false).
  { specialize (Hlast t Hin). rewrite Z.gtb_ltb. apply Z.ltb_ge. lia. }
  rewrite Hcmp in Hpix. exists nan, t.
  split_and!; [done|apply is_nan_nan|done|].
  intros eos Heos. eapply dayofyear_pixel; eauto.
Qed.

End EmptySide.

Lemma no_greening_side_start_witness :
  (_vsos 0 falling_beside_season falling_pos "first" = Ok falling_vsos
   /\ l_time falling_pos = Some [[timestamp 2020 10; timestamp 2020 20]]
   /\ pixel [[timestamp 2020 10; timestamp 2020 20]] 0 0
      = Some (timestamp 2020 10)
   /\ pixel (v_values falling_beside_season) 0 0
      = Some [xq 4 1; xq 3 1; xq 2 1; xq 1 1]
   /\ length [xq 4 1; xq 3 1; xq 2 1; xq 1 1]
      = length (v_time falling_beside_season)
   /\ forall t, t ∈ v_time falling_beside_season ->
                (timestamp 2020 10 <= t)%Z)
  /\ exists v t,
       pixel (l_values falling_vsos) 0 0 = Some v /\ is_nan v = true
       /\ t ∈ v_time falling_beside_season
       /\ forall sos, _sos falling_vsos = Ok sos ->
                      pixel (l_values sos) 0 0 = Some (dayofyear t).
Proof.
  assert (Hfirst : forall t, t ∈ v_time falling_beside_season ->
                             (timestamp 2020 10 <= t)%Z).
  { intros t Ht. unfold falling_beside_season, v_time in Ht.
    cbn [map] in Ht. rewrite !elem_of_cons in Ht.
    destruct Ht as [->|[->|[->|[->|Ht]]]];
      [vm_compute; intros Hc; discriminate Hc..|by apply elem_of_nil in Ht]. }
  assert (Hv : _vsos 0 falling_beside_season falling_pos "first"
               = Ok falling_vsos) by (vm_compute; reflexivity).
  pose proof (no_greening_side_start 0 falling_beside_season falling_pos
                "first" falling_vsos
                [[timestamp 2020 10; timestamp 2020 20]] 0 0
                [xq 4 1; xq 3 1; xq 2 1; xq 1 1] (timestamp 2020 10)
                Hv eq_refl eq_refl eq_refl eq_refl Hfirst) as Hthm.
  split; [|exact Hthm].
  split; [exact Hv|]. split; [reflexivity|]. split; [reflexivity|].
  split; [reflexivity|]. split; [reflexivity|exact Hfirst].
Defined.

Lemma no_senescing_side_end_witness :
  (_veos 0 rising_beside_season rising_pos "last" = Ok rising_veos
   /\ l_time rising_pos = Some [[timestamp 2020 40; timestamp 2020 20]]
   /\ pixel [[timestamp 2020 40; timestamp 2020 20]] 0 0
      = Some (timestamp 2020 40)
   /\ pixel (v_values rising_beside_season) 0 0 = Some rising_series
   /\ length rising_series = length (v_time rising_beside_season)
   /\ forall t, t ∈ v_time rising_beside_season ->
                (t <= timestamp 2020 40)%Z)
  /\ exists v t,
       pixel (l_values rising_veos) 0 0 = Some v /\ is_nan v = true
       /\ t ∈ v_time rising_beside_season
       /\ forall eos, _eos rising_veos = Ok eos ->
                      pixel (l_values eos) 0 0 = Some (dayofyear t).
Proof.
  assert (Hlast : forall t, t ∈ v_time rising_beside_season ->
                            (t <= timestamp 2020 40)%Z).
  { intros t Ht. unfold rising_beside_season, v_time in Ht.
    cbn [map] in Ht. rewrite !elem_of_cons in Ht.
    destruct Ht as [->|[->|[->|[->|Ht]]]];
      [vm_compute; intros Hc; discriminate Hc..|by apply elem_of_nil in Ht]. }
  assert (Hv : _veos 0 rising_beside_season rising_pos "last"
               = Ok rising_veos) by (vm_compute; reflexivity).
  pose proof (no_senescing_side_end 0 rising_beside_season rising_pos
                "last" rising_veos
                [[timestamp 2020 40; timestamp 2020 20]] 0 0
                rising_series (timestamp 2020 40)
                Hv eq_refl eq_refl eq_refl eq_refl Hlast) as Hthm.
  split; [|exact Hthm].
  split; [exact Hv|]. split; [reflexivity|]. split; [reflexivity|].
  split; [reflexivity|]. split; [reflexivity|exact Hlast].
Defined.

(** ** The order of the values *)

Section ValueOrder.
Context {F : Type} `{FloatLaws F}.
Variable nan_int16 : Z.

Lemma flt_nan_l (a b : F) : is_nan a = true -> flt a b = false.
Proof.
  intros Ha. destruct (flt a b) eqn:Hab; [|done].
  apply flt_not_nan in Hab as [Hn _]. by rewrite Ha in Hn.
Qed.

Lemma flt_nan_r (a b : F) : is_nan b = true -> flt a b = false.
Proof.
  intros Hb. destruct (flt a b) eqn:Hab; [|done].
  apply flt_not_nan in Hab as [_ Hn]. by rewrite Hb in Hn.
Qed.

(** An observation of a series lies between its trough and its peak. *)
Lemma observation_between (s : list F) (pv tv v : F) :
  nanmax s = Ok pv -> nanmin s = Ok tv -> v ∈ s -> is_nan v = false ->
  flt pv v = false /\ flt v tv = false.
Proof.
  intros Hpv Htv Hv Hnan.
  apply nanmax_spec in Hpv. apply nanmin_spec in Htv.
  unfold reduces_to in Hpv, Htv.
  assert (Hobs : forallb is_nan s = false).
  { destruct (forallb is_nan s) eqn:Hall; [|done].
    rewrite forallb_forall in Hall.
    rewrite (Hall v) in Hnan; [done|by apply list_elem_of_In]. }
  rewrite Hobs in Hpv, Htv.
  destruct Hpv as (_ & _ & Hmax). destruct Htv as (_ & _ & Hmin).
  split; [by apply Hmax|]. by apply (Hmin v).
Qed.

(** X25.  The trough of a pixel is never above its peak: the value of
    [_vpos] is not less than the value of [_trough], on every pixel of
    every array on which both return. *)
Theorem trough_never_above_peak (da : Volume F) (vpos trough : Layer F F)
    (i j : nat) (pv tv : F) :
  _vpos da = Ok vpos -> _trough da = Ok trough ->
  pixel (l_values vpos) i j = Some pv ->
  pixel (l_values trough) i j = Some tv ->
  flt pv tv = false.
Proof.
  unfold _vpos, _trough, reduce_time. intros Hvpos Htrough Hpv Htv.
  exc_inv Hvpos. injection Hvpos as <-. simpl in Hpv.
  exc_inv Htrough. injection Htrough as <-. simpl in Htv.
  destruct (grid_exc_map_pixel_inv _ _ _ _ _ _ Ha Hpv) as (s & Hs & Hmax).
  destruct (grid_exc_map_pixel_inv _ _ _ _ _ _ Ha0 Htv) as (s' & Hs' & Hmin).
  rewrite Hs in Hs'. injection Hs' as <-.
  destruct (is_nan tv) eqn:Hnan; [by apply flt_nan_r|].
  pose proof (nanmin_spec _ _ Hmin) as Hred. unfold reduces_to in Hred.
  destruct (forallb is_nan s) eqn:Hall; [by rewrite Hred in Hnan|].
  destruct Hred as (Hin & _ & _).
  by destruct (observation_between s pv tv tv Hmax Hmin Hin Hnan).
Qed.

(** X26.  The values at start and at end of season lie between the
    trough and the peak of their pixel: neither is the peak value less
    than them nor are they less than the trough value (a NaN compares
    with nothing). *)
Theorem season_values_between_trough_and_peak (da : Volume F)
    (pos : Layer F Z) (method : string) (vpos trough sel : Layer F F)
    (ptime : grid Z) (i j : nat) (s : list F) (tp : Z) (pv tv v : F) :
  _vsos nan_int16 da pos method = Ok sel
  \/ _veos nan_int16 da pos method = Ok sel ->
  l_time pos = Some ptime -> pixel ptime i j = Some tp ->
  pixel (v_values da) i j = Some s -> length s = length (v_time da) ->
  _vpos da = Ok vpos -> _trough da = Ok trough ->
  pixel (l_values sel) i j = Some v ->
  pixel (l_values vpos) i j = Some pv ->
  pixel (l_values trough) i j = Some tv ->
  flt pv v = false /\ flt v tv = false.
Proof.
  intros Hsel Hpt Htp Hs Hlen Hvpos Htrough Hv Hpv Htv.
  destruct (is_nan v) eqn:Hnan.
  { split; [by apply flt_nan_r|by apply flt_nan_l]. }
  destruct (vpos_pixel _ _ _ _ _ Hvpos Hs) as (pv' & Hmax & Hpv').
  destruct (trough_pixel _ _ _ _ _ Htrough Hs) as (tv' & Hmin & Htv').
  rewrite Hpv in Hpv'. injection Hpv' as <-.
  rewrite Htv in Htv'. injection Htv' as <-.
  assert (Hin : v ∈ s).
  { destruct Hsel as [Hsel|Hsel].
    - unfold _vsos, layer_time in Hsel. rewrite Hpt in Hsel. simpl in Hsel.
      exc_inv Hsel. rename a into deriv, Ha into Hd. exc_inv Hsel.
      destruct (side_selection Z.ltb _ _ _ _ _ _ _ _ _ _ _
                  (fun d => proj1 (slope_mask_is_true d)) Hd Hsel Hs Htp
                  Hlen Hv Hnan) as (p & t & ts & Hp & _).
      by eapply list_elem_of_lookup_2.
    - unfold _veos, layer_time in Hsel. rewrite Hpt in Hsel. simpl in Hsel.
      exc_inv Hsel. rename a into deriv, Ha into Hd. exc_inv Hsel.
      destruct (side_selection Z.gtb _ _ _ _ _ _ _ _ _ _ _
                  (fun d => proj2 (slope_mask_is_true d)) Hd Hsel Hs Htp
                  Hlen Hv Hnan) as (p & t & ts & Hp & _).
      by eapply list_elem_of_lookup_2. }
  by apply (observation_between s).
Qed.

End ValueOrder.

Lemma trough_never_above_peak_witness :
  (_vpos season_volume = Ok season_vpos
   /\ _trough season_volume = Ok season_trough
   /\ pixel (l_values season_vpos) 0 0 = Some (xq 95 100)
   /\ pixel (l_values season_trough) 0 0 = Some (xq 10 100))
  /\ flt (xq 95 100) (xq 10 100) = false.
Proof.
  assert (Hvpos : _vpos season_volume = Ok season_vpos)
    by (vm_compute; reflexivity).
  assert (Htrough : _trough season_volume = Ok season_trough)
    by (vm_compute; reflexivity).
  pose proof (trough_never_above_peak season_volume season_vpos
                season_trough 0 0 (xq 95 100) (xq 10 100)
                Hvpos Htrough eq_refl eq_refl) as Hthm.
  split; [|exact Hthm].
  split; [exact Hvpos|]. split; [exact Htrough|].
  split; reflexivity.
Defined.

Lemma season_values_between_trough_and_peak_witness :
  ((_vsos 0 season_volume season_pos "median" = Ok season_vsos
    \/ _veos 0 season_volume season_pos "median" = Ok season_vsos)
   /\ l_time season_pos = Some [[timestamp 2020 120]]
   /\ pixel [[timestamp 2020 120]] 0 0 = Some (timestamp 2020 120)
   /\ pixel (v_values season_volume) 0 0 = Some season_series
   /\ length season_series = length (v_time season_volume)
   /\ _vpos season_volume = Ok season_vpos
   /\ _trough season_volume = Ok season_trough
   /\ pixel (l_values season_vsos) 0 0 = Some (xq 20 100)
   /\ pixel (l_values season_vpos) 0 0 = Some (xq 95 100)
   /\ pixel (l_values season_trough) 0 0 = Some (xq 10 100))
  /\ flt (xq 95 100) (xq 20 100) = false
  /\ flt (xq 20 100) (xq 10 100) = false.
Proof.
  assert (Hvpos : _vpos season_volume = Ok season_vpos)
    by (vm_compute; reflexivity).
  assert (Htrough : _trough season_volume = Ok season_trough)
    by (vm_compute; reflexivity).
  assert (Hsel : _vsos 0 season_volume season_pos "median" = Ok season_vsos
                 \/ _veos 0 season_volume season_pos "median"
                    = Ok season_vsos)
    by (left; vm_compute; reflexivity).
  pose proof (season_values_between_trough_and_peak 0 season_volume
                season_pos "median" season_vpos season_trough season_vsos
                [[timestamp 2020 120]] 0 0 season_series
                (timestamp 2020 120) (xq 95 100) (xq 10 100) (xq 20 100)
                Hsel eq_refl eq_refl eq_refl eq_refl Hvpos Htrough
                eq_refl eq_refl eq_refl) as Hthm.
  split; [|exact Hthm].
  split; [exact Hsel|]. split; [reflexivity|]. split; [reflexivity|].
  split; [reflexivity|]. split; [reflexivity|]. split; [exact Hvpos|].
  split; [exact Htrough|]. split; [reflexivity|]. split; reflexivity.
Defined.
